(** * CellManager (src/cell_manager.cpp): a shallow embedding

    The host-side driver of the GPU cell simulation: staging of host-authored
    cells, the upload into the addition queue, the frame driver, reset, the
    debug drag tool and ray picking.

    Modelling choices.
    - [float] is IEEE binary32, carried as [spec_float] values and computed
      with the Standard Library's [SpecFloat] operations at precision 24.
    - C++ [int] counters are integers of [Z]; the conversions between the
      unsigned device counters and the host's [int]s are written out
      ([uint_to_int], [int_to_uint]).
    - A [std::vector] is a list; [operator[]] outside the vector is undefined
      behaviour and is the [Undefined] outcome of the monad [M].
    - A GL buffer object is a list of records (cell stores) or of 32-bit words;
      a sub-range upload outside the store raises GL_INVALID_VALUE and writes
      nothing, as the GL specification says.
    - Compute shaders are not part of the C++ source: a dispatch applies an
      arbitrary transformer of device memory ([run_shader], a parameter).
    - Console output, the buffer rotation and every GL command that reads,
      writes or orders buffer memory are logged, in program order, in the
      trace that [M] returns; the uniforms and bindings of a dispatch are
      arguments of its event. *)

From Stdlib Require Import ZArith Reals Lra Lia SpecFloat.
From stdpp Require Import base list strings.

Local Open Scope Z_scope.

(** ** binary32 floats *)

Module F32.

Definition prec : Z := 24.
Definition emax : Z := 128.

Definition add : spec_float -> spec_float -> spec_float := SFadd prec emax.
Definition sub : spec_float -> spec_float -> spec_float := SFsub prec emax.
Definition mul : spec_float -> spec_float -> spec_float := SFmul prec emax.
Definition div : spec_float -> spec_float -> spec_float := SFdiv prec emax.
Definition sqrt : spec_float -> spec_float := SFsqrt prec emax.
Definition opp : spec_float -> spec_float := SFopp.
Definition ltb : spec_float -> spec_float -> bool := SFltb.

(** An integer literal or an [int] converted to [float]. *)
Definition of_Z (n : Z) : spec_float := binary_normalize prec emax n 0 false.

(** The decimal literal [n / d] rounded to nearest, as the compiler does. *)
Definition of_ratio (n d : Z) : spec_float := div (of_Z n) (of_Z d).

Definition zero : spec_float := S754_zero false.
Definition one : spec_float := of_Z 1.

End F32.

Abbreviation float := spec_float.

(** ** glm vectors *)

Module vec3.
Record t (F : Type) := mk { x : F; y : F; z : F }.
Arguments mk {F} _ _ _.
Arguments x {F} _.
Arguments y {F} _.
Arguments z {F} _.
End vec3.

Module vec4.
Record t := mk { x : float; y : float; z : float; w : float }.

Definition zero : t := mk F32.zero F32.zero F32.zero F32.zero.
Definition set_x (v : float) (a : t) : t := mk v (y a) (z a) (w a).
Definition set_y (v : float) (a : t) : t := mk (x a) v (z a) (w a).
Definition set_z (v : float) (a : t) : t := mk (x a) (y a) v (w a).
Definition set_w (v : float) (a : t) : t := mk (x a) (y a) (z a) v.
End vec4.

(** ** The cell record

    Modelled from the spec: cell_manager.h, which declares [ComputeCell], is
    missing. The fields are those of the spec's data model (section 3); the
    source under src/ names [positionAndMass], [velocity], [acceleration],
    [orientation] and [modeIndex]. *)

Record ComputeCell := mkComputeCell {
  positionAndMass : vec4.t;
  velocity : vec4.t;
  acceleration : vec4.t;
  orientation : vec4.t;
  age : float;
  splitTimer : float;
  modeIndex : Z
}.

Definition set_positionAndMass (v : vec4.t) (c : ComputeCell) : ComputeCell :=
  mkComputeCell v (velocity c) (acceleration c) (orientation c)
    (age c) (splitTimer c) (modeIndex c).

Definition set_velocity (v : vec4.t) (c : ComputeCell) : ComputeCell :=
  mkComputeCell (positionAndMass c) v (acceleration c) (orientation c)
    (age c) (splitTimer c) (modeIndex c).

(** [ComputeCell{}]: value-initialisation zeroes every member. It is also the
    record read from a store cleared with a zero fill. *)
Definition ComputeCell_zero : ComputeCell :=
  mkComputeCell vec4.zero vec4.zero vec4.zero vec4.zero F32.zero F32.zero 0.

(** Modelled from the spec: [SelectedCellInfo] is declared in the missing
    cell_manager.h; the members are those the source reads and writes. *)
Record SelectedCellInfo := mkSelectedCellInfo {
  cellIndex : Z;
  cellData : ComputeCell;
  isValid : bool;
  dragDistance : float;
  dragOffset : vec3.t float
}.

Definition set_cellIndex (v : Z) (i : SelectedCellInfo) : SelectedCellInfo :=
  mkSelectedCellInfo v (cellData i) (isValid i) (dragDistance i) (dragOffset i).
Definition set_cellData (v : ComputeCell) (i : SelectedCellInfo) : SelectedCellInfo :=
  mkSelectedCellInfo (cellIndex i) v (isValid i) (dragDistance i) (dragOffset i).
Definition set_isValid (v : bool) (i : SelectedCellInfo) : SelectedCellInfo :=
  mkSelectedCellInfo (cellIndex i) (cellData i) v (dragDistance i) (dragOffset i).

(** ** Configuration

    Modelled from the spec: config.h is missing; its constants are the
    members of a class, so every definition below is parametric in them. *)

Class Config := {
  MAX_CELLS : Z;
  MAX_CELLS_PER_GRID : Z;
  GRID_RESOLUTION : Z;
  TOTAL_GRID_CELLS : Z;
  GRID_CELL_SIZE : float;
  WORLD_SIZE : float
}.

(** ** Device memory *)

(** The buffer handles of the class. *)
Inductive Buffer :=
| cellBuffer (i : nat)
| instanceBuffer
| modeBuffer
| gpuCellCountBuffer
| stagingCellCountBuffer
| cellAdditionBuffer
| gridBuffer
| gridCountBuffer
| gridOffsetBuffer.

(** The contents of the buffer objects. The three cell buffers and the
    addition queue hold cell records; the counter pair and its host-mapped
    mirror hold two unsigned 32-bit integers (live count at offset 0, pending
    count at offset 4); the other buffers are seen by the host as 32-bit
    words only. *)
#[projections(primitive)]
Record GPU := mkGPU {
  mem_cells : list (list ComputeCell);
  mem_additions : list ComputeCell;
  mem_counter : Z * Z;
  mem_staging : Z * Z;
  mem_instances : list Z;
  mem_modes : list Z;
  mem_grid : list Z;
  mem_gridCount : list Z;
  mem_gridOffset : list Z
}.

Definition set_mem_cells (v : list (list ComputeCell)) (g : GPU) : GPU :=
  mkGPU v (mem_additions g) (mem_counter g) (mem_staging g) (mem_instances g)
    (mem_modes g) (mem_grid g) (mem_gridCount g) (mem_gridOffset g).
Definition set_mem_additions (v : list ComputeCell) (g : GPU) : GPU :=
  mkGPU (mem_cells g) v (mem_counter g) (mem_staging g) (mem_instances g)
    (mem_modes g) (mem_grid g) (mem_gridCount g) (mem_gridOffset g).
Definition set_mem_counter (v : Z * Z) (g : GPU) : GPU :=
  mkGPU (mem_cells g) (mem_additions g) v (mem_staging g) (mem_instances g)
    (mem_modes g) (mem_grid g) (mem_gridCount g) (mem_gridOffset g).
Definition set_mem_staging (v : Z * Z) (g : GPU) : GPU :=
  mkGPU (mem_cells g) (mem_additions g) (mem_counter g) v (mem_instances g)
    (mem_modes g) (mem_grid g) (mem_gridCount g) (mem_gridOffset g).
Definition set_mem_instances (v : list Z) (g : GPU) : GPU :=
  mkGPU (mem_cells g) (mem_additions g) (mem_counter g) (mem_staging g) v
    (mem_modes g) (mem_grid g) (mem_gridCount g) (mem_gridOffset g).
Definition set_mem_grid (v : list Z) (g : GPU) : GPU :=
  mkGPU (mem_cells g) (mem_additions g) (mem_counter g) (mem_staging g)
    (mem_instances g) (mem_modes g) v (mem_gridCount g) (mem_gridOffset g).
Definition set_mem_gridCount (v : list Z) (g : GPU) : GPU :=
  mkGPU (mem_cells g) (mem_additions g) (mem_counter g) (mem_staging g)
    (mem_instances g) (mem_modes g) (mem_grid g) v (mem_gridOffset g).
Definition set_mem_gridOffset (v : list Z) (g : GPU) : GPU :=
  mkGPU (mem_cells g) (mem_additions g) (mem_counter g) (mem_staging g)
    (mem_instances g) (mem_modes g) (mem_grid g) (mem_gridCount g) v.

(** ** Shaders *)

Inductive Shader :=
| physicsShader
| updateShader
| internalUpdateShader
| extractShader
| cellCounterShader
| cellAdditionShader
| gridClearShader
| gridAssignShader
| gridPrefixSumShader
| gridInsertShader.

#[global] Instance Shader_eq_dec : EqDecision Shader.
Proof. solve_decision. Defined.

Inductive UniformValue :=
| UInt (v : Z)
| UFloat (v : float).

Definition Uniforms := list (string * UniformValue).
Definition Bindings := list (nat * Buffer).

(** What a dispatch does to device memory. The shader sources are not part
    of the C++ translation unit, so the semantics is a parameter. *)
Class Shaders := {
  run_shader : Shader -> Uniforms -> Bindings -> Z -> GPU -> GPU
}.

(** ** The host object *)

#[projections(primitive)]
Record CellManager := mkCellManager {
  cpuCells : list ComputeCell;
  cellStagingBuffer : list ComputeCell;
  cellCount : Z;
  cpuPendingCellCount : Z;
  gpuPendingCellCount : Z;
  bufferRotation : Z;
  selectedCell : SelectedCellInfo;
  isDraggingCell : bool;
  device : GPU
}.

Definition set_cpuCells (v : list ComputeCell) (s : CellManager) : CellManager :=
  mkCellManager v (cellStagingBuffer s) (cellCount s) (cpuPendingCellCount s)
    (gpuPendingCellCount s) (bufferRotation s) (selectedCell s)
    (isDraggingCell s) (device s).
Definition set_cellStagingBuffer (v : list ComputeCell) (s : CellManager) : CellManager :=
  mkCellManager (cpuCells s) v (cellCount s) (cpuPendingCellCount s)
    (gpuPendingCellCount s) (bufferRotation s) (selectedCell s)
    (isDraggingCell s) (device s).
Definition set_cellCount (v : Z) (s : CellManager) : CellManager :=
  mkCellManager (cpuCells s) (cellStagingBuffer s) v (cpuPendingCellCount s)
    (gpuPendingCellCount s) (bufferRotation s) (selectedCell s)
    (isDraggingCell s) (device s).
Definition set_cpuPendingCellCount (v : Z) (s : CellManager) : CellManager :=
  mkCellManager (cpuCells s) (cellStagingBuffer s) (cellCount s) v
    (gpuPendingCellCount s) (bufferRotation s) (selectedCell s)
    (isDraggingCell s) (device s).
Definition set_gpuPendingCellCount (v : Z) (s : CellManager) : CellManager :=
  mkCellManager (cpuCells s) (cellStagingBuffer s) (cellCount s)
    (cpuPendingCellCount s) v (bufferRotation s) (selectedCell s)
    (isDraggingCell s) (device s).
Definition set_bufferRotation (v : Z) (s : CellManager) : CellManager :=
  mkCellManager (cpuCells s) (cellStagingBuffer s) (cellCount s)
    (cpuPendingCellCount s) (gpuPendingCellCount s) v (selectedCell s)
    (isDraggingCell s) (device s).
Definition set_selectedCell (v : SelectedCellInfo) (s : CellManager) : CellManager :=
  mkCellManager (cpuCells s) (cellStagingBuffer s) (cellCount s)
    (cpuPendingCellCount s) (gpuPendingCellCount s) (bufferRotation s) v
    (isDraggingCell s) (device s).
Definition set_isDraggingCell (v : bool) (s : CellManager) : CellManager :=
  mkCellManager (cpuCells s) (cellStagingBuffer s) (cellCount s)
    (cpuPendingCellCount s) (gpuPendingCellCount s) (bufferRotation s)
    (selectedCell s) v (device s).
Definition set_device (v : GPU) (s : CellManager) : CellManager :=
  mkCellManager (cpuCells s) (cellStagingBuffer s) (cellCount s)
    (cpuPendingCellCount s) (gpuPendingCellCount s) (bufferRotation s)
    (selectedCell s) (isDraggingCell s) v.

(** ** The trace *)

Inductive Message :=
| MsgAddingCells (newCellCount current : Z)
| MsgMaxCellsWarning
| MsgSplitEvent (previous current : Z)
| MsgReset.

Inductive Event :=
| Stdout (m : Message)
| GLBufferSubData (b : Buffer) (offset count : Z)
| GLCopyBufferSubData (src dst : Buffer)
| GLClearBufferData (b : Buffer)
| GLMemoryBarrier
| GLDispatch (sh : Shader) (u : Uniforms) (b : Bindings) (numGroups : Z)
| GLInvalidValue
| RotateBuffers.

(** ** The monad: state, trace and undefined behaviour *)

Inductive Result (A : Type) :=
| Ok (a : A)
| Undefined.
Arguments Ok {A} _.
Arguments Undefined {A}.

Definition M (A : Type) : Type :=
  CellManager -> Result (A * CellManager * list Event).

#[global] Instance M_ret : MRet M := fun A a s => Ok (a, s, []).

#[global] Instance M_bind : MBind M := fun A B f m s =>
  match m s with
  | Ok (a, s1, t1) =>
      match f a s1 with
      | Ok (b, s2, t2) => Ok (b, s2, t1 ++ t2)
      | Undefined => Undefined
      end
  | Undefined => Undefined
  end.

Definition get : M CellManager := fun s => Ok (s, s, []).
Definition modify (f : CellManager -> CellManager) : M unit :=
  fun s => Ok (tt, f s, []).
Definition emit (e : Event) : M unit := fun s => Ok (tt, s, [e]).
Definition undefined {A} : M A := fun _ => Undefined.
Definition modify_device (f : GPU -> GPU) : M unit :=
  modify (fun s => set_device (f (device s)) s).

Definition when (b : bool) (m : M unit) : M unit :=
  if b then m else mret tt.

(** [for (x : xs) body]. *)
Fixpoint for_each {X} (xs : list X) (body : X -> M unit) : M unit :=
  match xs with
  | [] => mret tt
  | x :: xs' => body x ;; for_each xs' body
  end.

(** The state and the trace of a run that returns. *)
Definition state_of {A} (r : Result (A * CellManager * list Event)) : option CellManager :=
  match r with Ok (_, s, _) => Some s | Undefined => None end.
Definition trace_of {A} (r : Result (A * CellManager * list Event)) : list Event :=
  match r with Ok (_, _, t) => t | Undefined => [] end.

(** ** Integer conversions *)

(** [int x = u] for a [GLuint u] (modular since C++20). *)
Definition uint_to_int (u : Z) : Z :=
  if u <? 2 ^ 31 then u else u - 2 ^ 32.

(** The four bytes of an [int] read back as a [GLuint]. *)
Definition int_to_uint (i : Z) : Z := i mod 2 ^ 32.

(** [v[i]] on a [std::vector]: [None] stands for an access outside it. *)
Definition index_of {A} (i : Z) (v : list A) : option A :=
  if 0 <=? i then v !! Z.to_nat i else None.

(** ** GL commands

    Offsets and sizes of cell stores are counted in records: the source
    always passes multiples of [sizeof(ComputeCell)]. *)

Definition cell_store (b : Buffer) (g : GPU) : option (list ComputeCell) :=
  match b with
  | cellBuffer i => mem_cells g !! i
  | cellAdditionBuffer => Some (mem_additions g)
  | _ => None
  end.

Definition set_cell_store (b : Buffer) (v : list ComputeCell) (g : GPU) : GPU :=
  match b with
  | cellBuffer i => set_mem_cells (<[i := v]> (mem_cells g)) g
  | cellAdditionBuffer => set_mem_additions v g
  | _ => g
  end.

(** [glNamedBufferSubData] on a cell store. GL_INVALID_VALUE is generated,
    and nothing is written, if the offset is negative or the range ends
    after the end of the store. *)
Definition glNamedBufferSubData (b : Buffer) (offset : Z) (data : list ComputeCell) : M unit :=
  emit (GLBufferSubData b offset (Z.of_nat (length data))) ;;
  s ← get;
  match cell_store b (device s) with
  | Some st =>
      if (0 <=? offset) && (offset + Z.of_nat (length data) <=? Z.of_nat (length st))
      then modify_device (set_cell_store b (list_inserts (Z.to_nat offset) data st))
      else emit GLInvalidValue
  | None => emit GLInvalidValue
  end.

Definition set_count (word : Z) (v : Z) (p : Z * Z) : Z * Z :=
  if word =? 0 then (v, p.2) else if word =? 1 then (p.1, v) else p.

(** [glNamedBufferSubData(gpuCellCountBuffer, 4 * word, 4, &v)]. *)
Definition glNamedBufferSubData_count (word : Z) (v : Z) : M unit :=
  emit (GLBufferSubData gpuCellCountBuffer word 1) ;;
  modify_device (fun g => set_mem_counter (set_count word v (mem_counter g)) g).

(** [glCopyNamedBufferSubData(gpuCellCountBuffer, stagingCellCountBuffer,
    0, 0, sizeof(GLuint) * 2)]. *)
Definition glCopyNamedBufferSubData_counts : M unit :=
  emit (GLCopyBufferSubData gpuCellCountBuffer stagingCellCountBuffer) ;;
  modify_device (fun g => set_mem_staging (mem_counter g) g).

Definition zero_fill {A} (zero : A) (l : list A) : list A :=
  replicate (length l) zero.

Definition clear_buffer (b : Buffer) (g : GPU) : GPU :=
  match b with
  | cellBuffer i =>
      set_mem_cells (alter (zero_fill ComputeCell_zero) i (mem_cells g)) g
  | cellAdditionBuffer =>
      set_mem_additions (zero_fill ComputeCell_zero (mem_additions g)) g
  | instanceBuffer => set_mem_instances (zero_fill 0 (mem_instances g)) g
  | gridBuffer => set_mem_grid (zero_fill 0 (mem_grid g)) g
  | gridCountBuffer => set_mem_gridCount (zero_fill 0 (mem_gridCount g)) g
  | gridOffsetBuffer => set_mem_gridOffset (zero_fill 0 (mem_gridOffset g)) g
  | gpuCellCountBuffer => set_mem_counter (0, 0) g
  | stagingCellCountBuffer => set_mem_staging (0, 0) g
  | modeBuffer => mkGPU (mem_cells g) (mem_additions g) (mem_counter g)
      (mem_staging g) (mem_instances g) (zero_fill 0 (mem_modes g))
      (mem_grid g) (mem_gridCount g) (mem_gridOffset g)
  end.

(** [glClearNamedBufferData(b, GL_R32UI, GL_RED_INTEGER, GL_UNSIGNED_INT,
    nullptr)]: a zero fill. *)
Definition glClearNamedBufferData (b : Buffer) : M unit :=
  emit (GLClearBufferData b) ;; modify_device (clear_buffer b).

Definition glMemoryBarrier : M unit := emit GLMemoryBarrier.

(** [countPtr[i]]: the host's persistent mapping of the staging pair. *)
Definition countPtr (i : nat) (s : CellManager) : Z :=
  match i with
  | O => (mem_staging (device s)).1
  | _ => (mem_staging (device s)).2
  end.

Section Operations.
Context `{Config} `{Shaders}.

(** [shader->use(); set uniforms; bind; shader->dispatch(numGroups, 1, 1)].
    The uniforms and the [glBindBufferBase] bindings are the arguments of
    the event. The [glBindBuffer(GL_SHADER_STORAGE_BUFFER, 0)] that the
    source issues after each dispatch changes the binding point only, no
    buffer memory: like the GPU timers it is not an event of the trace,
    which lists console output and the commands that read, write or order
    buffer memory. *)
Definition dispatch (sh : Shader) (u : Uniforms) (b : Bindings) (numGroups : Z) : M unit :=
  emit (GLDispatch sh u b numGroups) ;;
  modify_device (run_shader sh u b numGroups).

(** Modelled from the spec: [getCellReadBuffer], [getCellWriteBuffer] and
    [rotateBuffers] are defined in the missing cell_manager.h. Section 4.1:
    the read view is [B[r]], the write view is [B[(r+1) mod 3]], and at the
    end of the frame [r := (r+1) mod 3]. *)
Definition getCellReadBuffer (s : CellManager) : Buffer :=
  cellBuffer (Z.to_nat (bufferRotation s)).
Definition getCellWriteBuffer (s : CellManager) : Buffer :=
  cellBuffer (Z.to_nat ((bufferRotation s + 1) mod 3)).
Definition rotateBuffers : M unit :=
  emit RotateBuffers ;;
  modify (fun s => set_bufferRotation ((bufferRotation s + 1) mod 3) s).

(** *** Host ingress *)

Definition addCellsToGPUBuffer (cells : list ComputeCell) : M unit :=
  let newCellCount := Z.of_nat (length cells) in
  s ← get;
  emit (Stdout (MsgAddingCells newCellCount (cellCount s))) ;;
  if cellCount s + newCellCount >? MAX_CELLS
  then emit (Stdout MsgMaxCellsWarning)
  else
    glNamedBufferSubData cellAdditionBuffer (gpuPendingCellCount s) cells ;;
    modify (fun s => set_gpuPendingCellCount (gpuPendingCellCount s + newCellCount) s) ;;
    s1 ← get;
    glNamedBufferSubData_count 1 (int_to_uint (gpuPendingCellCount s1)) ;;
    glCopyNamedBufferSubData_counts.

Definition addCellToGPUBuffer (newCell : ComputeCell) : M unit :=
  addCellsToGPUBuffer [newCell].

Definition addCellToStagingBuffer (newCell : ComputeCell) : M unit :=
  s ← get;
  if cellCount s + 1 >? MAX_CELLS
  then emit (Stdout MsgMaxCellsWarning)
  else
    let correctedCell :=
      set_positionAndMass (vec4.set_w F32.one (positionAndMass newCell)) newCell in
    modify (fun s => set_cellStagingBuffer (cellStagingBuffer s ++ [correctedCell]) s) ;;
    modify (fun s => set_cpuCells (cpuCells s ++ [correctedCell]) s) ;;
    modify (fun s => set_cpuPendingCellCount (cpuPendingCellCount s + 1) s).

Definition addStagedCellsToGPUBuffer : M unit :=
  s ← get;
  match cellStagingBuffer s with
  | [] => mret tt
  | _ :: _ =>
      addCellsToGPUBuffer (cellStagingBuffer s) ;;
      modify (set_cellStagingBuffer []) ;;
      modify (set_cpuPendingCellCount 0)
  end.

(** *** The CPU mirror *)

(** A read of [cpuCells[index]]. *)
Definition cpuCells_at (index : Z) : M ComputeCell :=
  s ← get;
  match index_of index (cpuCells s) with
  | Some c => mret c
  | None => undefined
  end.

(** A write through the reference [cpuCells[index]]. *)
Definition cpuCells_update (index : Z) (f : ComputeCell -> ComputeCell) : M unit :=
  s ← get;
  match index_of index (cpuCells s) with
  | Some c => modify (set_cpuCells (<[Z.to_nat index := f c]> (cpuCells s)))
  | None => undefined
  end.

Definition getCellData (index : Z) : M ComputeCell :=
  s ← get;
  if (0 <=? index) && (index <? cellCount s)
  then cpuCells_at index
  else mret ComputeCell_zero.

Definition updateCellData (index : Z) (newData : ComputeCell) : M unit :=
  s ← get;
  when ((0 <=? index) && (index <? cellCount s)) (
    cpuCells_update index (fun _ => newData) ;;
    s1 ← get;
    when (isValid (selectedCell s1) && (cellIndex (selectedCell s1) =? index))
      (modify (fun s => set_selectedCell (set_cellData newData (selectedCell s)) s)) ;;
    for_each [0; 1]%nat (fun i =>
      c ← cpuCells_at index;
      glNamedBufferSubData (cellBuffer i) index [c])).

(** *** Compute stages *)

(** [GLuint numGroups = (n + 63) / 64], with [n] an [int]. This is the
    value the source computes for [n <= INT_MAX - 63]; above that the [int]
    addition overflows, which is undefined and not modelled: a statement
    about the number of groups carries the bound. *)
Definition numGroups_for (n : Z) : Z := int_to_uint (Z.quot (n + 63) 64).

(** [(isDraggingCell && selectedCell.isValid) ? selectedCell.cellIndex : -1]. *)
Definition draggedIndex (s : CellManager) : Z :=
  if isDraggingCell s && isValid (selectedCell s)
  then cellIndex (selectedCell s)
  else -1.

Definition runGridClear : M unit :=
  dispatch gridClearShader
    [("u_totalGridCells", UInt TOTAL_GRID_CELLS)]
    [(0%nat, gridCountBuffer)]
    (numGroups_for TOTAL_GRID_CELLS).

Definition runGridAssign : M unit :=
  s ← get;
  dispatch gridAssignShader
    [("u_gridResolution", UInt GRID_RESOLUTION);
     ("u_gridCellSize", UFloat GRID_CELL_SIZE);
     ("u_worldSize", UFloat WORLD_SIZE)]
    [(0%nat, getCellReadBuffer s); (1%nat, gridCountBuffer);
     (2%nat, gpuCellCountBuffer)]
    (numGroups_for (cellCount s)).

Definition runGridPrefixSum : M unit :=
  dispatch gridPrefixSumShader
    [("u_totalGridCells", UInt TOTAL_GRID_CELLS)]
    [(0%nat, gridCountBuffer); (1%nat, gridOffsetBuffer)]
    (numGroups_for TOTAL_GRID_CELLS).

Definition runGridInsert : M unit :=
  s ← get;
  dispatch gridInsertShader
    [("u_gridResolution", UInt GRID_RESOLUTION);
     ("u_gridCellSize", UFloat GRID_CELL_SIZE);
     ("u_worldSize", UFloat WORLD_SIZE);
     ("u_maxCellsPerGrid", UInt MAX_CELLS_PER_GRID)]
    [(0%nat, getCellReadBuffer s); (1%nat, gridBuffer);
     (2%nat, gridOffsetBuffer); (3%nat, gridCountBuffer);
     (4%nat, gpuCellCountBuffer)]
    (numGroups_for (cellCount s)).

Definition updateSpatialGrid : M unit :=
  s ← get;
  if cellCount s =? 0
  then mret tt
  else
    runGridClear ;;
    glMemoryBarrier ;;
    runGridAssign ;;
    glMemoryBarrier ;;
    runGridPrefixSum ;;
    glMemoryBarrier ;;
    runGridInsert ;;
    glMemoryBarrier.

Definition runPhysicsCompute (deltaTime : float) : M unit :=
  s ← get;
  dispatch physicsShader
    [("u_draggedCellIndex", UInt (draggedIndex s));
     ("u_gridResolution", UInt GRID_RESOLUTION);
     ("u_gridCellSize", UFloat GRID_CELL_SIZE);
     ("u_worldSize", UFloat WORLD_SIZE);
     ("u_maxCellsPerGrid", UInt MAX_CELLS_PER_GRID)]
    [(0%nat, getCellReadBuffer s); (1%nat, gridBuffer);
     (2%nat, gridCountBuffer); (3%nat, getCellWriteBuffer s);
     (4%nat, gpuCellCountBuffer)]
    (numGroups_for (cellCount s)).

Definition runUpdateCompute (deltaTime : float) : M unit :=
  s ← get;
  dispatch updateShader
    [("u_deltaTime", UFloat deltaTime);
     ("u_damping", UFloat (F32.of_ratio 98 100));
     ("u_draggedCellIndex", UInt (draggedIndex s))]
    [(0%nat, getCellWriteBuffer s); (1%nat, gpuCellCountBuffer)]
    (numGroups_for (cellCount s)).

Definition runInternalUpdateCompute (deltaTime : float) : M unit :=
  s ← get;
  dispatch internalUpdateShader
    [("u_deltaTime", UFloat deltaTime);
     ("u_maxCells", UInt MAX_CELLS)]
    [(0%nat, modeBuffer); (1%nat, getCellWriteBuffer s);
     (2%nat, cellAdditionBuffer); (3%nat, gpuCellCountBuffer)]
    (numGroups_for (cellCount s)).

Definition applyCellAdditions : M unit :=
  s ← get;
  dispatch cellAdditionShader
    [("u_maxCells", UInt MAX_CELLS)]
    [(0%nat, cellAdditionBuffer); (1%nat, getCellReadBuffer s);
     (2%nat, getCellWriteBuffer s); (3%nat, gpuCellCountBuffer)]
    (numGroups_for (Z.quot MAX_CELLS 2)) ;;
  glMemoryBarrier ;;
  glNamedBufferSubData_count 1 0 ;;
  glCopyNamedBufferSubData_counts.

(** *** The frame driver *)

Definition updateCells (deltaTime : float) : M unit :=
  glCopyNamedBufferSubData_counts ;;
  modify (fun s => set_cellCount (uint_to_int (countPtr 0 s)) s) ;;
  modify (fun s => set_gpuPendingCellCount (uint_to_int (countPtr 1 s)) s) ;;
  s ← get;
  let previousCellCount := cellCount s in
  when (cpuPendingCellCount s >? 0) addStagedCellsToGPUBuffer ;;
  when (cellCount s >? 0) (
    updateSpatialGrid ;;
    glMemoryBarrier ;;
    runPhysicsCompute deltaTime ;;
    glMemoryBarrier ;;
    runUpdateCompute deltaTime ;;
    glMemoryBarrier ;;
    runInternalUpdateCompute deltaTime ;;
    glMemoryBarrier) ;;
  glCopyNamedBufferSubData_counts ;;
  modify (fun s => set_gpuPendingCellCount (uint_to_int (countPtr 1 s)) s) ;;
  applyCellAdditions ;;
  glMemoryBarrier ;;
  modify (fun s => set_cellCount (uint_to_int (countPtr 0 s)) s) ;;
  s1 ← get;
  when (cellCount s1 >? previousCellCount)
    (emit (Stdout (MsgSplitEvent previousCellCount (cellCount s1)))) ;;
  rotateBuffers.

(** *** Selection, drag and reset *)

Definition clearSelection : M unit :=
  modify (fun s => set_selectedCell (set_cellIndex (-1) (selectedCell s)) s) ;;
  modify (fun s => set_selectedCell (set_isValid false (selectedCell s)) s) ;;
  modify (set_isDraggingCell false).

Definition dragSelectedCell (newWorldPosition : vec3.t float) : M unit :=
  s ← get;
  if negb (isValid (selectedCell s))
  then mret tt
  else
    let index := cellIndex (selectedCell s) in
    cpuCells_update index (fun c =>
      set_positionAndMass (vec4.set_x (vec3.x newWorldPosition) (positionAndMass c)) c) ;;
    cpuCells_update index (fun c =>
      set_positionAndMass (vec4.set_y (vec3.y newWorldPosition) (positionAndMass c)) c) ;;
    cpuCells_update index (fun c =>
      set_positionAndMass (vec4.set_z (vec3.z newWorldPosition) (positionAndMass c)) c) ;;
    cpuCells_update index (fun c => set_velocity (vec4.set_x F32.zero (velocity c)) c) ;;
    cpuCells_update index (fun c => set_velocity (vec4.set_y F32.zero (velocity c)) c) ;;
    cpuCells_update index (fun c => set_velocity (vec4.set_z F32.zero (velocity c)) c) ;;
    c ← cpuCells_at index;
    modify (fun s => set_selectedCell (set_cellData c (selectedCell s)) s) ;;
    for_each [0; 1; 2]%nat (fun i =>
      c ← cpuCells_at index;
      glNamedBufferSubData (cellBuffer i) index [c]).

Definition endDrag : M unit :=
  s ← get;
  when (isDraggingCell s && isValid (selectedCell s)) (
    let index := cellIndex (selectedCell s) in
    cpuCells_update index (fun c => set_velocity (vec4.set_x F32.zero (velocity c)) c) ;;
    cpuCells_update index (fun c => set_velocity (vec4.set_y F32.zero (velocity c)) c) ;;
    cpuCells_update index (fun c => set_velocity (vec4.set_z F32.zero (velocity c)) c) ;;
    for_each [0; 1; 2]%nat (fun i =>
      c ← cpuCells_at index;
      glNamedBufferSubData (cellBuffer i) index [c])) ;;
  modify (set_isDraggingCell false).

Definition resetSimulation : M unit :=
  modify (set_cpuCells []) ;;
  modify (set_cellStagingBuffer []) ;;
  modify (set_cellCount 0) ;;
  modify (set_cpuPendingCellCount 0) ;;
  modify (set_gpuPendingCellCount 0) ;;
  modify (set_bufferRotation 0) ;;
  clearSelection ;;
  glNamedBufferSubData_count 0 0 ;;
  glNamedBufferSubData_count 1 0 ;;
  for_each [0; 1; 2]%nat (fun i => glClearNamedBufferData (cellBuffer i)) ;;
  glClearNamedBufferData instanceBuffer ;;
  glClearNamedBufferData cellAdditionBuffer ;;
  glClearNamedBufferData gridBuffer ;;
  glClearNamedBufferData gridCountBuffer ;;
  glClearNamedBufferData gridOffsetBuffer ;;
  glCopyNamedBufferSubData_counts ;;
  emit (Stdout MsgReset).

End Operations.

(** ** Ray picking

    [raySphereIntersection] is written over the operations it uses; the
    program runs it in binary32, the instance [F32_arith]. *)

Class FloatArith (F : Type) := {
  fadd : F -> F -> F;
  fsub : F -> F -> F;
  fmul : F -> F -> F;
  fdiv : F -> F -> F;
  fsqrt : F -> F;
  fopp : F -> F;
  fltb : F -> F -> bool;
  of_int : Z -> F;
  literal : Z -> Z -> F
}.

#[global] Instance F32_arith : FloatArith float := {
  fadd := F32.add;
  fsub := F32.sub;
  fmul := F32.mul;
  fdiv := F32.div;
  fsqrt := F32.sqrt;
  fopp := F32.opp;
  fltb := F32.ltb;
  of_int := F32.of_Z;
  literal := F32.of_ratio
}.

Section RayPicking.
Context {F : Type} `{FloatArith F}.

(** [a - b] on [glm::vec3]. *)
Definition vec3_sub (a b : vec3.t F) : vec3.t F :=
  vec3.mk (fsub (vec3.x a) (vec3.x b)) (fsub (vec3.y a) (vec3.y b))
    (fsub (vec3.z a) (vec3.z b)).

(** [glm::dot] on [vec3]: the products are summed from the left. *)
Definition dot (a b : vec3.t F) : F :=
  fadd (fadd (fmul (vec3.x a) (vec3.x b)) (fmul (vec3.y a) (vec3.y b)))
    (fmul (vec3.z a) (vec3.z b)).

(** [Some t]: the function returns [true] and has set [distance] to [t].
    [None]: it returns [false] and has left [distance] alone. *)
Definition raySphereIntersection
    (rayOrigin rayDirection sphereCenter : vec3.t F) (sphereRadius : F) : option F :=
  let oc := vec3_sub rayOrigin sphereCenter in
  let a := dot rayDirection rayDirection in
  let b := fmul (literal 2 1) (dot oc rayDirection) in
  let c := fsub (dot oc oc) (fmul sphereRadius sphereRadius) in
  let discriminant := fsub (fmul b b) (fmul (fmul (of_int 4) a) c) in
  if fltb discriminant (of_int 0)
  then None
  else
    let sqrtDiscriminant := fsqrt discriminant in
    let t1 := fdiv (fsub (fopp b) sqrtDiscriminant) (fmul (literal 2 1) a) in
    let t2 := fdiv (fadd (fopp b) sqrtDiscriminant) (fmul (literal 2 1) a) in
    if fltb (literal 1 1000) t1 then Some t1
    else if fltb (literal 1 1000) t2 then Some t2
    else None.

End RayPicking.

(** [t] solves [|rayOrigin + t * rayDirection - sphereCenter|^2 =
    sphereRadius^2]. *)
Definition on_sphere (o d c : R * R * R) (r t : R) : Prop :=
  ((o.1.1 + t * d.1.1 - c.1.1) ^ 2 + (o.1.2 + t * d.1.2 - c.1.2) ^ 2
   + (o.2 + t * d.2 - c.2) ^ 2 = r ^ 2)%R.

(** ** The locals of [raySphereIntersection]

    [b], [discriminant], [t1] and [t2] as the function computes them, in the
    arithmetic it is read at. *)

Section RayLocals.
Context {F : Type} `{FloatArith F}.
Variables (rayOrigin rayDirection sphereCenter : vec3.t F) (sphereRadius : F).

Definition ray_a : F := dot rayDirection rayDirection.
Definition ray_b : F :=
  fmul (literal 2 1) (dot (vec3_sub rayOrigin sphereCenter) rayDirection).
Definition ray_c : F :=
  fsub (dot (vec3_sub rayOrigin sphereCenter) (vec3_sub rayOrigin sphereCenter))
    (fmul sphereRadius sphereRadius).
Definition ray_discriminant : F :=
  fsub (fmul ray_b ray_b) (fmul (fmul (of_int 4) ray_a) ray_c).
Definition ray_t1 : F :=
  fdiv (fsub (fopp ray_b) (fsqrt ray_discriminant)) (fmul (literal 2 1) ray_a).
Definition ray_t2 : F :=
  fdiv (fadd (fopp ray_b) (fsqrt ray_discriminant)) (fmul (literal 2 1) ray_a).

End RayLocals.

(** ** binary32 values as real numbers *)

(** The real number a finite binary32 value stands for. *)
Definition to_R (x : float) : R :=
  match x with
  | S754_finite s m e =>
      ((if s then -1 else 1) * IZR (Z.pos m) * powerRZ 2 e)%R
  | _ => 0%R
  end.

(** A zero or a finite value in normal form: a significand below [2^24]
    that has 24 bits unless the exponent is the least one. *)
Definition normal32 (x : float) : bool :=
  match x with
  | S754_zero _ => true
  | S754_finite _ m e =>
      (Z.pos m <? 2 ^ 24) && ((e =? -149) || (2 ^ 23 <=? Z.pos m))
      && (-149 <=? e) && (e <=? 104)
  | _ => false
  end.

Definition vec3_to_R (v : vec3.t float) : R * R * R :=
  (to_R (vec3.x v), to_R (vec3.y v), to_R (vec3.z v)).

Definition normal_vec (v : vec3.t float) : bool :=
  normal32 (vec3.x v) && normal32 (vec3.y v) && normal32 (vec3.z v).

(** Every component is a zero, of either sign. *)
Definition zero_vec (v : vec3.t float) : bool :=
  match vec3.x v, vec3.y v, vec3.z v with
  | S754_zero _, S754_zero _, S754_zero _ => true
  | _, _, _ => false
  end.

(** [0.001f] as a real number: [8589935 / 2^33]. *)
Definition threshold : R := to_R (F32.of_ratio 1 1000).

(** The coefficients of [|o + t d - c|^2 = r^2] as a quadratic in [t]. *)
Definition quad_a (d : R * R * R) : R :=
  (d.1.1 * d.1.1 + d.1.2 * d.1.2 + d.2 * d.2)%R.
Definition quad_b (o d c : R * R * R) : R :=
  (2 * ((o.1.1 - c.1.1) * d.1.1 + (o.1.2 - c.1.2) * d.1.2 + (o.2 - c.2) * d.2))%R.
Definition quad_c (o c : R * R * R) (r : R) : R :=
  ((o.1.1 - c.1.1) * (o.1.1 - c.1.1) + (o.1.2 - c.1.2) * (o.1.2 - c.1.2)
   + (o.2 - c.2) * (o.2 - c.2) - r * r)%R.
Definition quad_discriminant (o d c : R * R * R) (r : R) : R :=
  (quad_b o d c * quad_b o d c - 4 * quad_a d * quad_c o c r)%R.

(** The values that [raySphereIntersection] tests carry no rounding error:
    the inputs are finite, the discriminant is finite and equal to the real
    discriminant, and so is each candidate distance that gets compared with
    [0.001f] (the far one only when the near one is not above it). *)
Definition unrounded (o d c : vec3.t float) (r : float) : Prop :=
  let A := quad_a (vec3_to_R d) in
  let B := quad_b (vec3_to_R o) (vec3_to_R d) (vec3_to_R c) in
  let D := quad_discriminant (vec3_to_R o) (vec3_to_R d) (vec3_to_R c) (to_R r) in
  normal_vec o && normal_vec d && normal_vec c && normal32 r = true
  /\ normal32 (ray_discriminant o d c r) = true
  /\ to_R (ray_discriminant o d c r) = D
  /\ ((0 <= D)%R ->
      normal32 (ray_t1 o d c r) = true
      /\ to_R (ray_t1 o d c r) = ((- B - sqrt D) / (2 * A))%R
      /\ (((- B - sqrt D) / (2 * A) <= threshold)%R ->
          normal32 (ray_t2 o d c r) = true
          /\ to_R (ray_t2 o d c r) = ((- B + sqrt D) / (2 * A))%R)).

(** A zero of either sign, or NaN. *)
Definition zero_or_nan (x : float) : Prop :=
  x = S754_zero false \/ x = S754_zero true \/ x = S754_nan.

(** ** Reading a trace *)

(** The shaders dispatched, in program order. *)
Fixpoint dispatched (tr : list Event) : list Shader :=
  match tr with
  | [] => []
  | GLDispatch sh _ _ _ :: tr' => sh :: dispatched tr'
  | _ :: tr' => dispatched tr'
  end.

(** The position of the first dispatch of a shader. *)
Fixpoint first_dispatch (sh : Shader) (l : list Shader) : option nat :=
  match l with
  | [] => None
  | sh' :: l' => if decide (sh' = sh) then Some O else S <$> first_dispatch sh l'
  end.

(** [a] is dispatched, and before the first dispatch of [b]. *)
Definition runs_before (a b : Shader) (l : list Shader) : bool :=
  match first_dispatch a l, first_dispatch b l with
  | Some i, Some j => (i <? j)%nat
  | _, _ => false
  end.

(** The grid, physics, integration and internal stages of a frame. *)
Definition frame_stages : list Shader :=
  [gridClearShader; gridAssignShader; gridPrefixSumShader; gridInsertShader;
   physicsShader; updateShader; internalUpdateShader].

(** The uniforms and the bindings a shader was dispatched with. *)
Fixpoint uniforms_of (sh : Shader) (tr : list Event) : option Uniforms :=
  match tr with
  | [] => None
  | GLDispatch sh' u _ _ :: tr' =>
      if decide (sh' = sh) then Some u else uniforms_of sh tr'
  | _ :: tr' => uniforms_of sh tr'
  end.

Fixpoint uniform (name : string) (u : Uniforms) : option UniformValue :=
  match u with
  | [] => None
  | (n, v) :: u' => if decide (n = name) then Some v else uniform name u'
  end.

(** ** Allocation

    The sizes [initializeGPUBuffers] gives to the three cell buffers
    ([MAX_CELLS] records each) and to the addition queue
    ([MAX_CELLS * sizeof(ComputeCell) / 2] bytes, that is [MAX_CELLS / 2]
    whole records). *)
Definition buffers_allocated `{Config} (g : GPU) : Prop :=
  length (mem_cells g) = 3%nat
  ∧ Forall (fun b => Z.of_nat (length b) = MAX_CELLS) (mem_cells g)
  ∧ Z.of_nat (length (mem_additions g)) = Z.quot MAX_CELLS 2.

(** ** A small configuration and sample states, for the examples *)

Definition small_config : Config := {|
  MAX_CELLS := 4;
  MAX_CELLS_PER_GRID := 2;
  GRID_RESOLUTION := 2;
  TOTAL_GRID_CELLS := 8;
  GRID_CELL_SIZE := F32.of_Z 32;
  WORLD_SIZE := F32.of_Z 64
|}.

(** Shaders that leave device memory as it is. *)
Definition idle_shaders : Shaders := {|
  run_shader := fun _ _ _ _ g => g
|}.

Definition fresh_device : GPU := {|
  mem_cells := replicate 3 (replicate 4 ComputeCell_zero);
  mem_additions := replicate 2 ComputeCell_zero;
  mem_counter := (0, 0);
  mem_staging := (0, 0);
  mem_instances := replicate 32 0;
  mem_modes := replicate 48 0;
  mem_grid := replicate 16 0;
  mem_gridCount := replicate 8 0;
  mem_gridOffset := replicate 8 0
|}.

Definition no_selection : SelectedCellInfo := {|
  cellIndex := -1;
  cellData := ComputeCell_zero;
  isValid := false;
  dragDistance := F32.zero;
  dragOffset := vec3.mk F32.zero F32.zero F32.zero
|}.

Definition fresh_manager : CellManager := {|
  cpuCells := [];
  cellStagingBuffer := [];
  cellCount := 0;
  cpuPendingCellCount := 0;
  gpuPendingCellCount := 0;
  bufferRotation := 0;
  selectedCell := no_selection;
  isDraggingCell := false;
  device := fresh_device
|}.

(** A cell at [(px, py, pz)] with the given mass, at rest. *)
Definition cell_at (px py pz mass : Z) : ComputeCell :=
  set_positionAndMass
    (vec4.mk (F32.of_Z px) (F32.of_Z py) (F32.of_Z pz) (F32.of_Z mass))
    ComputeCell_zero.

(** One live cell and one pending cell on the device, as a frame with a
    division leaves them before its addition pass. *)
Definition pending_manager : CellManager :=
  set_device (set_mem_counter (1, 1) fresh_device) fresh_manager.

(** Two cells in the CPU mirror and on the device; the second one is
    selected and being dragged. *)
Definition moving_cell : ComputeCell :=
  set_velocity (vec4.mk (F32.of_Z 3) (F32.of_Z 4) (F32.of_Z 5) F32.zero)
    (cell_at 1 2 3 1).

Definition dragging_manager : CellManager := {|
  cpuCells := [cell_at 0 0 0 1; moving_cell];
  cellStagingBuffer := [];
  cellCount := 2;
  cpuPendingCellCount := 0;
  gpuPendingCellCount := 0;
  bufferRotation := 0;
  selectedCell := set_isValid true (set_cellIndex 1 (set_cellData moving_cell no_selection));
  isDraggingCell := true;
  device :=
    set_mem_counter (2, 0)
      (set_mem_cells
         (replicate 3 [cell_at 0 0 0 1; moving_cell; ComputeCell_zero; ComputeCell_zero])
         fresh_device)
|}.

(** The record [cpuCells[selectedCell.cellIndex]] holds after the six member
    writes of [dragSelectedCell]: position x, y, z from the new world position,
    then velocity x, y, z cleared. *)
Definition dragged (p : vec3.t float) (c : ComputeCell) : ComputeCell :=
  set_velocity
    (vec4.set_z F32.zero (vec4.set_y F32.zero (vec4.set_x F32.zero (velocity c))))
    (set_positionAndMass
       (vec4.set_z (vec3.z p) (vec4.set_y (vec3.y p)
          (vec4.set_x (vec3.x p) (positionAndMass c)))) c).

(** ** Specifications of runs *)

(** The computation returns from [s] (it meets no undefined behaviour), and
    its result, final state and trace satisfy [post]. *)
Definition returns {A} (m : M A) (s : CellManager)
    (post : A -> CellManager -> list Event -> Prop) : Prop :=
  exists a s' tr, m s = Ok (a, s', tr) /\ post a s' tr.

(** ** Further operations and readers *)

(** [glCopyNamedBufferSubData(gpuCellCountBuffer, stagingCellCountBuffer,
    0, 0, sizeof(GLuint))]: the copy of the first word only, as
    [runCellCounter] issues it. The event names the two buffers. *)
Definition glCopyNamedBufferSubData_liveCount : M unit :=
  emit (GLCopyBufferSubData gpuCellCountBuffer stagingCellCountBuffer) ;;
  modify_device (fun g => set_mem_staging ((mem_counter g).1, (mem_staging g).2) g).

Section CounterPass.
Context `{Config} `{Shaders}.

Definition runCellCounter : M unit :=
  glClearNamedBufferData gpuCellCountBuffer ;;
  s ← get;
  dispatch cellCounterShader
    [("u_maxCells", UInt MAX_CELLS)]
    [(0%nat, getCellReadBuffer s); (1%nat, gpuCellCountBuffer)]
    (numGroups_for MAX_CELLS) ;;
  glMemoryBarrier ;;
  glCopyNamedBufferSubData_liveCount.

End CounterPass.

(** The record [addCellToStagingBuffer] stores for [c]: its copy with
    [positionAndMass.w] set to [1.0f]. *)
Definition force_unit (c : ComputeCell) : ComputeCell :=
  set_positionAndMass (vec4.set_w F32.one (positionAndMass c)) c.

(** The record [cpuCells[selectedCell.cellIndex]] holds after the three
    member writes of [endDrag]: velocity x, y, z cleared. *)
Definition stopped (c : ComputeCell) : ComputeCell :=
  set_velocity
    (vec4.set_z F32.zero (vec4.set_y F32.zero (vec4.set_x F32.zero (velocity c)))) c.

(** The same update applied to the three cell buffers. *)
Definition alter3 {X} (f : X -> X) (l : list X) : list X :=
  alter f 2%nat (alter f 1%nat (alter f 0%nat l)).

(** Every dispatch of the trace is directly followed by a
    [glMemoryBarrier]. *)
Fixpoint fenced (tr : list Event) : bool :=
  match tr with
  | [] => true
  | GLDispatch _ _ _ _ :: rest =>
      match rest with
      | GLMemoryBarrier :: _ => fenced rest
      | _ => false
      end
  | _ :: rest => fenced rest
  end.

(** The commands of the trace that read or write buffer memory. *)
Definition touches_memory (e : Event) : bool :=
  match e with
  | GLBufferSubData _ _ _ | GLCopyBufferSubData _ _ | GLClearBufferData _
  | GLDispatch _ _ _ _ => true
  | _ => false
  end.

(** After each dispatch a [glMemoryBarrier] comes before the next command
    that touches buffer memory, and before the end of the trace. [pending]:
    a dispatch has been issued and no barrier since. Commands that touch
    no buffer memory may come in between. *)
Fixpoint barriers_follow (pending : bool) (tr : list Event) : bool :=
  match tr with
  | [] => negb pending
  | GLMemoryBarrier :: rest => barriers_follow false rest
  | GLDispatch _ _ _ _ :: rest => negb pending && barriers_follow true rest
  | e :: rest =>
      if touches_memory e then negb pending && barriers_follow false rest
      else barriers_follow pending rest
  end.

(** ** Read-back and picking

    [syncCellPositionsFromGPU] and [selectCellAtPosition] write to the
    console and call GL commands that the frame never issues; they keep a
    log of their own. Both are straight-line code around one loop, written
    here with the state passed explicitly. [Ok (s', log)] is a run without
    undefined behaviour that ends in state [s'], by returning or, when
    [thrown log] names one, by an exception. *)

Inductive ToolMessage :=
| MsgTesting (cells : Z)
| MsgIntersected (i : Z) (position : vec3.t float) (radius distance : float)
| MsgFound (intersections : Z)
| MsgSelectedClosest (index : Z) (distance : float)
| MsgNoIntersection
| MsgSynced (cells : Z)
| MsgMapFailed.

Inductive Exception :=
| length_error.

Inductive ToolEvent :=
| ToolStdout (m : ToolMessage)
| ToolStderr (m : ToolMessage)
| ToolMemoryBarrier
| ToolFinish
| ToolMapBuffer (b : Buffer)
| ToolUnmapBuffer (b : Buffer)
| ToolThrow (e : Exception).

(** The exception a run has left its function by, if any: a run that
    throws ends its log with [ToolThrow]. *)
Definition thrown (log : list ToolEvent) : option Exception :=
  match last log with
  | Some (ToolThrow e) => Some e
  | _ => None
  end.

(** The loop of [syncCellPositionsFromGPU]: [iterations] rounds from index
    [i]. [gpuData] is the mapped store; [gpuData[i]] outside it is
    undefined. [cpuCells[i] = gpuData[i]] when [i < cpuCells.size()],
    [push_back] otherwise. *)
Fixpoint sync_loop (gpuData : list ComputeCell) (iterations : nat) (i : Z)
    (cpu : list ComputeCell) : Result (list ComputeCell) :=
  match iterations with
  | O => Ok cpu
  | S n =>
      match index_of i gpuData with
      | None => Undefined
      | Some c =>
          if i <? Z.of_nat (length cpu)
          then sync_loop gpuData n (i + 1) (<[Z.to_nat i := c]> cpu)
          else sync_loop gpuData n (i + 1) (cpu ++ [c])
      end
  end.

(** [glMapNamedBuffer] returns the store of an allocated cell buffer and a
    null pointer for a buffer that does not exist.
    [cpuCells.reserve(cellCount)] converts the count to [size_t]: a negative
    count becomes a value above [max_size()] and [reserve] throws
    [std::length_error], which nothing in this file catches; the function
    is left with the buffer still mapped and no member changed. For a count
    from 0 to [INT_MAX] (with a 64-bit [size_t]) [reserve] changes the
    capacity only; failure to allocate is not modelled. The loop
    [for (int i = 0; i < cellCount; i++)] makes [cellCount] rounds. *)
Definition syncCellPositionsFromGPU (s : CellManager) : Result (CellManager * list ToolEvent) :=
  if cellCount s =? 0
  then Ok (s, [])
  else
    match cell_store (getCellReadBuffer s) (device s) with
    | Some gpuData =>
        if cellCount s <? 0
        then Ok (s, [ToolMemoryBarrier; ToolFinish; ToolMapBuffer (getCellReadBuffer s);
                     ToolThrow length_error])
        else
          match sync_loop gpuData (Z.to_nat (cellCount s)) 0 (cpuCells s) with
          | Ok cpu =>
              Ok (set_cpuCells cpu s,
                  [ToolMemoryBarrier; ToolFinish; ToolMapBuffer (getCellReadBuffer s);
                   ToolUnmapBuffer (getCellReadBuffer s);
                   ToolStdout (MsgSynced (cellCount s))])
          | Undefined => Undefined
          end
    | None =>
        Ok (s, [ToolMemoryBarrier; ToolFinish; ToolMapBuffer (getCellReadBuffer s);
                ToolStderr MsgMapFailed])
    end.

(** [FLT_MAX] of binary32: [(2^24 - 1) * 2^104]. *)
Definition FLT_MAX : float := S754_finite false (2 ^ 24 - 1) 104.

(** [glm::vec3(v)] of a [vec4]. *)
Definition vec3_of (v : vec4.t) : vec3.t float :=
  vec3.mk (vec4.x v) (vec4.y v) (vec4.z v).

(** The three locals of [selectCellAtPosition]. *)
Record Closest := mkClosest {
  closestDistance : float;
  closestCellIndex : Z;
  intersectionCount : Z
}.

Section Selection.

(** [ComputeCell::getRadius] is declared in a header outside this file;
    everything below holds for any radius function. *)
Variable getRadius : ComputeCell -> float.

(** The body of the loop for cell [i]. *)
Definition select_cell (rayOrigin rayDirection : vec3.t float) (i : Z)
    (cell : ComputeCell) (acc : Closest) : Closest * list ToolEvent :=
  let cellPosition := vec3_of (positionAndMass cell) in
  let cellRadius := getRadius cell in
  match raySphereIntersection rayOrigin rayDirection cellPosition cellRadius with
  | Some intersectionDistance =>
      (if F32.ltb intersectionDistance (closestDistance acc)
          && F32.ltb (F32.of_Z 0) intersectionDistance
       then mkClosest intersectionDistance i (intersectionCount acc + 1)
       else mkClosest (closestDistance acc) (closestCellIndex acc)
              (intersectionCount acc + 1),
       [ToolStdout (MsgIntersected i cellPosition cellRadius intersectionDistance)])
  | None => (acc, [])
  end.

(** [iterations] rounds from index [i]; [cpuCells[i]] outside the vector is
    undefined. *)
Fixpoint select_loop (rayOrigin rayDirection : vec3.t float)
    (cpu : list ComputeCell) (iterations : nat) (i : Z) (acc : Closest)
    : Result (Closest * list ToolEvent) :=
  match iterations with
  | O => Ok (acc, [])
  | S n =>
      match index_of i cpu with
      | None => Undefined
      | Some cell =>
          let '(acc', out) := select_cell rayOrigin rayDirection i cell acc in
          match select_loop rayOrigin rayDirection cpu n (i + 1) acc' with
          | Ok (r, out') => Ok (r, out ++ out')
          | Undefined => Undefined
          end
      end
  end.

(** The function changes no member; it returns [closestCellIndex]. *)
Definition selectCellAtPosition (s : CellManager)
    (rayOrigin rayDirection : vec3.t float) : Result (Z * list ToolEvent) :=
  match select_loop rayOrigin rayDirection (cpuCells s)
          (Z.to_nat (cellCount s)) 0 (mkClosest FLT_MAX (-1) 0) with
  | Ok (r, out) =>
      Ok (closestCellIndex r,
          [ToolStdout (MsgTesting (cellCount s))] ++ out ++
          [ToolStdout (MsgFound (intersectionCount r));
           if 0 <=? closestCellIndex r
           then ToolStdout (MsgSelectedClosest (closestCellIndex r) (closestDistance r))
           else ToolStdout MsgNoIntersection])
  | Undefined => Undefined
  end.

(** What the ray test says of cell [j] of a mirror. *)
Definition hit (cpu : list ComputeCell) (o d : vec3.t float) (j : nat) : option float :=
  match cpu !! j with
  | Some c => raySphereIntersection o d (vec3_of (positionAndMass c)) (getRadius c)
  | None => None
  end.

(** What the loop has established once the cells below [k] are done:
    no hit below [k] is nearer than [closestDistance], which is either still
    [FLT_MAX] or the distance of the recorded cell, itself nearer than every
    hit before it. *)
Definition selected_below (cpu : list ComputeCell) (o d : vec3.t float)
    (k : nat) (acc : Closest) : Prop :=
  (forall j t, (j < k)%nat -> hit cpu o d j = Some t ->
     F32.ltb t (closestDistance acc) = false)
  /\ (closestCellIndex acc = -1 /\ closestDistance acc = FLT_MAX
      \/ exists j, closestCellIndex acc = Z.of_nat j /\ (j < k)%nat
           /\ hit cpu o d j = Some (closestDistance acc)
           /\ F32.ltb (closestDistance acc) FLT_MAX = true
           /\ forall j' t', (j' < j)%nat -> hit cpu o d j' = Some t' ->
                F32.ltb (closestDistance acc) t' = true).

End Selection.

(** A binary32 value other than NaN. *)
Definition is_number (x : float) : bool :=
  match x with S754_nan => false | _ => true end.

(** Every cell has radius 1, for the examples. *)
Definition unit_radius (c : ComputeCell) : float := F32.one.

(** A ray along the z axis from [(0, 0, -5)]. *)
Definition sample_origin : vec3.t float :=
  vec3.mk (F32.of_Z 0) (F32.of_Z 0) (F32.of_Z (-5)).
Definition sample_direction : vec3.t float :=
  vec3.mk (F32.of_Z 0) (F32.of_Z 0) (F32.of_Z 1).

(** Two cells on the sample ray, the farther one first in the mirror. *)
Definition picking_manager : CellManager :=
  set_cellCount 2 (set_cpuCells [cell_at 0 0 3 1; cell_at 0 0 0 1] fresh_manager).

(** One staged cell, as [addCellToStagingBuffer] leaves it. *)
Definition staged_manager : CellManager :=
  set_cpuPendingCellCount 1
    (set_cellStagingBuffer [cell_at 1 2 3 1] (set_cpuCells [cell_at 1 2 3 1] fresh_manager)).

(** Two live cells, both off the sample ray. *)
Definition missed_manager : CellManager :=
  set_cellCount 2 (set_cpuCells [cell_at 1 2 3 1; cell_at 5 5 5 1] fresh_manager).

(** The console and GL log of a run, empty for an undefined one. *)
Definition log_of {A} (r : Result (A * list ToolEvent)) : list ToolEvent :=
  match r with Ok (_, tr) => tr | Undefined => [] end.

(** * Properties *)

Ltac unfold_M :=
  unfold mbind, M_bind, mret, M_ret, get, modify_device, modify, emit,
    undefined, when in *.

(** ** Rules for [returns] *)

Section ReturnsRules.
Context {A B : Type}.
Implicit Types (s : CellManager).

Lemma returns_ret (a : A) s post : post a s [] -> returns (mret a) s post.
Proof. intros Hp. exists a, s, []. split; [reflexivity | exact Hp]. Qed.

Lemma returns_bind (m : M A) (f : A -> M B) s post :
  returns m s (fun a s1 t1 =>
    returns (f a) s1 (fun b s2 t2 => post b s2 (t1 ++ t2))) ->
  returns (m ≫= f) s post.
Proof.
  intros (a & s1 & t1 & Hm & b & s2 & t2 & Hf & Hp).
  exists b, s2, (t1 ++ t2). split; [| exact Hp].
  unfold mbind, M_bind. rewrite Hm, Hf. reflexivity.
Qed.

Lemma returns_conseq (m : M A) s (post post' : A -> CellManager -> list Event -> Prop) :
  returns m s post ->
  (forall a s' tr, post a s' tr -> post' a s' tr) ->
  returns m s post'.
Proof. intros (a & s' & tr & Hm & Hp) Himp. exists a, s', tr. auto. Qed.

Lemma returns_inv (m : M A) s post a s' tr :
  returns m s post -> m s = Ok (a, s', tr) -> post a s' tr.
Proof. intros (a0 & s0 & t0 & Hm & Hp) Heq. congruence. Qed.

End ReturnsRules.

Lemma returns_get s post : post s s [] -> returns get s post.
Proof. intros Hp. exists s, s, []. split; [reflexivity | exact Hp]. Qed.

Lemma returns_modify f s post : post tt (f s) [] -> returns (modify f) s post.
Proof. intros Hp. exists tt, (f s), []. split; [reflexivity | exact Hp]. Qed.

Lemma returns_emit e s post : post tt s [e] -> returns (emit e) s post.
Proof. intros Hp. exists tt, s, [e]. split; [reflexivity | exact Hp]. Qed.

Lemma returns_dispatch `{Shaders} sh u b g s post :
  post tt (set_device (run_shader sh u b g (device s)) s) [GLDispatch sh u b g] ->
  returns (dispatch sh u b g) s post.
Proof. intros Hp. eexists _, _, _. split; [reflexivity | exact Hp]. Qed.

(** One step of symbolic execution, and its closure over the straight-line
    GL wrappers. *)
Ltac step :=
  lazymatch goal with
  | |- returns (mbind _ _) _ _ => apply returns_bind
  | |- returns get _ _ => apply returns_get
  | |- returns (modify _) _ _ => apply returns_modify
  | |- returns (emit _) _ _ => apply returns_emit
  | |- returns (mret _) _ _ => apply returns_ret
  | |- returns (dispatch _ _ _ _) _ _ => apply returns_dispatch
  end; cbn beta.

Ltac wp :=
  repeat first
    [ step
    | progress unfold glMemoryBarrier, modify_device,
        glCopyNamedBufferSubData_counts, glNamedBufferSubData_count,
        glClearNamedBufferData, rotateBuffers ].

Lemma dispatched_app (t1 t2 : list Event) :
  dispatched (t1 ++ t2) = dispatched t1 ++ dispatched t2.
Proof.
  induction t1 as [| e t1 IH]; [reflexivity |].
  destruct e; cbn; rewrite ?IH; reflexivity.
Qed.

Section Ingress.
Context `{Config}.

(** C4. A record offered while [cellCount + 1 > MAX_CELLS] is rejected: the
    call returns, its only action is the warning, and the whole object, so
    in particular [cellStagingBuffer], [cpuCells] and [cpuPendingCellCount],
    is exactly as before. *)
Theorem addCellToStagingBuffer_rejects_when_full (s : CellManager) (newCell : ComputeCell) :
  cellCount s + 1 > MAX_CELLS ->
  addCellToStagingBuffer newCell s = Ok (tt, s, [Stdout MsgMaxCellsWarning]).
Proof.
  intros Hfull. unfold addCellToStagingBuffer. unfold_M.
  destruct (Z.gtb_spec (cellCount s + 1) MAX_CELLS) as [_ | Hle].
  - reflexivity.
  - lia.
Qed.

(** C3, as amended. An accepted record is appended to [cellStagingBuffer] and
    to [cpuCells] with [positionAndMass.w] overwritten by [1.0f]: the
    caller's mass is not kept. The position and every other member are the
    caller's. *)
Theorem addCellToStagingBuffer_forces_unit_mass (s : CellManager) (newCell : ComputeCell) :
  cellCount s + 1 <= MAX_CELLS ->
  exists stored s',
    addCellToStagingBuffer newCell s = Ok (tt, s', [])
    /\ cellStagingBuffer s' = cellStagingBuffer s ++ [stored]
    /\ cpuCells s' = cpuCells s ++ [stored]
    /\ cpuPendingCellCount s' = cpuPendingCellCount s + 1
    /\ vec4.w (positionAndMass stored) = F32.one
    /\ vec4.x (positionAndMass stored) = vec4.x (positionAndMass newCell)
    /\ vec4.y (positionAndMass stored) = vec4.y (positionAndMass newCell)
    /\ vec4.z (positionAndMass stored) = vec4.z (positionAndMass newCell)
    /\ velocity stored = velocity newCell
    /\ acceleration stored = acceleration newCell
    /\ orientation stored = orientation newCell
    /\ age stored = age newCell
    /\ splitTimer stored = splitTimer newCell
    /\ modeIndex stored = modeIndex newCell.
Proof.
  intros Hroom.
  exists (set_positionAndMass (vec4.set_w F32.one (positionAndMass newCell)) newCell).
  eexists. split.
  - unfold addCellToStagingBuffer. unfold_M.
    destruct (Z.gtb_spec (cellCount s + 1) MAX_CELLS) as [Hgt | _]; [lia |].
    reflexivity.
  - cbn. repeat split; reflexivity.
Qed.


End Ingress.

(** ** List facts used by the buffer updates *)

Lemma index_of_lookup {X} (i : Z) (l : list X) :
  0 <= i -> index_of i l = l !! Z.to_nat i.
Proof.
  intros Hi. unfold index_of. destruct (Z.leb_spec 0 i); [reflexivity | lia].
Qed.

Lemma alter_insert_lookup {X} (f : X -> X) (i : nat) (l : list X) (x : X) :
  l !! i = Some x -> <[i := f x]> l = alter f i l.
Proof.
  intros Hx. apply list_eq. intros j.
  rewrite list_lookup_alter, list_lookup_insert.
  destruct (decide (i = j)) as [<- | Hne].
  - rewrite Hx. cbn. rewrite decide_True; [reflexivity |].
    split; [reflexivity | eapply lookup_lt_Some, Hx].
  - rewrite decide_False; [reflexivity | intros [? _]; contradiction].
Qed.

Lemma alter_absent {X} (f : X -> X) (i : nat) (l : list X) :
  l !! i = None -> alter f i l = l.
Proof.
  intros Hx. apply list_eq. intros j. rewrite list_lookup_alter.
  destruct (decide (i = j)) as [<- | Hne]; [rewrite Hx |]; reflexivity.
Qed.

Lemma alter_fixed {X} (f : X -> X) (i : nat) (l : list X) (x : X) :
  l !! i = Some x -> f x = x -> alter f i l = l.
Proof.
  intros Hx Hf. rewrite <- (alter_insert_lookup f i l x Hx), Hf.
  apply list_insert_id, Hx.
Qed.

Lemma zero_fill_idem {X} (z : X) (l : list X) :
  zero_fill z (zero_fill z l) = zero_fill z l.
Proof. unfold zero_fill. rewrite length_replicate. reflexivity. Qed.

Lemma clear_cells_idem (cells : list (list ComputeCell)) :
  let clear c := alter (zero_fill ComputeCell_zero) 2%nat
                   (alter (zero_fill ComputeCell_zero) 1%nat
                      (alter (zero_fill ComputeCell_zero) 0%nat c)) in
  clear (clear cells) = clear cells.
Proof.
  destruct cells as [| a [| b [| c l]]]; cbn; rewrite ?zero_fill_idem; reflexivity.
Qed.

(** ** The CPU mirror and single-record uploads *)

Lemma returns_cpuCells_at index s c post :
  0 <= index -> cpuCells s !! Z.to_nat index = Some c ->
  post c s [] -> returns (cpuCells_at index) s post.
Proof.
  intros Hi Hc Hp. unfold cpuCells_at. wp.
  rewrite index_of_lookup, Hc by exact Hi. wp. exact Hp.
Qed.

Lemma returns_cpuCells_update index f s c post :
  0 <= index -> cpuCells s !! Z.to_nat index = Some c ->
  post tt (set_cpuCells (<[Z.to_nat index := f c]> (cpuCells s)) s) [] ->
  returns (cpuCells_update index f) s post.
Proof.
  intros Hi Hc Hp. unfold cpuCells_update. wp.
  rewrite index_of_lookup, Hc by exact Hi. wp. exact Hp.
Qed.

Lemma returns_cpuCells_update_again index f s l c post :
  0 <= index -> (Z.to_nat index < length l)%nat ->
  post tt (set_cpuCells (<[Z.to_nat index := f c]> l) s) [] ->
  returns (cpuCells_update index f) (set_cpuCells (<[Z.to_nat index := c]> l) s) post.
Proof.
  intros Hi Hlen Hp.
  eapply returns_cpuCells_update; [exact Hi | apply list_lookup_insert_eq, Hlen |].
  cbn [cpuCells set_cpuCells]. rewrite list_insert_insert_eq. exact Hp.
Qed.

(** The upload of one record at [index] of a cell buffer: whether GL accepts
    it or raises GL_INVALID_VALUE, the stores are as after an in-place update
    (which does nothing outside the buffer). *)
Lemma returns_upload_cell (i : nat) index c s post :
  0 <= index ->
  (forall tr,
     post tt (set_device (set_mem_cells
                (alter (<[Z.to_nat index := c]>) i (mem_cells (device s)))
                (device s)) s) tr) ->
  returns (glNamedBufferSubData (cellBuffer i) index [c]) s post.
Proof.
  intros Hi Hp. unfold glNamedBufferSubData. wp. cbn [cell_store].
  destruct (mem_cells (device s) !! i) as [st |] eqn:Hst.
  - destruct (Z.leb_spec 0 index) as [_ | ?]; [| lia]. cbn [andb length].
    destruct (Z.leb_spec (index + Z.of_nat 1) (Z.of_nat (length st))) as [Hin | Hout]; wp.
    + cbn [set_cell_store list_inserts].
      rewrite (alter_insert_lookup (<[Z.to_nat index := c]>) i _ st Hst). apply Hp.
    + specialize (Hp ([GLBufferSubData (cellBuffer i) index (Z.of_nat 1)]
                        ++ [] ++ [GLInvalidValue])).
      rewrite (alter_fixed _ i _ st Hst) in Hp; [exact Hp |].
      apply list_insert_ge. lia.
  - wp. specialize (Hp ([GLBufferSubData (cellBuffer i) index (Z.of_nat 1)]
                          ++ [] ++ [GLInvalidValue])).
    rewrite (alter_absent _ i _ Hst) in Hp. exact Hp.
Qed.

Section Driver.
Context `{Config} `{Shaders}.

(** ** Host ingress into the addition queue *)

(** C1 (the code breaks it). A batch that passes the only test of
    [addCellsToGPUBuffer], [cellCount + n <= MAX_CELLS], but does not fit in
    what is left of the addition queue is still counted: GL refuses the
    upload with GL_INVALID_VALUE, the queue is unchanged, and
    [gpuPendingCellCount], the device pending count and its mirror end above
    [MAX_CELLS / 2]. *)
Theorem addCellsToGPUBuffer_overruns_queue (s : CellManager) (cells : list ComputeCell) :
  let n := Z.of_nat (length cells) in
  cellCount s + n <= MAX_CELLS ->
  Z.of_nat (length (mem_additions (device s))) = Z.quot MAX_CELLS 2 ->
  gpuPendingCellCount s + n > Z.quot MAX_CELLS 2 ->
  exists s',
    addCellsToGPUBuffer cells s =
      Ok (tt, s', [Stdout (MsgAddingCells n (cellCount s));
                   GLBufferSubData cellAdditionBuffer (gpuPendingCellCount s) n;
                   GLInvalidValue;
                   GLBufferSubData gpuCellCountBuffer 1 1;
                   GLCopyBufferSubData gpuCellCountBuffer stagingCellCountBuffer])
    /\ gpuPendingCellCount s' = gpuPendingCellCount s + n
    /\ gpuPendingCellCount s' > Z.quot MAX_CELLS 2
    /\ (mem_counter (device s')).2 = int_to_uint (gpuPendingCellCount s + n)
    /\ mem_staging (device s') = mem_counter (device s')
    /\ mem_additions (device s') = mem_additions (device s).
Proof.
  intros n Hroom Hcap Hover.
  unfold addCellsToGPUBuffer, glNamedBufferSubData, glNamedBufferSubData_count,
    glCopyNamedBufferSubData_counts. unfold_M. cbn. fold n.
  destruct (Z.gtb_spec (cellCount s + n) MAX_CELLS) as [? | _]; [lia |].
  rewrite Hcap.
  destruct (Z.leb_spec (gpuPendingCellCount s + n) (Z.quot MAX_CELLS 2)) as [? | _]; [lia |].
  rewrite andb_false_r. cbn.
  eexists. split; [reflexivity |]. cbn. repeat split; lia.
Qed.

Lemma addCellsToGPUBuffer_frame cells s :
  returns (addCellsToGPUBuffer cells) s (fun _ s' tr =>
    cellCount s' = cellCount s /\ dispatched tr = []).
Proof.
  unfold addCellsToGPUBuffer. wp.
  destruct (_ >? _); [wp; auto |].
  unfold glNamedBufferSubData. wp.
  destruct (cell_store _ _) as [st |]; [destruct (_ && _) |]; wp; auto.
Qed.

Lemma addStagedCellsToGPUBuffer_frame s :
  returns addStagedCellsToGPUBuffer s (fun _ s' tr =>
    cellCount s' = cellCount s /\ dispatched tr = []).
Proof.
  unfold addStagedCellsToGPUBuffer. wp.
  destruct (cellStagingBuffer s) as [| c l]; [wp; auto |].
  step. eapply returns_conseq; [apply addCellsToGPUBuffer_frame |].
  intros u s1 t1 [Hc Ht1]. cbn beta. wp.
  rewrite !dispatched_app, Ht1. auto.
Qed.

(** ** The addition pass *)

(** C5. [applyCellAdditions] always returns; afterwards the pending count of
    the device counter pair is zero and the staging mirror equals the device
    pair, whatever the addition shader did to device memory. *)
Theorem applyCellAdditions_resets_pending (s : CellManager) :
  returns applyCellAdditions s (fun _ s' tr =>
    (mem_counter (device s')).2 = 0
    /\ mem_staging (device s') = mem_counter (device s')
    /\ dispatched tr = [cellAdditionShader]).
Proof.
  unfold applyCellAdditions. wp. cbn. auto.
Qed.

(** ** The frame driver *)

Lemma updateSpatialGrid_dispatches s :
  cellCount s > 0 ->
  returns updateSpatialGrid s (fun _ s' tr =>
    cellCount s' = cellCount s
    /\ dispatched tr =
         [gridClearShader; gridAssignShader; gridPrefixSumShader; gridInsertShader]).
Proof.
  intros Hlive. unfold updateSpatialGrid. wp.
  destruct (Z.eqb_spec (cellCount s) 0) as [? | _]; [lia |].
  unfold runGridClear, runGridAssign, runGridPrefixSum, runGridInsert. wp.
  split; reflexivity.
Qed.

Lemma frame_stages_dispatched dt s :
  cellCount s > 0 ->
  returns
    (updateSpatialGrid ;;
     glMemoryBarrier ;;
     runPhysicsCompute dt ;;
     glMemoryBarrier ;;
     runUpdateCompute dt ;;
     glMemoryBarrier ;;
     runInternalUpdateCompute dt ;;
     glMemoryBarrier) s
    (fun _ _ tr => dispatched tr = frame_stages).
Proof.
  intros Hlive. step.
  eapply returns_conseq; [apply updateSpatialGrid_dispatches, Hlive |].
  intros u s1 t1 [_ Ht1]. cbn beta.
  unfold runPhysicsCompute, runUpdateCompute, runInternalUpdateCompute. wp.
  rewrite dispatched_app, Ht1. reflexivity.
Qed.

Lemma frame_end_dispatched previousCellCount s :
  returns
    (glCopyNamedBufferSubData_counts ;;
     modify (fun s => set_gpuPendingCellCount (uint_to_int (countPtr 1 s)) s) ;;
     applyCellAdditions ;;
     glMemoryBarrier ;;
     modify (fun s => set_cellCount (uint_to_int (countPtr 0 s)) s) ;;
     s1 ← get;
     when (cellCount s1 >? previousCellCount)
       (emit (Stdout (MsgSplitEvent previousCellCount (cellCount s1)))) ;;
     rotateBuffers) s
    (fun _ _ tr =>
       dispatched tr = [cellAdditionShader] /\ last tr = Some RotateBuffers).
Proof.
  unfold applyCellAdditions. wp.
  match goal with |- returns (when ?b _) _ _ => destruct b end; cbn [when]; wp.
  all: split; reflexivity.
Qed.

(** C2, as amended. Every frame returns. The addition pass is dispatched
    exactly once in every frame, whatever the pending count, and after the
    grid, physics, integration and internal stages, which run when the live
    count read at the start of the frame is positive; the buffer rotation is
    the last action of the frame. *)
Theorem updateCells_dispatch_order (s : CellManager) (dt : float) :
  returns (updateCells dt) s (fun _ _ tr =>
    dispatched tr =
      (if uint_to_int (mem_counter (device s)).1 >? 0 then frame_stages else [])
      ++ [cellAdditionShader]
    /\ last tr = Some RotateBuffers).
Proof.
  unfold updateCells. wp.
  match goal with |- returns _ ?st _ => set (sA := st) end.
  assert (HcA : cellCount sA = uint_to_int (mem_counter (device s)).1) by reflexivity.
  clearbody sA. rewrite <- HcA. clear HcA.
  assert (Hstaged :
    returns (when (cpuPendingCellCount sA >? 0) addStagedCellsToGPUBuffer) sA
      (fun _ s' tr => cellCount s' = cellCount sA /\ dispatched tr = [])).
  { destruct (_ >? 0); cbn [when]; [apply addStagedCellsToGPUBuffer_frame | wp; auto]. }
  eapply returns_conseq; [exact Hstaged |].
  intros u sB tB [HcB HtB]. cbn beta. step.
  destruct (Z.gtb_spec (cellCount sA) 0) as [Hlive | Hempty]; cbn [when].
  - eapply returns_conseq; [apply frame_stages_dispatched; lia |].
    intros u1 sC tC HtC. cbn beta.
    eapply returns_conseq; [apply frame_end_dispatched |].
    intros u2 sD tD [HtD Hlast]. cbn beta.
    rewrite !dispatched_app, HtB, HtC, HtD, !last_app, Hlast. split; reflexivity.
  - step.
    eapply returns_conseq; [apply frame_end_dispatched |].
    intros u2 sD tD [HtD Hlast]. cbn beta.
    rewrite !dispatched_app, HtB, HtD, !last_app, Hlast. split; reflexivity.
Qed.

End Driver.

(** ** Reset *)

Lemma resetSimulation_eq (s : CellManager) :
  resetSimulation s =
    Ok (tt,
        {| cpuCells := [];
           cellStagingBuffer := [];
           cellCount := 0;
           cpuPendingCellCount := 0;
           gpuPendingCellCount := 0;
           bufferRotation := 0;
           selectedCell := set_isValid false (set_cellIndex (-1) (selectedCell s));
           isDraggingCell := false;
           device :=
             {| mem_cells :=
                  alter (zero_fill ComputeCell_zero) 2%nat
                    (alter (zero_fill ComputeCell_zero) 1%nat
                       (alter (zero_fill ComputeCell_zero) 0%nat
                          (mem_cells (device s))));
                mem_additions := zero_fill ComputeCell_zero (mem_additions (device s));
                mem_counter := (0, 0);
                mem_staging := (0, 0);
                mem_instances := zero_fill 0 (mem_instances (device s));
                mem_modes := mem_modes (device s);
                mem_grid := zero_fill 0 (mem_grid (device s));
                mem_gridCount := zero_fill 0 (mem_gridCount (device s));
                mem_gridOffset := zero_fill 0 (mem_gridOffset (device s)) |} |},
        [GLBufferSubData gpuCellCountBuffer 0 1;
         GLBufferSubData gpuCellCountBuffer 1 1;
         GLClearBufferData (cellBuffer 0);
         GLClearBufferData (cellBuffer 1);
         GLClearBufferData (cellBuffer 2);
         GLClearBufferData instanceBuffer;
         GLClearBufferData cellAdditionBuffer;
         GLClearBufferData gridBuffer;
         GLClearBufferData gridCountBuffer;
         GLClearBufferData gridOffsetBuffer;
         GLCopyBufferSubData gpuCellCountBuffer stagingCellCountBuffer;
         Stdout MsgReset]).
Proof. reflexivity. Qed.

(** C7. [resetSimulation] is idempotent: it always returns, and run again
    from the state it produced it returns that very state (every host member
    and every buffer), with the same actions. *)
Theorem resetSimulation_idempotent (s : CellManager) :
  exists s1 tr,
    resetSimulation s = Ok (tt, s1, tr)
    /\ resetSimulation s1 = Ok (tt, s1, tr).
Proof.
  eexists _, _. split; [apply resetSimulation_eq |].
  rewrite resetSimulation_eq.
  cbn [device mem_cells mem_additions mem_instances mem_modes
       mem_grid mem_gridCount mem_gridOffset selectedCell].
  rewrite !zero_fill_idem.
  rewrite (clear_cells_idem (mem_cells (device s))).
  reflexivity.
Qed.

(** ** Writes to single cells *)

Lemma updateCellData_returns (s : CellManager) (index : Z) (newData : ComputeCell) :
  0 <= index < cellCount s ->
  (Z.to_nat index < length (cpuCells s))%nat ->
  returns (updateCellData index newData) s (fun _ s' _ =>
    s' = set_device (set_mem_cells
           (alter (<[Z.to_nat index := newData]>) 1%nat
              (alter (<[Z.to_nat index := newData]>) 0%nat (mem_cells (device s))))
           (device s))
         (set_selectedCell
            (if isValid (selectedCell s) && (cellIndex (selectedCell s) =? index)
             then set_cellData newData (selectedCell s)
             else selectedCell s)
            (set_cpuCells (<[Z.to_nat index := newData]> (cpuCells s)) s))).
Proof.
  intros [Hlo Hhi] Hlen.
  destruct (lookup_lt_is_Some_2 _ _ Hlen) as [old Hold].
  unfold updateCellData. wp.
  destruct (Z.leb_spec 0 index) as [_ | ?]; [| lia].
  destruct (Z.ltb_spec index (cellCount s)) as [_ | ?]; [| lia].
  cbn [andb when]. wp.
  eapply returns_cpuCells_update; [exact Hlo | exact Hold |]. wp.
  assert (Hnew : forall s0, cpuCells s0 = <[Z.to_nat index := newData]> (cpuCells s) ->
            cpuCells s0 !! Z.to_nat index = Some newData).
  { intros s0 ->. apply list_lookup_insert_eq, Hlen. }
  cbn [selectedCell set_cpuCells].
  destruct (isValid (selectedCell s) && (cellIndex (selectedCell s) =? index));
    cbn [when]; wp; cbn [for_each]; wp.
  all: eapply returns_cpuCells_at; [exact Hlo | apply Hnew; reflexivity |].
  all: apply returns_upload_cell; [exact Hlo |]; intros tr0.
  all: wp.
  all: eapply returns_cpuCells_at; [exact Hlo | apply Hnew; reflexivity |].
  all: apply returns_upload_cell; [exact Hlo |]; intros tr1.
  all: wp; reflexivity.
Qed.

Lemma dragSelectedCell_returns (s : CellManager) (p : vec3.t float) (c : ComputeCell) :
  isValid (selectedCell s) = true ->
  0 <= cellIndex (selectedCell s) ->
  cpuCells s !! Z.to_nat (cellIndex (selectedCell s)) = Some c ->
  let n := Z.to_nat (cellIndex (selectedCell s)) in
  returns (dragSelectedCell p) s (fun _ s' _ =>
    s' = set_device (set_mem_cells
           (alter (<[n := dragged p c]>) 2%nat
              (alter (<[n := dragged p c]>) 1%nat
                 (alter (<[n := dragged p c]>) 0%nat (mem_cells (device s)))))
           (device s))
         (set_selectedCell (set_cellData (dragged p c) (selectedCell s))
            (set_cpuCells (<[n := dragged p c]> (cpuCells s)) s))).
Proof.
  intros Hvalid Hlo Hc n.
  pose proof (lookup_lt_Some _ _ _ Hc) as Hlen. fold n in Hc, Hlen.
  unfold dragSelectedCell. wp. rewrite Hvalid. cbn [negb]. wp.
  eapply returns_cpuCells_update; [exact Hlo | exact Hc |]. fold n. wp.
  do 5 (apply returns_cpuCells_update_again; [exact Hlo | exact Hlen |]; wp).
  fold (dragged p c).
  assert (Hnew : forall s0, cpuCells s0 = <[n := dragged p c]> (cpuCells s) ->
            cpuCells s0 !! n = Some (dragged p c)).
  { intros s0 ->. apply list_lookup_insert_eq, Hlen. }
  eapply returns_cpuCells_at; [exact Hlo | apply Hnew; reflexivity |]. wp.
  cbn [for_each]. wp.
  do 2 (eapply returns_cpuCells_at; [exact Hlo | apply Hnew; reflexivity |];
        apply returns_upload_cell; [exact Hlo |]; intros ?; wp).
  eapply returns_cpuCells_at; [exact Hlo | apply Hnew; reflexivity |].
  apply returns_upload_cell; [exact Hlo |]; intros ?. wp. reflexivity.
Qed.


Section Drag.
Context `{Config} `{Shaders}.

(** C6. While a cell is flagged as dragged ([isDraggingCell] and a valid
    selection of a cell that exists), [dragSelectedCell] returns and leaves
    that cell with the given position and a zero velocity in [cpuCells], in
    the selection cache and at its index of all three cell buffers; the cell
    stays flagged, and the physics and integration passes are then
    dispatched with its index in [u_draggedCellIndex]. *)
Theorem dragSelectedCell_pins_cell (s : CellManager) (p : vec3.t float) (c : ComputeCell) :
  let index := cellIndex (selectedCell s) in
  isDraggingCell s = true ->
  isValid (selectedCell s) = true ->
  0 <= index < MAX_CELLS ->
  cpuCells s !! Z.to_nat index = Some c ->
  buffers_allocated (device s) ->
  exists c' s' tr,
    dragSelectedCell p s = Ok (tt, s', tr)
    /\ vec4.x (positionAndMass c') = vec3.x p
    /\ vec4.y (positionAndMass c') = vec3.y p
    /\ vec4.z (positionAndMass c') = vec3.z p
    /\ vec4.x (velocity c') = F32.zero
    /\ vec4.y (velocity c') = F32.zero
    /\ vec4.z (velocity c') = F32.zero
    /\ cpuCells s' !! Z.to_nat index = Some c'
    /\ length (mem_cells (device s')) = 3%nat
    /\ (forall i b, mem_cells (device s') !! i = Some b -> b !! Z.to_nat index = Some c')
    /\ selectedCell s' = set_cellData c' (selectedCell s)
    /\ isDraggingCell s' = true
    /\ (forall dt, exists s2 u b g,
          runPhysicsCompute dt s' = Ok (tt, s2, [GLDispatch physicsShader u b g])
          /\ uniform "u_draggedCellIndex" u = Some (UInt index))
    /\ (forall dt, exists s2 u b g,
          runUpdateCompute dt s' = Ok (tt, s2, [GLDispatch updateShader u b g])
          /\ uniform "u_draggedCellIndex" u = Some (UInt index)).
Proof.
  intros index Hdrag Hvalid [Hlo Hhi] Hc (Hthree & Hsizes & _).
  pose proof (lookup_lt_Some _ _ _ Hc) as Hlen.
  destruct (dragSelectedCell_returns s p c Hvalid Hlo Hc) as ([] & s' & tr & Heq & ->).
  fold index in Hc, Hlen |- *.
  set (n := Z.to_nat index) in *.
  set (ins := <[n := dragged p c]> : list ComputeCell -> list ComputeCell).
  exists (dragged p c). eexists _, tr.
  split; [exact Heq |]. cbn.
  repeat (split; [reflexivity |]).
  split; [apply list_lookup_insert_eq, Hlen |].
  split; [rewrite !length_alter; exact Hthree |].
  split.
  { assert (Hstore : forall j b0, mem_cells (device s) !! j = Some b0 ->
              ins b0 !! n = Some (dragged p c)).
    { intros j b0 Hb0. apply list_lookup_insert_eq.
      pose proof (proj1 (Forall_lookup _ _) Hsizes j b0 Hb0) as Hsz. cbn in Hsz. lia. }
    intros i b Hb.
    assert (Hi3 : (i < 3)%nat).
    { apply lookup_lt_Some in Hb. rewrite !length_alter in Hb. lia. }
    destruct (mem_cells (device s) !! i) as [b0 |] eqn:E.
    - destruct i as [| [| [| i]]]; [| | | lia];
        rewrite ?list_lookup_alter_ne in Hb by lia;
        rewrite list_lookup_alter_eq in Hb;
        rewrite ?list_lookup_alter_ne in Hb by lia;
        rewrite E in Hb; injection Hb as <-; eapply Hstore, E.
    - apply lookup_ge_None in E. lia. }
  split; [reflexivity |]. split; [exact Hdrag |].
  split; intros dt; eexists _, _, _, _; (split; [reflexivity |]);
    cbn; unfold draggedIndex; cbn; rewrite Hdrag, Hvalid; reflexivity.
Qed.

End Drag.

(** ** The quadratic of a ray and a sphere, over the reals *)

Section RayTheorems.
Local Open Scope R_scope.

Section Quadratic.
Variables A B C : R.
Hypothesis HA : 0 < A.
Let D := B * B - 4 * A * C.

Lemma quadratic_completed (t : R) :
  (2 * A * t + B) * (2 * A * t + B) = 4 * A * (A * t * t + B * t + C) + D.
Proof. unfold D. ring. Qed.

Lemma quadratic_no_root (t : R) : D < 0 -> A * t * t + B * t + C <> 0.
Proof.
  intros HD Heq. pose proof (quadratic_completed t) as Hc.
  rewrite Heq in Hc. pose proof (Rle_0_sqr (2 * A * t + B)) as Hsq.
  unfold Rsqr in Hsq. lra.
Qed.

Lemma quadratic_roots (t : R) :
  0 <= D ->
  A * t * t + B * t + C = 0 <->
  t = (- B - sqrt D) / (2 * A) \/ t = (- B + sqrt D) / (2 * A).
Proof.
  intros HD. pose proof (sqrt_sqrt D HD) as Hs.
  pose proof (quadratic_completed t) as Hc.
  assert (H2A : 2 * A <> 0) by lra.
  split.
  - intros Heq. rewrite Heq in Hc.
    assert (Hprod : (2 * A * t + B + sqrt D) * (2 * A * t + B - sqrt D) = 0).
    { transitivity ((2 * A * t + B) * (2 * A * t + B) - sqrt D * sqrt D); [ring | lra]. }
    apply Rmult_integral in Hprod. destruct Hprod as [Hm | Hp]; [left | right].
    + apply (Rmult_eq_reg_l (2 * A)); [| exact H2A]. field_simplify; [| lra]. lra.
    + apply (Rmult_eq_reg_l (2 * A)); [| exact H2A]. field_simplify; [| lra]. lra.
  - assert (Hzero : (2 * A * t + B) * (2 * A * t + B) = D -> A * t * t + B * t + C = 0).
    { intros Hd. rewrite Hd in Hc.
      apply (Rmult_eq_reg_l (4 * A)); [| lra]. lra. }
    intros [-> | ->]; apply Hzero; rewrite <- Hs at 3; field; lra.
Qed.

Lemma quadratic_roots_ordered : 0 <= D -> (- B - sqrt D) / (2 * A) <= (- B + sqrt D) / (2 * A).
Proof.
  intros HD. pose proof (sqrt_pos D) as Hs.
  apply Rmult_le_reg_r with (2 * A); [lra |]. field_simplify; lra.
Qed.
End Quadratic.

Lemma on_sphere_quadratic (o d c : R * R * R) (r t : R) :
  on_sphere o d c r t <->
  let A := d.1.1 * d.1.1 + d.1.2 * d.1.2 + d.2 * d.2 in
  let B := 2 * ((o.1.1 - c.1.1) * d.1.1 + (o.1.2 - c.1.2) * d.1.2 + (o.2 - c.2) * d.2) in
  let C := (o.1.1 - c.1.1) * (o.1.1 - c.1.1) + (o.1.2 - c.1.2) * (o.1.2 - c.1.2)
           + (o.2 - c.2) * (o.2 - c.2) - r * r in
  A * t * t + B * t + C = 0.
Proof.
  unfold on_sphere. cbv zeta.
  match goal with |- ?l = ?rr <-> ?q = 0 =>
    assert (Hid : l - rr = q) by ring end.
  split; intros Heq; lra.
Qed.

Lemma direction_nonzero (d : R * R * R) :
  d <> (0, 0, 0) -> 0 < d.1.1 * d.1.1 + d.1.2 * d.1.2 + d.2 * d.2.
Proof.
  destruct d as [[dx dy] dz]. cbn [fst snd]. intros Hd.
  pose proof (Rle_0_sqr dx) as Hx. pose proof (Rle_0_sqr dy) as Hy.
  pose proof (Rle_0_sqr dz) as Hz. unfold Rsqr in *.
  destruct (Req_dec_T dx 0) as [-> | Hdx].
  - destruct (Req_dec_T dy 0) as [-> | Hdy].
    + destruct (Req_dec_T dz 0) as [-> | Hdz]; [contradiction |].
      pose proof (Rsqr_pos_lt dz Hdz) as Hp. unfold Rsqr in Hp. lra.
    + pose proof (Rsqr_pos_lt dy Hdy) as Hp. unfold Rsqr in Hp. lra.
  - pose proof (Rsqr_pos_lt dx Hdx) as Hp. unfold Rsqr in Hp. lra.
Qed.

End RayTheorems.

(** ** Ray picking in binary32 *)

Lemma raySphereIntersection_locals {F : Type} `{FloatArith F}
    (o d c : vec3.t F) (r : F) :
  raySphereIntersection o d c r =
    if fltb (ray_discriminant o d c r) (of_int 0) then None
    else if fltb (literal 1 1000) (ray_t1 o d c r) then Some (ray_t1 o d c r)
    else if fltb (literal 1 1000) (ray_t2 o d c r) then Some (ray_t2 o d c r)
    else None.
Proof. reflexivity. Qed.

(** *** Zeros and NaN through the binary32 operations *)

Ltac zn_cases :=
  repeat match goal with
  | H : zero_or_nan _ |- _ => destruct H as [-> | [-> | ->]]
  end.
Ltac zn_solve :=
  unfold zero_or_nan; vm_compute; auto.

Lemma mul_zero_r (x : float) (s : bool) : zero_or_nan (F32.mul x (S754_zero s)).
Proof. destruct x as [[] | [] | | [] m e], s; zn_solve. Qed.

Lemma mul_zero_l (x : float) (s : bool) : zero_or_nan (F32.mul (S754_zero s) x).
Proof. destruct x as [[] | [] | | [] m e], s; zn_solve. Qed.

Lemma add_zero_or_nan (x y : float) :
  zero_or_nan x -> zero_or_nan y -> zero_or_nan (F32.add x y).
Proof. intros Hx Hy. zn_cases; zn_solve. Qed.

Lemma mul_zero_or_nan_l (x y : float) : zero_or_nan x -> zero_or_nan (F32.mul x y).
Proof.
  intros [-> | [-> | ->]]; [apply mul_zero_l | apply mul_zero_l |].
  unfold zero_or_nan. auto.
Qed.

Lemma dot_zero_r (u d : vec3.t float) :
  zero_vec d = true -> zero_or_nan (dot u d).
Proof.
  destruct d as [[[] | [] | | [] ? ?] [[] | [] | | [] ? ?] [[] | [] | | [] ? ?]];
    cbn; try discriminate; intros _.
  all: unfold dot; cbn [vec3.x vec3.y vec3.z fadd fmul F32_arith];
    repeat apply add_zero_or_nan; apply mul_zero_r.
Qed.

Lemma dot_zero_self (d : vec3.t float) :
  zero_vec d = true -> dot d d = S754_zero false.
Proof.
  destruct d as [[[] | [] | | [] ? ?] [[] | [] | | [] ? ?] [[] | [] | | [] ? ?]];
    cbn; try discriminate; intros _; vm_compute; reflexivity.
Qed.

Lemma raySphereIntersection_zero_direction (o d c : vec3.t float) (r : float) :
  zero_vec d = true -> raySphereIntersection o d c r = None.
Proof.
  intros Hd. rewrite raySphereIntersection_locals.
  unfold ray_t1, ray_t2, ray_discriminant, ray_a, ray_c, ray_b.
  rewrite (dot_zero_self d Hd).
  pose proof (dot_zero_r (vec3_sub o c) d Hd) as Hb.
  set (p := dot (vec3_sub o c) d) in *. clearbody p.
  set (q := fsub (dot (vec3_sub o c) (vec3_sub o c)) (fmul r r)). clearbody q.
  cbn [fadd fsub fmul fdiv fsqrt fopp fltb of_int literal F32_arith].
  destruct Hb as [-> | [-> | ->]];
    destruct q as [[] | [] | | [] m e]; vm_compute; reflexivity.
Qed.

(** *** The binary32 comparisons of the function, read on the reals *)

Section Reading.
Local Open Scope R_scope.

Lemma powerRZ_step (e k : Z) :
  (1 <= k)%Z -> exists q, 2 <= q /\ powerRZ 2 (e + k) = powerRZ 2 e * q.
Proof.
  intros Hk. exists (powerRZ 2 k). split.
  - destruct k as [| p | p]; try lia. cbn [powerRZ].
    destruct (Pos2Nat.is_succ p) as [n ->]. cbn [pow].
    pose proof (pow_R1_Rle 2 n ltac:(lra)). lra.
  - apply powerRZ_add. lra.
Qed.

Lemma normal32_bounds (s : bool) (m : positive) (e : Z) :
  normal32 (S754_finite s m e) = true ->
  0 < IZR (Z.pos m) < 16777216
  /\ ((-149 < e)%Z -> 8388608 <= IZR (Z.pos m)).
Proof.
  cbn [normal32]. rewrite !andb_true_iff, orb_true_iff.
  intros [[[Hhi Hlo] _] _].
  apply Z.ltb_lt in Hhi. split.
  - split; [apply IZR_lt; lia |]. change 16777216 with (IZR (2 ^ 24)). apply IZR_lt. exact Hhi.
  - intros He. destruct Hlo as [Heq | Hlo]; [apply Z.eqb_eq in Heq; lia |].
    apply Z.leb_le in Hlo. change 8388608 with (IZR (2 ^ 23)). apply IZR_le. exact Hlo.
Qed.

Lemma below_zero (x : float) :
  normal32 x = true -> (F32.ltb x (F32.of_Z 0) = true <-> to_R x < 0).
Proof.
  destruct x as [s | s | | s m e]; try discriminate.
  - intros _. cbn. split; [discriminate | lra].
  - intros Hn. destruct (normal32_bounds s m e Hn) as [[Hpos _] _].
    pose proof (powerRZ_lt 2 e ltac:(lra)) as Hp.
    destruct s; cbn [to_R].
    + split; [intros _ | reflexivity]. nra.
    + split; [discriminate |]. nra.
Qed.

Lemma threshold_eq : threshold = 8589935 * powerRZ 2 (-33).
Proof.
  unfold threshold.
  replace (F32.of_ratio 1 1000) with (S754_finite false 8589935 (-33))
    by (vm_compute; reflexivity).
  cbn [to_R]. lra.
Qed.

Lemma above_threshold (t : float) :
  normal32 t = true ->
  (F32.ltb (F32.of_ratio 1 1000) t = true <-> threshold < to_R t).
Proof.
  rewrite threshold_eq.
  replace (F32.of_ratio 1 1000) with (S754_finite false 8589935 (-33))
    by (vm_compute; reflexivity).
  pose proof (powerRZ_lt 2 (-33) ltac:(lra)) as HP.
  destruct t as [s | s | | s m e]; try discriminate.
  - intros _. cbn [to_R]. split; [discriminate | lra].
  - intros Hn. destruct (normal32_bounds s m e Hn) as [[Hpos Hhi] Hlo].
    pose proof (powerRZ_lt 2 e ltac:(lra)) as Hp.
    destruct s; cbn [to_R].
    { split; [discriminate |]. nra. }
    unfold F32.ltb, SFltb, SFcompare.
    change (Pos.compare_cont Eq 8589935 m) with (Pos.compare 8589935 m).
    destruct (Z.compare_spec (-33) e) as [<- | Hlt | Hgt].
    + destruct (Pos.compare_spec 8589935 m) as [<- | Hm | Hm].
      * split; [discriminate | lra].
      * split; [intros _ | reflexivity].
        assert (8589935 < IZR (Z.pos m)) by (apply IZR_lt; lia). nra.
      * split; [discriminate |].
        assert (IZR (Z.pos m) < 8589935) by (apply IZR_lt; lia). nra.
    + split; [intros _ | reflexivity].
      destruct (powerRZ_step (-33) (e + 33) ltac:(lia)) as (q & Hq & Heq).
      replace (-33 + (e + 33))%Z with e in Heq by lia. rewrite Heq.
      specialize (Hlo ltac:(lia)).
      set (P := powerRZ 2 (-33)) in *. set (M := IZR (Z.pos m)) in *.
      assert (16777216 <= M * q) by nra. nra.
    + split; [discriminate |].
      destruct (powerRZ_step e (-33 - e) ltac:(lia)) as (q & Hq & Heq).
      replace (e + (-33 - e))%Z with (-33)%Z in Heq by lia. rewrite Heq.
      set (P := powerRZ 2 e) in *. set (M := IZR (Z.pos m)) in *.
      assert (M * P < 8589935 * (P * q)) by nra. nra.
Qed.

End Reading.

Section UnroundedRuns.
Local Open Scope R_scope.

Lemma on_sphere_quad (o d c : R * R * R) (r t : R) :
  on_sphere o d c r t <-> quad_a d * t * t + quad_b o d c * t + quad_c o c r = 0.
Proof. exact (on_sphere_quadratic o d c r t). Qed.

Lemma raySphereIntersection_unrounded (o d c : vec3.t float) (r : float) :
  unrounded o d c r ->
  vec3_to_R d <> (0, 0, 0) ->
  let solves := on_sphere (vec3_to_R o) (vec3_to_R d) (vec3_to_R c) (to_R r) in
  let hit := raySphereIntersection o d c r in
  (is_Some hit <-> exists t, threshold < t /\ solves t)
  /\ (forall dist, hit = Some dist ->
        threshold < to_R dist /\ solves (to_R dist)
        /\ forall t', threshold < t' -> solves t' -> to_R dist <= t').
Proof.
  intros (_ & HnD & HD & Hcand) Hdir solves hit. subst solves hit.
  pose proof (direction_nonzero _ Hdir) as HA. fold (quad_a (vec3_to_R d)) in HA.
  rewrite raySphereIntersection_locals. cbn [fltb of_int literal F32_arith].
  set (O := vec3_to_R o) in *. set (Dv := vec3_to_R d) in *. set (Cv := vec3_to_R c) in *.
  set (A := quad_a Dv) in *. set (B := quad_b O Dv Cv) in *. set (C := quad_c O Cv (to_R r)).
  set (D := quad_discriminant O Dv Cv (to_R r)) in *.
  assert (HDeq : D = B * B - 4 * A * C) by reflexivity.
  assert (Hsphere : forall t, on_sphere O Dv Cv (to_R r) t <-> A * t * t + B * t + C = 0).
  { intros t. apply on_sphere_quad. }
  pose proof (below_zero _ HnD) as Hsign. rewrite HD in Hsign.
  destruct (F32.ltb (ray_discriminant o d c r) (F32.of_Z 0)).
  { assert (HDneg : D < 0) by (apply Hsign; reflexivity).
    split.
    - split; [intros [x [=]] |].
      intros (t & _ & Ht). apply Hsphere in Ht. exfalso.
      rewrite HDeq in HDneg. exact (quadratic_no_root A B C t HDneg Ht).
    - intros dist [=]. }
  assert (HD0 : 0 <= D).
  { destruct (Rle_lt_dec 0 D) as [Hle | Hlt]; [exact Hle |].
    apply Hsign in Hlt. discriminate. }
  pose proof (quadratic_roots A B C HA) as Hroots. rewrite <- HDeq in Hroots.
  pose proof (quadratic_roots_ordered A B C HA) as Hord. rewrite <- HDeq in Hord.
  specialize (Hord HD0).
  destruct (Hcand HD0) as (Hn1 & Ht1 & Hfar).
  set (r1 := (- B - sqrt D) / (2 * A)) in *. set (r2 := (- B + sqrt D) / (2 * A)) in *.
  pose proof (above_threshold _ Hn1) as Htest1. rewrite Ht1 in Htest1.
  destruct (F32.ltb (F32.of_ratio 1 1000) (ray_t1 o d c r)).
  { assert (H1 : threshold < r1) by (apply Htest1; reflexivity).
    split.
    - split; [| intros _; eexists; reflexivity].
      intros _. exists r1. split; [exact H1 |]. apply Hsphere, Hroots; auto.
    - intros dist Heq.
      assert (Hdist : ray_t1 o d c r = dist) by (injection Heq; intros Hx; exact Hx).
      rewrite <- Hdist, Ht1. split; [exact H1 |].
      split; [apply Hsphere, Hroots; auto |].
      intros t' _ Ht'. apply Hsphere, Hroots in Ht'; [| exact HD0].
      destruct Ht' as [-> | ->]; lra. }
  assert (H1 : r1 <= threshold).
  { destruct (Rle_lt_dec r1 threshold) as [Hle | Hlt]; [exact Hle |].
    apply Htest1 in Hlt. discriminate. }
  destruct (Hfar H1) as (Hn2 & Ht2).
  pose proof (above_threshold _ Hn2) as Htest2. rewrite Ht2 in Htest2.
  destruct (F32.ltb (F32.of_ratio 1 1000) (ray_t2 o d c r)).
  { assert (H2 : threshold < r2) by (apply Htest2; reflexivity).
    split.
    - split; [| intros _; eexists; reflexivity].
      intros _. exists r2. split; [exact H2 |]. apply Hsphere, Hroots; auto.
    - intros dist Heq.
      assert (Hdist : ray_t2 o d c r = dist) by (injection Heq; intros Hx; exact Hx).
      rewrite <- Hdist, Ht2. split; [exact H2 |].
      split; [apply Hsphere, Hroots; auto |].
      intros t' Hfar' Ht'. apply Hsphere, Hroots in Ht'; [| exact HD0].
      destruct Ht' as [-> | ->]; lra. }
  assert (H2 : r2 <= threshold).
  { destruct (Rle_lt_dec r2 threshold) as [Hle | Hlt]; [exact Hle |].
    apply Htest2 in Hlt. discriminate. }
  split.
  - split; [intros [x [=]] |].
    intros (t & Hfar' & Ht). apply Hsphere, Hroots in Ht; [| exact HD0].
    destruct Ht as [-> | ->]; lra.
  - intros dist [=].
Qed.

End UnroundedRuns.


Section RayExamples.
Local Open Scope R_scope.

Ltac powers_of_two :=
  cbn [to_R powerRZ];
  repeat match goal with
  | |- context [Pos.to_nat ?p] =>
      let n := eval vm_compute in (Pos.to_nat p) in change (Pos.to_nat p) with n
  end;
  cbn [pow].

(** The reals of the floats the examples use. *)
Lemma to_R_small_integers :
  to_R (F32.of_Z 0) = 0 /\ to_R (F32.of_Z 1) = 1 /\ to_R (F32.of_Z (-5)) = -5
  /\ to_R (F32.of_Z 4) = 4 /\ to_R (F32.of_Z 6) = 6
  /\ to_R (F32.of_Z 1000) = 1000 /\ to_R (F32.of_ratio 129 128) = 129 / 128.
Proof.
  replace (F32.of_Z 0) with (S754_zero false) by (vm_compute; reflexivity).
  replace (F32.of_Z 1) with (S754_finite false 8388608 (-23)) by (vm_compute; reflexivity).
  replace (F32.of_Z (-5)) with (S754_finite true 10485760 (-21)) by (vm_compute; reflexivity).
  replace (F32.of_Z 4) with (S754_finite false 8388608 (-21)) by (vm_compute; reflexivity).
  replace (F32.of_Z 6) with (S754_finite false 12582912 (-21)) by (vm_compute; reflexivity).
  replace (F32.of_Z 1000) with (S754_finite false 16384000 (-14)) by (vm_compute; reflexivity).
  replace (F32.of_ratio 129 128) with (S754_finite false 8454144 (-23))
    by (vm_compute; reflexivity).
  powers_of_two. repeat split; lra.
Qed.



End RayExamples.

(** ** The theorems at concrete states *)

(** Closed integer comparisons, by evaluation. *)
Ltac by_evaluation :=
  vm_compute; first [reflexivity | discriminate | (intro; discriminate)].



(** C2, counterexample. One live and one pending cell on the device at the
    start of a frame: the frame returns, the grid pass is the first dispatch,
    physics the fifth, and the addition pass the eighth and last, so it runs
    before none of the stages. *)
Lemma updateCells_additions_after_stages :
  let r := @updateCells small_config idle_shaders F32.one pending_manager in
  (mem_counter (device pending_manager)).2 > 0
  /\ is_Some (state_of r)
  /\ first_dispatch gridClearShader (dispatched (trace_of r)) = Some 0%nat
  /\ first_dispatch physicsShader (dispatched (trace_of r)) = Some 4%nat
  /\ first_dispatch cellAdditionShader (dispatched (trace_of r)) = Some 7%nat
  /\ forallb (fun stage => negb (runs_before cellAdditionShader stage
                                   (dispatched (trace_of r)))) frame_stages = true.
Proof.
  cbv zeta. split; [by_evaluation |].
  split; [eexists; vm_compute; reflexivity |].
  repeat split; vm_compute; reflexivity.
Qed.

(** C3, counterexample. A record offered with mass 2 is stored with
    [positionAndMass.w = 1.0f]. *)
Lemma addCellToStagingBuffer_mass_overwritten :
  exists s' stored,
    @addCellToStagingBuffer small_config (cell_at 0 0 0 2) fresh_manager = Ok (tt, s', [])
    /\ cpuCells s' = [stored]
    /\ cellStagingBuffer s' = [stored]
    /\ vec4.w (positionAndMass (cell_at 0 0 0 2)) = F32.of_Z 2
    /\ vec4.w (positionAndMass stored) = F32.of_Z 1
    /\ vec4.w (positionAndMass stored) <> vec4.w (positionAndMass (cell_at 0 0 0 2)).
Proof.
  eexists _, _. split; [vm_compute; reflexivity |].
  repeat split; try reflexivity. vm_compute. discriminate.
Qed.

Lemma addCellsToGPUBuffer_overruns_queue_witness :
  exists s',
    @addCellsToGPUBuffer small_config (replicate 3 ComputeCell_zero) fresh_manager =
      Ok (tt, s', [Stdout (MsgAddingCells 3 0);
                   GLBufferSubData cellAdditionBuffer 0 3;
                   GLInvalidValue;
                   GLBufferSubData gpuCellCountBuffer 1 1;
                   GLCopyBufferSubData gpuCellCountBuffer stagingCellCountBuffer])
    /\ gpuPendingCellCount s' = 0 + 3
    /\ gpuPendingCellCount s' > Z.quot (@MAX_CELLS small_config) 2
    /\ (mem_counter (device s')).2 = int_to_uint (0 + 3)
    /\ mem_staging (device s') = mem_counter (device s')
    /\ mem_additions (device s') = mem_additions (device fresh_manager).
Proof.
  apply (@addCellsToGPUBuffer_overruns_queue small_config fresh_manager
           (replicate 3 ComputeCell_zero)).
  - by_evaluation.
  - reflexivity.
  - by_evaluation.
Defined.

Lemma addCellToStagingBuffer_rejects_when_full_witness :
  @addCellToStagingBuffer small_config (cell_at 1 2 3 1) (set_cellCount 4 fresh_manager)
  = Ok (tt, set_cellCount 4 fresh_manager, [Stdout MsgMaxCellsWarning]).
Proof.
  apply (@addCellToStagingBuffer_rejects_when_full small_config). by_evaluation.
Defined.

Lemma addCellToStagingBuffer_forces_unit_mass_witness :
  exists stored s',
    @addCellToStagingBuffer small_config (cell_at 0 0 0 2) fresh_manager = Ok (tt, s', [])
    /\ cellStagingBuffer s' = cellStagingBuffer fresh_manager ++ [stored]
    /\ cpuCells s' = cpuCells fresh_manager ++ [stored]
    /\ cpuPendingCellCount s' = cpuPendingCellCount fresh_manager + 1
    /\ vec4.w (positionAndMass stored) = F32.one
    /\ vec4.x (positionAndMass stored) = vec4.x (positionAndMass (cell_at 0 0 0 2))
    /\ vec4.y (positionAndMass stored) = vec4.y (positionAndMass (cell_at 0 0 0 2))
    /\ vec4.z (positionAndMass stored) = vec4.z (positionAndMass (cell_at 0 0 0 2))
    /\ velocity stored = velocity (cell_at 0 0 0 2)
    /\ acceleration stored = acceleration (cell_at 0 0 0 2)
    /\ orientation stored = orientation (cell_at 0 0 0 2)
    /\ age stored = age (cell_at 0 0 0 2)
    /\ splitTimer stored = splitTimer (cell_at 0 0 0 2)
    /\ modeIndex stored = modeIndex (cell_at 0 0 0 2).
Proof.
  apply (@addCellToStagingBuffer_forces_unit_mass small_config). by_evaluation.
Defined.



Lemma dragging_manager_allocated :
  @buffers_allocated small_config (device dragging_manager).
Proof.
  split; [reflexivity |]. split; [| reflexivity].
  cbn. repeat constructor.
Defined.

Lemma dragSelectedCell_pins_cell_witness :
  exists c' s' tr,
    dragSelectedCell (vec3.mk (F32.of_Z 7) (F32.of_Z 8) (F32.of_Z 9)) dragging_manager
      = Ok (tt, s', tr)
    /\ vec4.x (positionAndMass c') = F32.of_Z 7
    /\ vec4.y (positionAndMass c') = F32.of_Z 8
    /\ vec4.z (positionAndMass c') = F32.of_Z 9
    /\ vec4.x (velocity c') = F32.zero
    /\ vec4.y (velocity c') = F32.zero
    /\ vec4.z (velocity c') = F32.zero
    /\ cpuCells s' !! 1%nat = Some c'
    /\ (forall i b, mem_cells (device s') !! i = Some b -> b !! 1%nat = Some c').
Proof.
  destruct (@dragSelectedCell_pins_cell small_config idle_shaders dragging_manager
              (vec3.mk (F32.of_Z 7) (F32.of_Z 8) (F32.of_Z 9)) moving_cell)
    as (c' & s' & tr & Heq & Hx & Hy & Hz & Hvx & Hvy & Hvz & Hcpu & _ & Hgpu & _).
  - reflexivity.
  - reflexivity.
  - split; by_evaluation.
  - reflexivity.
  - exact dragging_manager_allocated.
  - exists c', s', tr. repeat (split; [assumption |]). exact Hgpu.
Defined.

(** * Further properties of the code *)

(** ** Lists and traces *)

Lemma alter3_lookup {X} (f : X -> X) (l : list X) (j : nat) :
  alter3 f l !! j = if decide (j < 3)%nat then f <$> l !! j else l !! j.
Proof.
  unfold alter3. destruct j as [| [| [| j]]]; cbn.
  - rewrite !list_lookup_alter_ne, list_lookup_alter_eq by lia. reflexivity.
  - rewrite list_lookup_alter_ne, list_lookup_alter_eq, list_lookup_alter_ne by lia.
    reflexivity.
  - rewrite list_lookup_alter_eq, !list_lookup_alter_ne by lia. reflexivity.
  - rewrite !list_lookup_alter_ne by lia. reflexivity.
Qed.

Lemma alter3_compose {X} (f g : X -> X) (l : list X) :
  (forall x, f (g x) = f x) -> alter3 f (alter3 g l) = alter3 f l.
Proof.
  intros Hfg. apply list_eq. intros j. rewrite !alter3_lookup.
  destruct (decide (j < 3)%nat); [| reflexivity].
  destruct (l !! j); cbn; [rewrite Hfg |]; reflexivity.
Qed.

Lemma fenced_app (t1 t2 : list Event) :
  fenced t1 = true -> fenced t2 = true -> fenced (t1 ++ t2) = true.
Proof.
  intros H1 H2. induction t1 as [| e t1 IH]; [exact H2 |].
  destruct e; cbn in *; try (apply IH; exact H1).
  destruct t1 as [| e' t1']; [discriminate |].
  destruct e'; try discriminate. cbn [app]. apply IH. exact H1.
Qed.

Lemma fenced_barriers_follow (tr : list Event) :
  fenced tr = true -> barriers_follow false tr = true.
Proof.
  induction tr as [| e tr IH]; [reflexivity |].
  destruct e; cbn [fenced barriers_follow touches_memory negb andb]; try exact IH.
  destruct tr as [| e' tr']; [discriminate |].
  destruct e'; try discriminate. intros Hrest.
  specialize (IH Hrest). cbn [barriers_follow] in IH |- *. exact IH.
Qed.

Lemma fenced_no_dispatch (tr : list Event) :
  dispatched tr = [] -> fenced tr = true.
Proof.
  induction tr as [| e tr IH]; [reflexivity |].
  destruct e; cbn; try exact IH. discriminate.
Qed.

(** The conversions between the host's [int] counters and the unsigned
    words of the counter buffer are inverse to each other on their ranges. *)
Lemma counter_conversions_roundtrip (i u : Z) :
  (- 2 ^ 31 <= i < 2 ^ 31 -> uint_to_int (int_to_uint i) = i)
  /\ (0 <= u < 2 ^ 32 -> int_to_uint (uint_to_int u) = u).
Proof.
  unfold uint_to_int, int_to_uint. split; intros Hr.
  - destruct (Z.ltb_spec (i mod 2 ^ 32) (2 ^ 31)) as [Hlt | Hge].
    + destruct (Z_lt_le_dec i 0) as [Hneg | Hpos].
      * rewrite <- (Z.mod_add i 1 (2 ^ 32)) in Hlt by lia.
        rewrite Z.mod_small in Hlt by lia. lia.
      * apply Z.mod_small. lia.
    + destruct (Z_lt_le_dec i 0) as [Hneg | Hpos].
      * rewrite <- (Z.mod_add i 1 (2 ^ 32)) by lia.
        rewrite Z.mod_small by lia. lia.
      * rewrite Z.mod_small in Hge by lia. lia.
  - destruct (Z.ltb_spec u (2 ^ 31)) as [Hlt | Hge].
    + apply Z.mod_small. lia.
    + rewrite <- (Z.mod_add (u - 2 ^ 32) 1 (2 ^ 32)) by lia.
      rewrite Z.mod_small by lia. lia.
Qed.

Section MoreIngress.
Context `{Config} `{Shaders}.

(** ** Host ingress *)

(** X1. A batch that passes the cell-count test and fits in the addition
    queue after the pending records is uploaded there, record by record, at
    offset [gpuPendingCellCount]; the other slots of the queue, the cell
    buffers, [cellCount] and [cpuCells] are unchanged; the pending count
    advances by the size of the batch on the host, on the device and in the
    mirror, and the live count of the device is untouched. *)
Theorem addCellsToGPUBuffer_uploads_batch (s : CellManager) (cells : list ComputeCell) :
  let n := Z.of_nat (length cells) in
  let pending := gpuPendingCellCount s in
  cellCount s + n <= MAX_CELLS ->
  0 <= pending ->
  pending + n <= Z.of_nat (length (mem_additions (device s))) ->
  exists s',
    addCellsToGPUBuffer cells s =
      Ok (tt, s', [Stdout (MsgAddingCells n (cellCount s));
                   GLBufferSubData cellAdditionBuffer pending n;
                   GLBufferSubData gpuCellCountBuffer 1 1;
                   GLCopyBufferSubData gpuCellCountBuffer stagingCellCountBuffer])
    /\ (forall i c, cells !! i = Some c ->
          mem_additions (device s') !! (Z.to_nat pending + i)%nat = Some c)
    /\ (forall j, (j < Z.to_nat pending \/ Z.to_nat (pending + n) <= j)%nat ->
          mem_additions (device s') !! j = mem_additions (device s) !! j)
    /\ length (mem_additions (device s')) = length (mem_additions (device s))
    /\ gpuPendingCellCount s' = pending + n
    /\ mem_counter (device s') = ((mem_counter (device s)).1, int_to_uint (pending + n))
    /\ mem_staging (device s') = mem_counter (device s')
    /\ mem_cells (device s') = mem_cells (device s)
    /\ cellCount s' = cellCount s
    /\ cpuCells s' = cpuCells s.
Proof.
  intros n pending Hroom Hpos Hfit.
  unfold addCellsToGPUBuffer, glNamedBufferSubData, glNamedBufferSubData_count,
    glCopyNamedBufferSubData_counts. unfold_M. cbn. fold n pending.
  destruct (Z.gtb_spec (cellCount s + n) MAX_CELLS) as [? | _]; [lia |].
  destruct (Z.leb_spec 0 pending) as [_ | ?]; [| lia].
  destruct (Z.leb_spec (pending + n) (Z.of_nat (length (mem_additions (device s)))))
    as [_ | ?]; [| lia].
  cbn. eexists. split; [reflexivity |]. cbn.
  split.
  { intros i c Hc. pose proof (lookup_lt_Some _ _ _ Hc) as Hi.
    rewrite list_lookup_inserts by (unfold n in *; lia).
    replace (Z.to_nat pending + i - Z.to_nat pending)%nat with i by lia. exact Hc. }
  split.
  { intros j [Hlt | Hge].
    - apply list_lookup_inserts_lt. exact Hlt.
    - apply list_lookup_inserts_ge. unfold n in *. lia. }
  split; [apply length_inserts |].
  repeat split; reflexivity.
Qed.

(** X2. A batch with [cellCount + n > MAX_CELLS] is rejected whole: two console
    lines, no GL command, and the object is unchanged. *)
Theorem addCellsToGPUBuffer_rejects_batch (s : CellManager) (cells : list ComputeCell) :
  cellCount s + Z.of_nat (length cells) > MAX_CELLS ->
  addCellsToGPUBuffer cells s =
    Ok (tt, s, [Stdout (MsgAddingCells (Z.of_nat (length cells)) (cellCount s));
                Stdout MsgMaxCellsWarning]).
Proof.
  intros Hfull. unfold addCellsToGPUBuffer. unfold_M.
  destruct (Z.gtb_spec (cellCount s + Z.of_nat (length cells)) MAX_CELLS); [reflexivity | lia].
Qed.

(** X3. When the staged batch is rejected by [addCellsToGPUBuffer], the staging
    buffer is cleared and [cpuPendingCellCount] reset all the same: the staged
    cells never reach the device, although they stay in [cpuCells]. *)
Theorem addStagedCellsToGPUBuffer_drops_rejected_batch (s : CellManager) :
  cellStagingBuffer s <> [] ->
  cellCount s + Z.of_nat (length (cellStagingBuffer s)) > MAX_CELLS ->
  exists s' tr,
    addStagedCellsToGPUBuffer s = Ok (tt, s', tr)
    /\ cellStagingBuffer s' = []
    /\ cpuPendingCellCount s' = 0
    /\ cpuCells s' = cpuCells s
    /\ gpuPendingCellCount s' = gpuPendingCellCount s
    /\ device s' = device s
    /\ tr = [Stdout (MsgAddingCells (Z.of_nat (length (cellStagingBuffer s))) (cellCount s));
             Stdout MsgMaxCellsWarning].
Proof.
  intros Hne Hfull.
  unfold addStagedCellsToGPUBuffer, addCellsToGPUBuffer. unfold_M.
  destruct (cellStagingBuffer s) as [| c l] eqn:Hst; [contradiction |].
  destruct (Z.gtb_spec (cellCount s + Z.of_nat (length (c :: l))) MAX_CELLS) as [_ | ?];
    [| lia].
  eexists _, _. split; [reflexivity |]. cbn. repeat split; reflexivity.
Qed.

(** X4. Staging does not advance [cellCount], so when one record is accepted
    every record of a burst is, however long the burst (longer than
    [MAX_CELLS] included): each is appended, with unit mass, to the staging
    buffer and to [cpuCells], [cpuPendingCellCount] counts them, and neither
    the device nor [cellCount] changes. *)
Theorem addCellToStagingBuffer_accepts_any_burst (cs : list ComputeCell) (s : CellManager) :
  cellCount s + 1 <= MAX_CELLS ->
  exists s',
    for_each cs addCellToStagingBuffer s = Ok (tt, s', [])
    /\ cellStagingBuffer s' = cellStagingBuffer s ++ (force_unit <$> cs)
    /\ cpuCells s' = cpuCells s ++ (force_unit <$> cs)
    /\ cpuPendingCellCount s' = cpuPendingCellCount s + Z.of_nat (length cs)
    /\ cellCount s' = cellCount s
    /\ gpuPendingCellCount s' = gpuPendingCellCount s
    /\ device s' = device s.
Proof.
  revert s. induction cs as [| c cs IH]; intros s Hroom.
  - exists s. cbn. rewrite !app_nil_r. repeat split; try reflexivity. lia.
  - cbn [for_each].
    assert (Hstep : addCellToStagingBuffer c s =
              Ok (tt, set_cpuPendingCellCount (cpuPendingCellCount s + 1)
                        (set_cpuCells (cpuCells s ++ [force_unit c])
                           (set_cellStagingBuffer (cellStagingBuffer s ++ [force_unit c]) s)),
                  [])).
    { unfold addCellToStagingBuffer. unfold_M.
      destruct (Z.gtb_spec (cellCount s + 1) MAX_CELLS) as [? | _]; [lia | reflexivity]. }
    match type of Hstep with _ = Ok (_, ?st, _) => set (s1 := st) in * end.
    destruct (IH s1 Hroom) as (s' & Hrun & Hst & Hcpu & Hpend & Hcnt & Hgp & Hdev).
    exists s'. split.
    { unfold mbind, M_bind. rewrite Hstep. cbv beta iota. rewrite Hrun. reflexivity. }
    subst s1. cbn in Hst, Hcpu, Hpend, Hcnt, Hgp, Hdev.
    rewrite Hst, Hcpu, Hpend, Hcnt, Hgp, Hdev, <- !app_assoc. cbn.
    repeat split; try reflexivity. lia.
Qed.

(** ** The CPU mirror *)

(** X5. [updateCellData] with an index outside [0 <= index < cellCount] does
    nothing: no write, no GL command. *)
Theorem updateCellData_ignores_invalid_index (s : CellManager) (index : Z) (newData : ComputeCell) :
  index < 0 \/ cellCount s <= index ->
  updateCellData index newData s = Ok (tt, s, []).
Proof.
  intros Hout. unfold updateCellData. unfold_M.
  destruct (Z.leb_spec 0 index); [| reflexivity].
  destruct (Z.ltb_spec index (cellCount s)); [lia | reflexivity].
Qed.

(** X6. A record written with [updateCellData] at a valid index is the record
    [getCellData] returns for that index. *)
Theorem updateCellData_getCellData_roundtrip (s : CellManager) (index : Z) (newData : ComputeCell) :
  0 <= index < cellCount s ->
  (Z.to_nat index < length (cpuCells s))%nat ->
  returns (updateCellData index newData ;; getCellData index) s
    (fun c _ _ => c = newData).
Proof.
  intros Hindex Hlen. step.
  eapply returns_conseq; [apply (updateCellData_returns s index newData Hindex Hlen) |].
  intros [] s' tr ->. cbn beta.
  unfold getCellData. wp. cbn [cellCount set_device set_selectedCell set_cpuCells].
  destruct (Z.leb_spec 0 index) as [_ | ?]; [| lia].
  destruct (Z.ltb_spec index (cellCount s)) as [_ | ?]; [| lia]. cbn [andb].
  eapply returns_cpuCells_at; [lia | | reflexivity].
  cbn. apply list_lookup_insert_eq, Hlen.
Qed.

(** ** Drag *)

(** X7. Without a valid selection [dragSelectedCell] does nothing. *)
Theorem dragSelectedCell_without_selection (s : CellManager) (p : vec3.t float) :
  isValid (selectedCell s) = false ->
  dragSelectedCell p s = Ok (tt, s, []).
Proof.
  intros Hinvalid. unfold dragSelectedCell. unfold_M. rewrite Hinvalid. reflexivity.
Qed.

(** X8. Two drags in a row leave the object exactly as the second drag alone
    does: the stored position is the last one supplied. *)
Theorem dragSelectedCell_last_position_wins (s : CellManager) (p1 p2 : vec3.t float) (c : ComputeCell) :
  isValid (selectedCell s) = true ->
  0 <= cellIndex (selectedCell s) ->
  cpuCells s !! Z.to_nat (cellIndex (selectedCell s)) = Some c ->
  exists s2 tr12 tr2,
    (dragSelectedCell p1 ;; dragSelectedCell p2) s = Ok (tt, s2, tr12)
    /\ dragSelectedCell p2 s = Ok (tt, s2, tr2).
Proof.
  intros Hvalid Hlo Hc.
  pose proof (lookup_lt_Some _ _ _ Hc) as Hlen.
  destruct (dragSelectedCell_returns s p1 c Hvalid Hlo Hc) as ([] & s1 & tr1 & Heq1 & Hs1).
  destruct (dragSelectedCell_returns s p2 c Hvalid Hlo Hc) as ([] & s2 & tr2 & Heq2 & Hs2).
  assert (Hc1 : cpuCells s1 !! Z.to_nat (cellIndex (selectedCell s1)) = Some (dragged p1 c)).
  { rewrite Hs1. cbn. apply list_lookup_insert_eq, Hlen. }
  assert (Hvalid1 : isValid (selectedCell s1) = true) by (rewrite Hs1; exact Hvalid).
  assert (Hlo1 : 0 <= cellIndex (selectedCell s1)) by (rewrite Hs1; exact Hlo).
  destruct (dragSelectedCell_returns s1 p2 _ Hvalid1 Hlo1 Hc1) as ([] & s12 & tr12 & Heq12 & Hs12).
  exists s2, (tr1 ++ tr12), tr2. split; [| exact Heq2].
  unfold mbind, M_bind. rewrite Heq1. cbv beta iota. rewrite Heq12.
  f_equal. f_equal. f_equal.
  rewrite Hs12, Hs2, Hs1.
  cbn [device mem_cells set_device set_mem_cells cpuCells set_cpuCells selectedCell
       set_selectedCell cellIndex set_cellData cellStagingBuffer cellCount
       cpuPendingCellCount gpuPendingCellCount bufferRotation isDraggingCell
       mem_additions mem_counter mem_staging mem_instances mem_modes mem_grid
       mem_gridCount mem_gridOffset cellData isValid dragDistance dragOffset].
  rewrite list_insert_insert_eq.
  assert (Hfold : forall (f : list ComputeCell -> list ComputeCell) l,
            alter f 2%nat (alter f 1%nat (alter f 0%nat l)) = alter3 f l) by reflexivity.
  rewrite !Hfold.
  rewrite alter3_compose by (intros x; apply list_insert_insert_eq).
  reflexivity.
Qed.

Lemma endDrag_returns (s : CellManager) (c : ComputeCell) :
  isDraggingCell s = true ->
  isValid (selectedCell s) = true ->
  0 <= cellIndex (selectedCell s) ->
  cpuCells s !! Z.to_nat (cellIndex (selectedCell s)) = Some c ->
  let n := Z.to_nat (cellIndex (selectedCell s)) in
  returns endDrag s (fun _ s' _ =>
    s' = set_isDraggingCell false
           (set_device (set_mem_cells (alter3 (<[n := stopped c]>) (mem_cells (device s)))
                          (device s))
              (set_cpuCells (<[n := stopped c]> (cpuCells s)) s))).
Proof.
  intros Hdrag Hvalid Hlo Hc n.
  pose proof (lookup_lt_Some _ _ _ Hc) as Hlen. fold n in Hc, Hlen.
  unfold endDrag. wp. rewrite Hdrag, Hvalid. cbn [andb when]. wp.
  eapply returns_cpuCells_update; [exact Hlo | exact Hc |]. fold n. wp.
  do 2 (apply returns_cpuCells_update_again; [exact Hlo | exact Hlen |]; wp).
  fold (stopped c).
  assert (Hnew : forall s0, cpuCells s0 = <[n := stopped c]> (cpuCells s) ->
            cpuCells s0 !! n = Some (stopped c)).
  { intros s0 ->. apply list_lookup_insert_eq, Hlen. }
  cbn [for_each]. wp.
  do 2 (eapply returns_cpuCells_at; [exact Hlo | apply Hnew; reflexivity |];
        apply returns_upload_cell; [exact Hlo |]; intros ?; wp).
  eapply returns_cpuCells_at; [exact Hlo | apply Hnew; reflexivity |].
  apply returns_upload_cell; [exact Hlo |]; intros ?. wp. reflexivity.
Qed.

(** X9. [endDrag] on a dragged cell returns, clears the drag flag (so no index
    is passed to the shaders any more), keeps the selection, and leaves the
    cell where it is with its velocity x, y, z cleared, in [cpuCells] and at
    its index of all three cell buffers. *)
Theorem endDrag_stops_cell (s : CellManager) (c : ComputeCell) :
  let index := cellIndex (selectedCell s) in
  isDraggingCell s = true ->
  isValid (selectedCell s) = true ->
  0 <= index ->
  cpuCells s !! Z.to_nat index = Some c ->
  exists c' s' tr,
    endDrag s = Ok (tt, s', tr)
    /\ isDraggingCell s' = false
    /\ draggedIndex s' = -1
    /\ selectedCell s' = selectedCell s
    /\ cpuCells s' = <[Z.to_nat index := c']> (cpuCells s)
    /\ mem_cells (device s') =
         alter3 (<[Z.to_nat index := c']>) (mem_cells (device s))
    /\ positionAndMass c' = positionAndMass c
    /\ vec4.x (velocity c') = F32.zero
    /\ vec4.y (velocity c') = F32.zero
    /\ vec4.z (velocity c') = F32.zero
    /\ vec4.w (velocity c') = vec4.w (velocity c).
Proof.
  intros index Hdrag Hvalid Hlo Hc.
  destruct (endDrag_returns s c Hdrag Hvalid Hlo Hc) as ([] & s' & tr & Heq & ->).
  exists (stopped c). eexists _, tr. split; [exact Heq |].
  repeat split; reflexivity.
Qed.

(** ** Dispatch sizes *)

(** X10. [(n + 63) / 64] work groups of 64 threads cover [n] cells with fewer
    than 64 threads to spare. *)
Theorem numGroups_for_covers (n : Z) :
  0 <= n <= 2 ^ 31 - 64 ->
  n <= 64 * numGroups_for n < n + 64.
Proof.
  intros Hn. unfold numGroups_for, int_to_uint.
  assert (Hq : 0 <= Z.quot (n + 63) 64 < 2 ^ 32).
  { Z.quot_rem_to_equations. lia. }
  rewrite Z.mod_small by exact Hq.
  Z.quot_rem_to_equations. lia.
Qed.

(** ** Reset *)

(** X11. [resetSimulation] returns; afterwards the CPU mirror and the staging
    buffer are empty, all counters and both counter pairs are zero, the
    rotation is 0, nothing is selected or dragged, every record of the three
    cell buffers and of the addition queue is the zero record, the buffers
    keep their sizes, and the mode buffer is left as it was. *)
Theorem resetSimulation_clears_everything (s : CellManager) :
  buffers_allocated (device s) ->
  exists s' tr,
    resetSimulation s = Ok (tt, s', tr)
    /\ buffers_allocated (device s')
    /\ cpuCells s' = [] /\ cellStagingBuffer s' = []
    /\ cellCount s' = 0 /\ cpuPendingCellCount s' = 0 /\ gpuPendingCellCount s' = 0
    /\ bufferRotation s' = 0
    /\ isValid (selectedCell s') = false /\ isDraggingCell s' = false
    /\ mem_counter (device s') = (0, 0) /\ mem_staging (device s') = (0, 0)
    /\ (forall i b j c, mem_cells (device s') !! i = Some b -> b !! j = Some c ->
          c = ComputeCell_zero)
    /\ (forall j c, mem_additions (device s') !! j = Some c -> c = ComputeCell_zero)
    /\ mem_modes (device s') = mem_modes (device s).
Proof.
  intros (Hthree & Hsizes & Hqueue).
  eexists _, _. split; [apply resetSimulation_eq |].
  cbn [device mem_cells cpuCells selectedCell cellStagingBuffer cellCount
       cpuPendingCellCount gpuPendingCellCount bufferRotation isDraggingCell
       mem_additions mem_counter mem_staging mem_modes isValid set_isValid
       buffers_allocated].
  change (alter (zero_fill ComputeCell_zero) 2%nat
            (alter (zero_fill ComputeCell_zero) 1%nat
               (alter (zero_fill ComputeCell_zero) 0%nat (mem_cells (device s)))))
    with (alter3 (zero_fill ComputeCell_zero) (mem_cells (device s))).
  assert (Hlook : forall i b, alter3 (zero_fill ComputeCell_zero) (mem_cells (device s)) !! i
                              = Some b ->
            exists b0, mem_cells (device s) !! i = Some b0
                       /\ b = zero_fill ComputeCell_zero b0).
  { intros i b. rewrite alter3_lookup. intros Hb.
    assert (Hi : (i < 3)%nat).
    { destruct (decide (i < 3)%nat) as [Hi | Hi]; [exact Hi |].
      apply lookup_lt_Some in Hb. lia. }
    rewrite decide_True in Hb by exact Hi.
    destruct (mem_cells (device s) !! i) as [b0 |]; [| discriminate].
    exists b0. injection Hb as <-. auto. }
  split.
  { unfold buffers_allocated. cbn [device mem_cells mem_additions].
    split; [unfold alter3; rewrite !length_alter; exact Hthree |].
    split.
    - apply Forall_lookup. intros i b Hb.
      destruct (Hlook i b Hb) as (b0 & Hb0 & ->).
      unfold zero_fill. rewrite length_replicate.
      exact (proj1 (Forall_lookup _ _) Hsizes i b0 Hb0).
    - unfold zero_fill. rewrite length_replicate. exact Hqueue. }
  repeat (split; [reflexivity |]).
  split.
  { intros i b j c Hb Hc. destruct (Hlook i b Hb) as (b0 & _ & ->).
    unfold zero_fill in Hc. apply lookup_replicate in Hc. tauto. }
  split; [| reflexivity].
  intros j c Hc. unfold zero_fill in Hc. apply lookup_replicate in Hc. tauto.
Qed.

(** ** The counter pass *)

(** X12. [runCellCounter] clears both words of the device counter pair before
    the counting dispatch, so a pending count on the device is erased; it
    then copies only the live count into the mirror, whose pending word is
    not refreshed. The host's [cellCount] and [gpuPendingCellCount] are not
    updated. *)
Theorem runCellCounter_counts_from_zero (s : CellManager) :
  let cleared := set_mem_counter (0, 0) (device s) in
  let counted :=
    run_shader cellCounterShader [("u_maxCells", UInt MAX_CELLS)]
      [(0%nat, getCellReadBuffer s); (1%nat, gpuCellCountBuffer)]
      (numGroups_for MAX_CELLS) cleared in
  exists s',
    runCellCounter s =
      Ok (tt, s', [GLClearBufferData gpuCellCountBuffer;
                   GLDispatch cellCounterShader [("u_maxCells", UInt MAX_CELLS)]
                     [(0%nat, getCellReadBuffer s); (1%nat, gpuCellCountBuffer)]
                     (numGroups_for MAX_CELLS);
                   GLMemoryBarrier;
                   GLCopyBufferSubData gpuCellCountBuffer stagingCellCountBuffer])
    /\ mem_counter (device s') = mem_counter counted
    /\ (mem_staging (device s')).1 = (mem_counter counted).1
    /\ (mem_staging (device s')).2 = (mem_staging counted).2
    /\ cellCount s' = cellCount s
    /\ gpuPendingCellCount s' = gpuPendingCellCount s.
Proof.
  cbv zeta. eexists. split; [reflexivity |]. repeat split; reflexivity.
Qed.

(** ** A whole frame *)

Lemma addCellsToGPUBuffer_host cells s :
  returns (addCellsToGPUBuffer cells) s (fun _ s' tr =>
    dispatched tr = []
    /\ exists pending g, s' = set_gpuPendingCellCount pending (set_device g s)).
Proof.
  unfold addCellsToGPUBuffer. wp.
  destruct (_ >? _).
  { wp. split; [reflexivity |]. exists (gpuPendingCellCount s), (device s). reflexivity. }
  unfold glNamedBufferSubData. wp.
  destruct (cell_store _ _) as [st |]; [destruct (_ && _) |]; wp.
  all: split; [reflexivity |]; eexists _, _; reflexivity.
Qed.

Lemma staged_upload_host s :
  returns (when (cpuPendingCellCount s >? 0) addStagedCellsToGPUBuffer) s
    (fun _ s' tr =>
       dispatched tr = []
       /\ (cpuPendingCellCount s = Z.of_nat (length (cellStagingBuffer s)) ->
           cellStagingBuffer s' = [] /\ cpuPendingCellCount s' = 0)
       /\ exists staged count pending g,
            s' = set_cpuPendingCellCount count (set_cellStagingBuffer staged
                   (set_gpuPendingCellCount pending (set_device g s)))).
Proof.
  destruct (Z.gtb_spec (cpuPendingCellCount s) 0) as [Hpos | Hzero]; cbn [when].
  - unfold addStagedCellsToGPUBuffer. wp.
    destruct (cellStagingBuffer s) as [| c l] eqn:Hst.
    + wp. split; [reflexivity |]. split; [cbn; lia |].
      exists [], (cpuPendingCellCount s), (gpuPendingCellCount s), (device s).
      rewrite <- Hst. reflexivity.
    + step. eapply returns_conseq; [apply addCellsToGPUBuffer_host |].
      intros u s1 t1 (Ht1 & pending & g & ->). cbn beta. wp.
      split; [rewrite !dispatched_app, Ht1; reflexivity |].
      split; [intros _; split; reflexivity |].
      exists [], 0, pending, g. reflexivity.
  - wp. split; [reflexivity |].
    split.
    { intros Hinv. destruct (cellStagingBuffer s); [split; [reflexivity | lia] |].
      cbn in Hinv. lia. }
    exists (cellStagingBuffer s), (cpuPendingCellCount s), (gpuPendingCellCount s), (device s).
    reflexivity.
Qed.

Lemma frame_stages_host dt s :
  cellCount s > 0 ->
  returns
    (updateSpatialGrid ;;
     glMemoryBarrier ;;
     runPhysicsCompute dt ;;
     glMemoryBarrier ;;
     runUpdateCompute dt ;;
     glMemoryBarrier ;;
     runInternalUpdateCompute dt ;;
     glMemoryBarrier) s
    (fun _ s' tr =>
       dispatched tr = frame_stages /\ fenced tr = true
       /\ exists g, s' = set_device g s).
Proof.
  intros Hlive. unfold updateSpatialGrid. wp.
  destruct (Z.eqb_spec (cellCount s) 0) as [? | _]; [lia |].
  unfold runGridClear, runGridAssign, runGridPrefixSum, runGridInsert,
    runPhysicsCompute, runUpdateCompute, runInternalUpdateCompute. wp.
  split; [reflexivity |]. split; [reflexivity |]. eexists. reflexivity.
Qed.

Lemma frame_end_host previousCellCount s :
  returns
    (glCopyNamedBufferSubData_counts ;;
     modify (fun s => set_gpuPendingCellCount (uint_to_int (countPtr 1 s)) s) ;;
     applyCellAdditions ;;
     glMemoryBarrier ;;
     modify (fun s => set_cellCount (uint_to_int (countPtr 0 s)) s) ;;
     s1 ← get;
     when (cellCount s1 >? previousCellCount)
       (emit (Stdout (MsgSplitEvent previousCellCount (cellCount s1)))) ;;
     rotateBuffers) s
    (fun _ s' tr =>
       dispatched tr = [cellAdditionShader] /\ last tr = Some RotateBuffers
       /\ fenced tr = true
       /\ (mem_counter (device s')).2 = 0
       /\ mem_staging (device s') = mem_counter (device s')
       /\ cellCount s' = uint_to_int (mem_counter (device s')).1
       /\ bufferRotation s' = (bufferRotation s + 1) mod 3
       /\ cpuCells s' = cpuCells s
       /\ selectedCell s' = selectedCell s
       /\ isDraggingCell s' = isDraggingCell s
       /\ cellStagingBuffer s' = cellStagingBuffer s
       /\ cpuPendingCellCount s' = cpuPendingCellCount s).
Proof.
  unfold applyCellAdditions. wp.
  match goal with |- returns (when ?b _) _ _ => destruct b end; cbn [when]; wp.
  all: repeat split; reflexivity.
Qed.

Lemma updateCells_frame (s : CellManager) (dt : float) :
  returns (updateCells dt) s (fun _ s' tr =>
    dispatched tr =
      (if uint_to_int (mem_counter (device s)).1 >? 0 then frame_stages else [])
      ++ [cellAdditionShader]
    /\ last tr = Some RotateBuffers
    /\ fenced tr = true
    /\ (mem_counter (device s')).2 = 0
    /\ mem_staging (device s') = mem_counter (device s')
    /\ cellCount s' = uint_to_int (mem_counter (device s')).1
    /\ bufferRotation s' = (bufferRotation s + 1) mod 3
    /\ cpuCells s' = cpuCells s
    /\ selectedCell s' = selectedCell s
    /\ isDraggingCell s' = isDraggingCell s
    /\ (cpuPendingCellCount s = Z.of_nat (length (cellStagingBuffer s)) ->
        cellStagingBuffer s' = [] /\ cpuPendingCellCount s' = 0)).
Proof.
  unfold updateCells. wp.
  match goal with |- returns _ ?st _ => set (sA := st) end.
  assert (HcA : cellCount sA = uint_to_int (mem_counter (device s)).1) by reflexivity.
  assert (HsA : exists count pending g,
            sA = set_gpuPendingCellCount pending (set_cellCount count (set_device g s))).
  { eexists _, _, _. reflexivity. }
  clearbody sA. rewrite <- HcA. clear HcA.
  destruct HsA as (countA & pendingA & gA & HsA).
  eapply returns_conseq; [apply staged_upload_host |].
  intros u sB tB (HtB & Hflush & staged & count & pending & g & HsB). cbn beta. step.
  assert (Hflush' : cpuPendingCellCount s = Z.of_nat (length (cellStagingBuffer s)) ->
            staged = [] /\ count = 0).
  { intros Hinv. rewrite HsB in Hflush. rewrite HsA in Hflush. apply Hflush. exact Hinv. }
  destruct (Z.gtb_spec (cellCount sA) 0) as [Hlive | Hempty]; cbn [when].
  - eapply returns_conseq.
    { apply frame_stages_host. rewrite HsB. cbn. lia. }
    intros u1 sC tC (HtC & HfC & gC & HsC). cbn beta.
    eapply returns_conseq; [apply frame_end_host |].
    intros u2 sD tD (HtD & Hlast & HfD & Hpend & Hmirror & Hcount
                      & Hrot & Hcpu & Hsel & Hdrag & Hstg & Hcp). cbn beta.
    rewrite !dispatched_app, HtB, HtC, HtD, !last_app, Hlast.
    split; [reflexivity |]. split; [reflexivity |].
    split.
    { change ([GLCopyBufferSubData gpuCellCountBuffer stagingCellCountBuffer] ++ [])
        with [GLCopyBufferSubData gpuCellCountBuffer stagingCellCountBuffer].
      cbn [app fenced]. repeat apply fenced_app; auto using fenced_no_dispatch. }
    split; [exact Hpend |]. split; [exact Hmirror |]. split; [exact Hcount |].
    rewrite Hrot, Hcpu, Hsel, Hdrag, Hstg, Hcp, HsC, HsB, HsA. cbn.
    do 4 (split; [reflexivity |]). exact Hflush'.
  - step.
    eapply returns_conseq; [apply frame_end_host |].
    intros u2 sD tD (HtD & Hlast & HfD & Hpend & Hmirror & Hcount
                      & Hrot & Hcpu & Hsel & Hdrag & Hstg & Hcp). cbn beta.
    rewrite !dispatched_app, HtB, HtD, !last_app, Hlast.
    split; [reflexivity |]. split; [reflexivity |].
    split.
    { cbn [app fenced]. repeat apply fenced_app; auto using fenced_no_dispatch. }
    split; [exact Hpend |]. split; [exact Hmirror |]. split; [exact Hcount |].
    rewrite Hrot, Hcpu, Hsel, Hdrag, Hstg, Hcp, HsB, HsA. cbn.
    do 4 (split; [reflexivity |]). exact Hflush'.
Qed.

(** X13. In every frame, after each dispatch a [glMemoryBarrier] is issued
    before the next command that reads or writes buffer memory (a dispatch,
    an upload, a copy or a clear) and before the frame ends; commands that
    touch no buffer memory, such as the unbinding of the storage buffer, may
    come between the dispatch and its barrier. *)
Theorem updateCells_fences_every_dispatch (s : CellManager) (dt : float) :
  returns (updateCells dt) s (fun _ _ tr => barriers_follow false tr = true).
Proof.
  eapply returns_conseq; [apply updateCells_frame |].
  intros u s' tr Hframe. cbn beta in *. apply fenced_barriers_follow. tauto.
Qed.

(** X14. Every frame returns with the pending count of the device at zero,
    the mirror equal to the device counter pair and the host's [cellCount]
    equal to the live count of the device; the CPU mirror of the cells and the
    selection are not touched by a frame. *)
Theorem updateCells_synchronises_counters (s : CellManager) (dt : float) :
  returns (updateCells dt) s (fun _ s' _ =>
    (mem_counter (device s')).2 = 0
    /\ mem_staging (device s') = mem_counter (device s')
    /\ cellCount s' = uint_to_int (mem_counter (device s')).1
    /\ cpuCells s' = cpuCells s
    /\ selectedCell s' = selectedCell s
    /\ isDraggingCell s' = isDraggingCell s).
Proof.
  eapply returns_conseq; [apply updateCells_frame |].
  intros u s' tr Hframe. cbn beta in *. tauto.
Qed.

(** X15. When [cpuPendingCellCount] is the number of staged records, as
    staging and reset keep it, no staged record survives a frame. *)
Theorem updateCells_flushes_staging (s : CellManager) (dt : float) :
  cpuPendingCellCount s = Z.of_nat (length (cellStagingBuffer s)) ->
  returns (updateCells dt) s (fun _ s' _ =>
    cellStagingBuffer s' = [] /\ cpuPendingCellCount s' = 0).
Proof.
  intros Hcounted. eapply returns_conseq; [apply updateCells_frame |].
  intros u s' tr Hframe. cbn beta in *. apply Hframe, Hcounted.
Qed.

(** X16. The first frame after a reset runs none of the grid, physics,
    integration and internal stages, whatever the state before the reset:
    its only dispatch is the addition pass. *)
Theorem first_frame_after_reset (s : CellManager) (dt : float) :
  returns (resetSimulation ;; updateCells dt) s (fun _ s' tr =>
    dispatched tr = [cellAdditionShader]
    /\ fenced tr = true
    /\ cpuCells s' = []
    /\ cellStagingBuffer s' = []).
Proof.
  step. exists tt. eexists _, _. split; [apply resetSimulation_eq |].
  eapply returns_conseq; [apply updateCells_frame |].
  intros u s' tr (Hd & _ & Hf & _ & _ & _ & _ & Hcpu & _ & _ & Hflush). cbn beta.
  rewrite dispatched_app, Hd. cbn in Hcpu, Hflush |- *.
  split; [reflexivity |].
  split; [exact Hf |]. split; [exact Hcpu |].
  apply Hflush. reflexivity.
Qed.

End MoreIngress.

(** ** Ray picking *)

Section RayPostcondition.
Context {F : Type} `{FloatArith F}.

Lemma raySphereIntersection_above_epsilon (o d c : vec3.t F) (r t : F) :
  raySphereIntersection o d c r = Some t -> fltb (literal 1 1000) t = true.
Proof.
  unfold raySphereIntersection. cbv zeta. intros Hhit.
  repeat case_match; simplify_eq; assumption.
Qed.

End RayPostcondition.

(** X17. In binary32, whenever [raySphereIntersection] returns [true] the
    distance it has set compares greater than [0.001f]; in particular it is
    neither NaN nor zero. *)
Theorem raySphereIntersection_distance_is_usable (o d c : vec3.t float) (r t : float) :
  raySphereIntersection o d c r = Some t ->
  F32.ltb (F32.of_ratio 1 1000) t = true /\ t <> S754_nan /\ t <> S754_zero false.
Proof.
  intros Hhit. pose proof (raySphereIntersection_above_epsilon o d c r t Hhit) as Hgt. cbn in Hgt.
  split; [exact Hgt |].
  split; intros ->; vm_compute in Hgt; discriminate.
Qed.

(** ** Read-back *)

Lemma sync_loop_spec (gpuData cpu0 : list ComputeCell) (n k : nat) :
  (k + n <= length gpuData)%nat ->
  sync_loop gpuData n (Z.of_nat k) (take k gpuData ++ drop k cpu0)
  = Ok (take (k + n) gpuData ++ drop (k + n) cpu0).
Proof.
  revert k. induction n as [| n IH]; intros k Hfit.
  - cbn. rewrite Nat.add_0_r. reflexivity.
  - cbn [sync_loop].
    destruct (lookup_lt_is_Some_2 gpuData k ltac:(lia)) as [c Hc].
    rewrite index_of_lookup, Nat2Z.id, Hc by lia.
    assert (Htake : length (take k gpuData) = k) by (rewrite length_take; lia).
    replace (Z.of_nat k + 1) with (Z.of_nat (S k)) by lia.
    replace (k + S n)%nat with (S k + n)%nat by lia.
    destruct (Z.ltb_spec (Z.of_nat k) (Z.of_nat (length (take k gpuData ++ drop k cpu0))))
      as [Hin | Hout].
    + rewrite length_app, Htake, length_drop in Hin.
      destruct (lookup_lt_is_Some_2 cpu0 k ltac:(lia)) as [old Hold].
      rewrite <- (IH (S k)) by lia. f_equal.
      rewrite (take_S_r _ _ _ Hc), <- app_assoc. cbn [app].
      rewrite <- (Nat.add_0_r k) at 1. rewrite <- Htake at 1.
      rewrite insert_app_r. f_equal.
      rewrite (drop_S _ _ _ Hold). reflexivity.
    + rewrite length_app, Htake, length_drop in Hout.
      rewrite <- (IH (S k)) by lia. f_equal.
      rewrite (take_S_r _ _ _ Hc), <- app_assoc. cbn [app].
      rewrite !drop_ge by lia. rewrite app_nil_r. reflexivity.
Qed.

Lemma sync_loop_from_start (gpuData cpu0 : list ComputeCell) (n : nat) :
  (n <= length gpuData)%nat ->
  sync_loop gpuData n 0 cpu0 = Ok (take n gpuData ++ drop n cpu0).
Proof.
  intros Hfit. pose proof (sync_loop_spec gpuData cpu0 n 0 ltac:(lia)) as Hloop.
  rewrite take_0, drop_0 in Hloop. cbn [app Nat.add] in Hloop.
  change (Z.of_nat 0) with 0 in Hloop. exact Hloop.
Qed.

Lemma sync_loop_overrun (gpuData : list ComputeCell) (n k : nat) (cpu : list ComputeCell) :
  (k <= length gpuData < k + n)%nat ->
  sync_loop gpuData n (Z.of_nat k) cpu = Undefined.
Proof.
  revert k cpu. induction n as [| n IH]; intros k cpu Hover; [lia |].
  cbn [sync_loop]. rewrite index_of_lookup, Nat2Z.id by lia.
  replace (Z.of_nat k + 1) with (Z.of_nat (S k)) by lia.
  destruct (gpuData !! k) as [c |] eqn:Hc; [| reflexivity].
  apply lookup_lt_Some in Hc.
  destruct (Z.of_nat k <? Z.of_nat (length cpu)); apply IH; lia.
Qed.

Lemma syncCellPositionsFromGPU_run (s : CellManager) (gpuData : list ComputeCell) :
  cell_store (getCellReadBuffer s) (device s) = Some gpuData ->
  0 <= cellCount s <= Z.of_nat (length gpuData) ->
  exists tr,
    syncCellPositionsFromGPU s
    = Ok (set_cpuCells (take (Z.to_nat (cellCount s)) gpuData
                        ++ drop (Z.to_nat (cellCount s)) (cpuCells s)) s, tr)
    /\ thrown tr = None.
Proof.
  intros Hmap Hfit. unfold syncCellPositionsFromGPU.
  destruct (Z.eqb_spec (cellCount s) 0) as [Hzero | _].
  - rewrite Hzero. exists []. split; reflexivity.
  - rewrite Hmap. destruct (Z.ltb_spec (cellCount s) 0) as [? | _]; [lia |].
    rewrite sync_loop_from_start by lia. eexists. split; reflexivity.
Qed.

(** X19. With a live count that is not negative, and the read buffer mapped
    and at least [cellCount] records long, [syncCellPositionsFromGPU]
    returns (it throws nothing), and the mirror afterwards is the first
    [cellCount] device records followed by the old mirror entries from
    index [cellCount] on: every live index holds the device record, the
    mirror is never shortened, and no other member changes. *)
Theorem syncCellPositionsFromGPU_copies_live_cells
    (s : CellManager) (gpuData : list ComputeCell) :
  cell_store (getCellReadBuffer s) (device s) = Some gpuData ->
  0 <= cellCount s <= Z.of_nat (length gpuData) ->
  exists s' tr,
    syncCellPositionsFromGPU s = Ok (s', tr)
    /\ thrown tr = None
    /\ s' = set_cpuCells (cpuCells s') s
    /\ (forall i, 0 <= i < cellCount s -> index_of i (cpuCells s') = index_of i gpuData)
    /\ (forall i, cellCount s <= i -> index_of i (cpuCells s') = index_of i (cpuCells s))
    /\ Z.of_nat (length (cpuCells s'))
       = Z.max (cellCount s) (Z.of_nat (length (cpuCells s))).
Proof.
  intros Hmap Hfit.
  destruct (syncCellPositionsFromGPU_run s gpuData Hmap Hfit) as (tr & Hrun & Hreturned).
  eexists _, tr. split; [exact Hrun |]. split; [exact Hreturned |].
  cbn [cpuCells set_cpuCells].
  set (n := Z.to_nat (cellCount s)).
  assert (Htake : length (take n gpuData) = n) by (rewrite length_take; lia).
  split; [reflexivity |]. split; [| split].
  - intros i Hi. rewrite !index_of_lookup by lia.
    rewrite lookup_app_l by lia. apply lookup_take_lt. lia.
  - intros i Hi. destruct (Z.ltb_spec i 0) as [Hneg | Hnn].
    + unfold index_of. destruct (Z.leb_spec 0 i); [lia | reflexivity].
    + rewrite !index_of_lookup by lia.
      rewrite lookup_app_r by lia. rewrite lookup_drop. f_equal. lia.
  - rewrite length_app, Htake, length_drop. lia.
Qed.

(** X20. Reading back twice is reading back once: with a live count that
    is not negative and the read buffer mapped and long enough, a second
    [syncCellPositionsFromGPU] right after the first returns, as the first
    does, with the same manager and the same log. *)
Theorem syncCellPositionsFromGPU_idempotent
    (s : CellManager) (gpuData : list ComputeCell) :
  cell_store (getCellReadBuffer s) (device s) = Some gpuData ->
  0 <= cellCount s <= Z.of_nat (length gpuData) ->
  exists s' tr,
    syncCellPositionsFromGPU s = Ok (s', tr)
    /\ thrown tr = None
    /\ syncCellPositionsFromGPU s' = Ok (s', tr).
Proof.
  intros Hmap Hfit.
  destruct (syncCellPositionsFromGPU_run s gpuData Hmap Hfit) as (tr & Hrun & Hreturned).
  eexists _, tr. split; [exact Hrun |]. split; [exact Hreturned |].
  set (n := Z.to_nat (cellCount s)) in *.
  set (s' := set_cpuCells (take n gpuData ++ drop n (cpuCells s)) s).
  unfold syncCellPositionsFromGPU in Hrun |- *.
  change (cellCount s') with (cellCount s).
  change (getCellReadBuffer s') with (getCellReadBuffer s).
  change (device s') with (device s).
  destruct (Z.eqb_spec (cellCount s) 0) as [Hzero | Hpos].
  - injection Hrun as Hs' <-. fold s' in Hs'. rewrite <- Hs'. reflexivity.
  - rewrite Hmap in Hrun |- *.
    destruct (Z.ltb_spec (cellCount s) 0) as [? | _]; [lia |].
    rewrite sync_loop_from_start in Hrun |- * by lia. fold n.
    injection Hrun as <-.
    assert (Htake : length (take n gpuData) = n) by (rewrite length_take; lia).
    assert (Hdrop : drop n (cpuCells s') = drop n (cpuCells s)).
    { unfold s'. cbn [cpuCells set_cpuCells].
      rewrite drop_app_length'; [reflexivity | symmetry; exact Htake]. }
    rewrite Hdrop. reflexivity.
Qed.

(** X21. A live count above the length of the mapped store takes the loop of
    [syncCellPositionsFromGPU] past the end of the mapping: the run reads
    [gpuData[i]] out of bounds. *)
Theorem syncCellPositionsFromGPU_reads_past_mapping
    (s : CellManager) (gpuData : list ComputeCell) :
  cell_store (getCellReadBuffer s) (device s) = Some gpuData ->
  Z.of_nat (length gpuData) < cellCount s ->
  syncCellPositionsFromGPU s = Undefined.
Proof.
  intros Hmap Hover. unfold syncCellPositionsFromGPU.
  destruct (Z.eqb_spec (cellCount s) 0) as [Hzero | _]; [lia |].
  rewrite Hmap. destruct (Z.ltb_spec (cellCount s) 0) as [? | _]; [lia |].
  rewrite (sync_loop_overrun gpuData (Z.to_nat (cellCount s)) 0) by lia.
  reflexivity.
Qed.

(** ** The binary32 comparison as an order *)

Ltac fold_compare :=
  repeat match goal with
  | |- context [Pos.compare_cont Eq ?a ?b] =>
      change (Pos.compare_cont Eq a b) with (Pos.compare a b)
  end.

Lemma ltb_irrefl (x : float) : F32.ltb x x = false.
Proof.
  unfold F32.ltb, SFltb.
  destruct x as [[] | [] | | [] m e]; cbn; try reflexivity.
  all: fold_compare; rewrite Z.compare_refl, Pos.compare_refl; reflexivity.
Qed.

Lemma ltb_number_l (x y : float) : F32.ltb x y = true -> is_number x = true.
Proof. destruct x; [reflexivity .. | | reflexivity]. discriminate. Qed.

Lemma ltb_number_r (x y : float) : F32.ltb x y = true -> is_number y = true.
Proof.
  destruct y; [reflexivity .. | | reflexivity].
  unfold F32.ltb, SFltb. destruct x; discriminate.
Qed.

Lemma ltb_trans (x y z : float) :
  F32.ltb x y = true -> F32.ltb y z = true -> F32.ltb x z = true.
Proof.
  unfold F32.ltb, SFltb.
  destruct x as [[] | [] | | [] mx ex], y as [[] | [] | | [] my ey],
    z as [[] | [] | | [] mz ez]; cbn; try congruence.
  all: fold_compare;
    destruct (Z.compare_spec ex ey), (Z.compare_spec ey ez),
      (Pos.compare_spec mx my), (Pos.compare_spec my mz); cbn; try congruence;
    intros _ _;
    destruct (Z.compare_spec ex ez), (Pos.compare_spec mx mz); cbn;
    try reflexivity; lia.
Qed.

Lemma ltb_asym (x y : float) : F32.ltb x y = true -> F32.ltb y x = false.
Proof.
  intros Hxy. destruct (F32.ltb y x) eqn:Hyx; [| reflexivity].
  pose proof (ltb_trans _ _ _ Hxy Hyx) as Hxx. rewrite ltb_irrefl in Hxx. discriminate.
Qed.

(** [y <= x] and [z < y] give [z < x], for numbers. *)
Lemma ltb_below (x y z : float) :
  is_number x = true -> is_number y = true ->
  F32.ltb x y = false -> F32.ltb z y = true -> F32.ltb z x = true.
Proof.
  unfold F32.ltb, SFltb.
  destruct x as [[] | [] | | [] mx ex], y as [[] | [] | | [] my ey],
    z as [[] | [] | | [] mz ez]; cbn; try congruence.
  all: fold_compare; intros _ _;
    destruct (Z.compare_spec ex ey), (Z.compare_spec ez ey),
      (Pos.compare_spec mx my), (Pos.compare_spec mz my); cbn; try congruence;
    intros _ _;
    destruct (Z.compare_spec ez ex), (Pos.compare_spec mz mx); cbn;
    try reflexivity; lia.
Qed.

Lemma hit_distance_positive (o d c : vec3.t float) (r t : float) :
  raySphereIntersection o d c r = Some t -> F32.ltb (F32.of_Z 0) t = true.
Proof.
  intros Hhit. apply (ltb_trans _ (F32.of_ratio 1 1000)); [reflexivity |].
  exact (raySphereIntersection_above_epsilon o d c r t Hhit).
Qed.

(** ** Picking *)

Section SelectionFacts.
Variable getRadius : ComputeCell -> float.
Variables o d : vec3.t float.

Lemma hit_number (cpu : list ComputeCell) (j : nat) (t : float) :
  hit getRadius cpu o d j = Some t -> is_number t = true.
Proof.
  unfold hit. destruct (cpu !! j) as [c |]; [| discriminate].
  intros Hhit. apply hit_distance_positive in Hhit. exact (ltb_number_r _ _ Hhit).
Qed.

Lemma selected_below_number (cpu : list ComputeCell) (k : nat) (acc : Closest) :
  selected_below getRadius cpu o d k acc -> is_number (closestDistance acc) = true.
Proof.
  intros [_ [[_ ->] | (j & _ & _ & Hhit & _)]]; [reflexivity |].
  exact (hit_number _ _ _ Hhit).
Qed.

Lemma select_cell_selected (cpu : list ComputeCell) (k : nat) (cell : ComputeCell)
    (acc : Closest) :
  cpu !! k = Some cell ->
  selected_below getRadius cpu o d k acc ->
  selected_below getRadius cpu o d (S k) (select_cell getRadius o d (Z.of_nat k) cell acc).1.
Proof.
  intros Hcell Hinv. pose proof (selected_below_number _ _ _ Hinv) as Hnum.
  destruct Hinv as (Hnone & Hsel).
  assert (Hhit_k : hit getRadius cpu o d k
                   = raySphereIntersection o d (vec3_of (positionAndMass cell)) (getRadius cell))
    by (unfold hit; rewrite Hcell; reflexivity).
  unfold select_cell. cbv zeta.
  destruct (raySphereIntersection o d (vec3_of (positionAndMass cell)) (getRadius cell))
    as [t |] eqn:Hray; cbn [fst].
  - pose proof (hit_distance_positive _ _ _ _ _ Hray) as Hpos. rewrite Hpos, andb_true_r.
    assert (Hbound : F32.ltb (closestDistance acc) FLT_MAX = true
                     \/ closestDistance acc = FLT_MAX).
    { destruct Hsel as [[_ ->] | (j & _ & _ & _ & Hlt & _)]; [right | left]; done. }
    destruct (F32.ltb t (closestDistance acc)) eqn:Hcloser;
      cbn [closestDistance closestCellIndex].
    + assert (Hearlier : forall j' t', (j' < k)%nat -> hit getRadius cpu o d j' = Some t' ->
                           F32.ltb t t' = true).
      { intros j' t' Hj' Hhit'.
        apply (ltb_below t' (closestDistance acc) t);
          [exact (hit_number _ _ _ Hhit') | exact Hnum | exact (Hnone _ _ Hj' Hhit')
          | exact Hcloser]. }
      split.
      * intros j t' Hj Hhit'. destruct (decide (j = k)) as [-> | Hne].
        -- rewrite Hhit_k in Hhit'. simplify_eq. apply ltb_irrefl.
        -- apply ltb_asym, (Hearlier j); [lia | exact Hhit'].
      * right. exists k. split; [reflexivity |]. split; [lia |]. split; [exact Hhit_k |].
        split; [| exact Hearlier].
        destruct Hbound as [Hlt | Heq];
          [exact (ltb_trans _ _ _ Hcloser Hlt) | rewrite <- Heq; exact Hcloser].
    + split.
      * intros j t' Hj Hhit'. destruct (decide (j = k)) as [-> | Hne].
        -- rewrite Hhit_k in Hhit'. simplify_eq. exact Hcloser.
        -- apply (Hnone j); [lia | exact Hhit'].
      * destruct Hsel as [Hnothing | (j & Hidx & Hj & Hrest)]; [left; exact Hnothing |].
        right. exists j. split; [exact Hidx |]. split; [lia | exact Hrest].
  - split.
    + intros j t' Hj Hhit'. destruct (decide (j = k)) as [-> | Hne].
      * rewrite Hhit_k in Hhit'. discriminate.
      * apply (Hnone j); [lia | exact Hhit'].
    + destruct Hsel as [Hnothing | (j & Hidx & Hj & Hrest)]; [left; exact Hnothing |].
      right. exists j. split; [exact Hidx |]. split; [lia | exact Hrest].
Qed.

Lemma select_loop_selected (cpu : list ComputeCell) (n k : nat) (acc : Closest) :
  (k + n <= length cpu)%nat ->
  selected_below getRadius cpu o d k acc ->
  exists r out,
    select_loop getRadius o d cpu n (Z.of_nat k) acc = Ok (r, out)
    /\ selected_below getRadius cpu o d (k + n) r.
Proof.
  revert k acc. induction n as [| n IH]; intros k acc Hfit Hinv.
  - exists acc, []. rewrite Nat.add_0_r. split; [reflexivity | exact Hinv].
  - cbn [select_loop].
    destruct (lookup_lt_is_Some_2 cpu k ltac:(lia)) as [cell Hcell].
    rewrite index_of_lookup, Nat2Z.id, Hcell by lia.
    pose proof (select_cell_selected cpu k cell acc Hcell Hinv) as Hstep.
    destruct (select_cell getRadius o d (Z.of_nat k) cell acc) as [acc' out] eqn:Hsc.
    cbn [fst] in Hstep.
    replace (Z.of_nat k + 1) with (Z.of_nat (S k)) by lia.
    destruct (IH (S k) acc' ltac:(lia) Hstep) as (r & out' & Hrun & Hr).
    rewrite Hrun. exists r, (out ++ out'). split; [reflexivity |].
    replace (k + S n)%nat with (S k + n)%nat by lia. exact Hr.
Qed.

Lemma select_loop_overrun (cpu : list ComputeCell) (n k : nat) (acc : Closest) :
  (k <= length cpu < k + n)%nat ->
  select_loop getRadius o d cpu n (Z.of_nat k) acc = Undefined.
Proof.
  revert k acc. induction n as [| n IH]; intros k acc Hover; [lia |].
  cbn [select_loop].
  destruct (cpu !! k) as [cell |] eqn:Hcell.
  - rewrite index_of_lookup, Nat2Z.id, Hcell by lia.
    destruct (select_cell getRadius o d (Z.of_nat k) cell acc) as [acc' out].
    replace (Z.of_nat k + 1) with (Z.of_nat (S k)) by lia.
    apply lookup_lt_Some in Hcell.
    rewrite (IH (S k) acc') by lia. reflexivity.
  - rewrite index_of_lookup, Nat2Z.id, Hcell by lia. reflexivity.
Qed.

(** The whole run, for a mirror that covers the live cells. *)
Lemma selectCellAtPosition_run (s : CellManager) :
  cellCount s <= Z.of_nat (length (cpuCells s)) ->
  exists r out tr,
    select_loop getRadius o d (cpuCells s) (Z.to_nat (cellCount s)) 0
      (mkClosest FLT_MAX (-1) 0) = Ok (r, out)
    /\ selectCellAtPosition getRadius s o d = Ok (closestCellIndex r, tr)
    /\ selected_below getRadius (cpuCells s) o d (Z.to_nat (cellCount s)) r.
Proof.
  intros Hfit.
  destruct (select_loop_selected (cpuCells s) (Z.to_nat (cellCount s)) 0
              (mkClosest FLT_MAX (-1) 0) ltac:(lia)) as (r & out & Hrun & Hr).
  { split; [intros j t Hj; lia | left; split; reflexivity]. }
  change (Z.of_nat 0) with 0 in Hrun. cbn [Nat.add] in Hr.
  exists r, out. unfold selectCellAtPosition. rewrite Hrun.
  eexists. split; [reflexivity |]. split; [reflexivity | exact Hr].
Qed.

Lemma selectCellAtPosition_defined (s : CellManager) (idx : Z) (tr : list ToolEvent) :
  selectCellAtPosition getRadius s o d = Ok (idx, tr) ->
  cellCount s <= Z.of_nat (length (cpuCells s)).
Proof.
  intros Hrun. destruct (Z.le_gt_cases (cellCount s) (Z.of_nat (length (cpuCells s))))
    as [Hfit | Hover]; [exact Hfit |].
  unfold selectCellAtPosition in Hrun.
  rewrite (select_loop_overrun (cpuCells s) (Z.to_nat (cellCount s)) 0) in Hrun by lia.
  discriminate.
Qed.

(** X22. When the mirror covers the live cells, [selectCellAtPosition]
    returns either -1 or the index of a live cell that the ray test reports
    as hit, at a distance below [FLT_MAX]. *)
Theorem selectCellAtPosition_selects_a_hit (s : CellManager) :
  cellCount s <= Z.of_nat (length (cpuCells s)) ->
  exists idx tr,
    selectCellAtPosition getRadius s o d = Ok (idx, tr)
    /\ (idx = -1
        \/ 0 <= idx < cellCount s
           /\ exists t, hit getRadius (cpuCells s) o d (Z.to_nat idx) = Some t
                /\ F32.ltb (F32.of_Z 0) t = true
                /\ F32.ltb t FLT_MAX = true).
Proof.
  intros Hfit. destruct (selectCellAtPosition_run s Hfit) as (r & out & tr & _ & Hrun & Hr).
  exists (closestCellIndex r), tr. split; [exact Hrun |].
  destruct Hr as [_ [[Hidx _] | (j & Hidx & Hj & Hhit & Hlt & _)]]; [left; exact Hidx |].
  right. rewrite Hidx, Nat2Z.id. split; [lia |].
  exists (closestDistance r). split; [exact Hhit |]. split; [| exact Hlt].
  unfold hit in Hhit. destruct (cpuCells s !! j); [| discriminate].
  exact (hit_distance_positive _ _ _ _ _ Hhit).
Qed.

(** X23. The cell that [selectCellAtPosition] returns is a nearest one: no
    live cell is hit at a smaller distance, and every hit cell with a
    smaller index is strictly farther, so that of several nearest cells the
    first is returned. *)
Theorem selectCellAtPosition_selects_nearest
    (s : CellManager) (idx : Z) (tr : list ToolEvent) (t : float) :
  selectCellAtPosition getRadius s o d = Ok (idx, tr) ->
  0 <= idx ->
  hit getRadius (cpuCells s) o d (Z.to_nat idx) = Some t ->
  forall j t', Z.of_nat j < cellCount s ->
    hit getRadius (cpuCells s) o d j = Some t' ->
    F32.ltb t' t = false /\ (Z.of_nat j < idx -> F32.ltb t t' = true).
Proof.
  intros Hsel Hidx Hhit j t' Hj Hhit'.
  pose proof (selectCellAtPosition_defined s idx tr Hsel) as Hfit.
  destruct (selectCellAtPosition_run s Hfit) as (r & out & tr' & _ & Hrun & Hr).
  rewrite Hrun in Hsel. injection Hsel as <- _.
  destruct Hr as [Hnone [[Hno _] | (k & Hk & _ & Hhit_k & _ & Hearlier)]]; [lia |].
  rewrite Hk, Nat2Z.id in Hhit. rewrite Hhit_k in Hhit. injection Hhit as <-.
  split.
  - apply (Hnone j); [lia | exact Hhit'].
  - intros Hbefore. apply (Hearlier j); [lia | exact Hhit'].
Qed.

(** X24. [selectCellAtPosition] returns -1 exactly when no live cell is hit
    at a distance below [FLT_MAX]. *)
Theorem selectCellAtPosition_no_selection (s : CellManager) :
  cellCount s <= Z.of_nat (length (cpuCells s)) ->
  (exists tr, selectCellAtPosition getRadius s o d = Ok (-1, tr))
  <-> (forall j t, Z.of_nat j < cellCount s ->
         hit getRadius (cpuCells s) o d j = Some t -> F32.ltb t FLT_MAX = false).
Proof.
  intros Hfit. destruct (selectCellAtPosition_run s Hfit) as (r & out & tr & _ & Hrun & Hr).
  destruct Hr as [Hnone Hsel]. split.
  - intros [tr' Hminus] j t Hj Hhit. rewrite Hrun in Hminus. injection Hminus as Hidx _.
    destruct Hsel as [[_ Hmax] | (k & Hk & _)]; [| lia].
    rewrite <- Hmax. apply (Hnone j); [lia | exact Hhit].
  - intros Hfar. exists tr. rewrite Hrun.
    destruct Hsel as [[-> _] | (k & _ & Hk & Hhit & Hlt & _)]; [reflexivity |].
    rewrite (Hfar k _ ltac:(lia) Hhit) in Hlt. discriminate.
Qed.

(** X25. With more live cells than mirror entries the loop of
    [selectCellAtPosition] reads [cpuCells[i]] past the end of the vector. *)
Theorem selectCellAtPosition_reads_past_mirror (s : CellManager) :
  Z.of_nat (length (cpuCells s)) < cellCount s ->
  selectCellAtPosition getRadius s o d = Undefined.
Proof.
  intros Hover. unfold selectCellAtPosition.
  rewrite (select_loop_overrun (cpuCells s) (Z.to_nat (cellCount s)) 0) by lia.
  reflexivity.
Qed.

(** X26. Read-back followed by picking, as [handleMouseInput] runs them:
    with a live count that is not negative and the read buffer mapped and
    long enough, both return, whatever the mirror held before, and a cell
    that is picked is a device record that the ray test reports as hit. *)
Theorem selectCellAtPosition_after_sync (s : CellManager) (gpuData : list ComputeCell) :
  cell_store (getCellReadBuffer s) (device s) = Some gpuData ->
  0 <= cellCount s <= Z.of_nat (length gpuData) ->
  exists s' tr idx tr',
    syncCellPositionsFromGPU s = Ok (s', tr)
    /\ thrown tr = None
    /\ selectCellAtPosition getRadius s' o d = Ok (idx, tr')
    /\ (idx = -1
        \/ 0 <= idx < cellCount s
           /\ exists c t, index_of idx gpuData = Some c
                /\ raySphereIntersection o d (vec3_of (positionAndMass c)) (getRadius c)
                   = Some t).
Proof.
  intros Hmap Hfit.
  destruct (syncCellPositionsFromGPU_run s gpuData Hmap Hfit) as (tr & Hsync & Hreturned).
  set (n := Z.to_nat (cellCount s)) in *.
  set (s' := set_cpuCells (take n gpuData ++ drop n (cpuCells s)) s) in *.
  assert (Htake : length (take n gpuData) = n) by (rewrite length_take; lia).
  assert (Hcover : cellCount s' <= Z.of_nat (length (cpuCells s'))).
  { unfold s'. cbn [cpuCells set_cpuCells cellCount]. rewrite length_app, Htake. lia. }
  destruct (selectCellAtPosition_run s' Hcover) as (r & out & tr' & _ & Hrun & Hr).
  exists s', tr, (closestCellIndex r), tr'. split; [exact Hsync |].
  split; [exact Hreturned |]. split; [exact Hrun |].
  destruct Hr as [_ [[Hidx _] | (j & Hidx & Hj & Hhit & _)]]; [left; exact Hidx |].
  right. change (cellCount s') with (cellCount s) in Hj. fold n in Hj.
  rewrite Hidx. split; [lia |].
  unfold hit, s' in Hhit. cbn [cpuCells set_cpuCells] in Hhit.
  rewrite lookup_app_l in Hhit by lia. rewrite lookup_take_lt in Hhit by lia.
  rewrite index_of_lookup, Nat2Z.id by lia.
  destruct (gpuData !! j) as [c |]; [| discriminate].
  exists c, (closestDistance r). split; [reflexivity | exact Hhit].
Qed.

End SelectionFacts.

(** ** Host writes and read-back *)

Section WriteThenReadBack.
Context `{Config} `{Shaders}.

(** The mirror entry [i] after a read-back, from the device record or from
    the mirror before. *)
Lemma syncCellPositionsFromGPU_entry (s : CellManager) (gpuData : list ComputeCell) :
  cell_store (getCellReadBuffer s) (device s) = Some gpuData ->
  0 <= cellCount s <= Z.of_nat (length gpuData) ->
  exists s' tr,
    syncCellPositionsFromGPU s = Ok (s', tr)
    /\ thrown tr = None
    /\ forall i : nat,
         cpuCells s' !! i
         = if decide (Z.of_nat i < cellCount s) then gpuData !! i else cpuCells s !! i.
Proof.
  intros Hmap Hfit.
  destruct (syncCellPositionsFromGPU_run s gpuData Hmap Hfit) as (tr & Hrun & Hreturned).
  eexists _, tr. split; [exact Hrun |]. split; [exact Hreturned |].
  cbn [cpuCells set_cpuCells].
  set (n := Z.to_nat (cellCount s)).
  assert (Htake : length (take n gpuData) = n) by (rewrite length_take; lia).
  intros i. destruct (decide (Z.of_nat i < cellCount s)) as [Hlive | Hrest].
  - rewrite lookup_app_l by lia. apply lookup_take_lt. lia.
  - rewrite lookup_app_r by lia. rewrite lookup_drop. f_equal. lia.
Qed.

(** X27. [updateCellData] uploads the record to [cellBuffer[0]] and
    [cellBuffer[1]] only. While one of these is the read buffer, the record
    written is the one a read-back returns to the mirror. *)
Theorem updateCellData_survives_readback
    (s : CellManager) (index : Z) (newData : ComputeCell) (gpuData : list ComputeCell) :
  0 <= index < cellCount s ->
  (Z.to_nat index < length (cpuCells s))%nat ->
  bufferRotation s = 0 \/ bufferRotation s = 1 ->
  mem_cells (device s) !! Z.to_nat (bufferRotation s) = Some gpuData ->
  cellCount s <= Z.of_nat (length gpuData) ->
  returns (updateCellData index newData) s (fun _ s1 _ =>
    exists s2 tr,
      syncCellPositionsFromGPU s1 = Ok (s2, tr)
      /\ index_of index (cpuCells s2) = Some newData).
Proof.
  intros Hindex Hlen Hrot Hbuf Hfit.
  eapply returns_conseq; [apply (updateCellData_returns s index newData Hindex Hlen) |].
  intros [] s1 tr1 ->. cbn beta.
  set (s1 := set_device _ _).
  assert (Hmap : cell_store (getCellReadBuffer s1) (device s1)
                 = Some (<[Z.to_nat index := newData]> gpuData)).
  { unfold getCellReadBuffer, s1.
    cbn [bufferRotation set_device set_selectedCell set_cpuCells device cell_store
         mem_cells set_mem_cells].
    destruct Hrot as [Hrot | Hrot]; rewrite Hrot in Hbuf |- *;
      change (Z.to_nat 0) with 0%nat in *; change (Z.to_nat 1) with 1%nat in *.
    - rewrite list_lookup_alter_ne, list_lookup_alter_eq, Hbuf by lia. reflexivity.
    - rewrite list_lookup_alter_eq, list_lookup_alter_ne, Hbuf by lia. reflexivity. }
  destruct (syncCellPositionsFromGPU_entry s1 _ Hmap) as (s2 & tr & Hsync & _ & Hentry).
  { rewrite length_insert. change (cellCount s1) with (cellCount s). lia. }
  exists s2, tr. split; [exact Hsync |].
  rewrite index_of_lookup, Hentry by lia.
  change (cellCount s1) with (cellCount s).
  destruct (decide (Z.of_nat (Z.to_nat index) < cellCount s)) as [_ | ?]; [| lia].
  apply list_lookup_insert_eq. lia.
Qed.

(** X28. While [cellBuffer[2]] is the read buffer, the record written by
    [updateCellData] is in the mirror ([getCellData] would return it) but not
    in the buffer a read-back maps: the next [syncCellPositionsFromGPU]
    puts the old device record back. *)
Theorem updateCellData_lost_on_third_buffer
    (s : CellManager) (index : Z) (newData : ComputeCell) (gpuData : list ComputeCell) :
  0 <= index < cellCount s ->
  (Z.to_nat index < length (cpuCells s))%nat ->
  bufferRotation s = 2 ->
  mem_cells (device s) !! 2%nat = Some gpuData ->
  cellCount s <= Z.of_nat (length gpuData) ->
  returns (updateCellData index newData) s (fun _ s1 _ =>
    index_of index (cpuCells s1) = Some newData
    /\ exists s2 tr,
         syncCellPositionsFromGPU s1 = Ok (s2, tr)
         /\ index_of index (cpuCells s2) = index_of index gpuData).
Proof.
  intros Hindex Hlen Hrot Hbuf Hfit.
  eapply returns_conseq; [apply (updateCellData_returns s index newData Hindex Hlen) |].
  intros [] s1 tr1 ->. cbn beta.
  set (s1 := set_device _ _).
  split.
  { rewrite index_of_lookup by lia. unfold s1.
    cbn [cpuCells set_device set_selectedCell set_cpuCells].
    apply list_lookup_insert_eq. lia. }
  assert (Hmap : cell_store (getCellReadBuffer s1) (device s1) = Some gpuData).
  { unfold getCellReadBuffer, s1.
    cbn [bufferRotation set_device set_selectedCell set_cpuCells device cell_store
         mem_cells set_mem_cells].
    rewrite Hrot. change (Z.to_nat 2) with 2%nat.
    rewrite !list_lookup_alter_ne by lia. exact Hbuf. }
  destruct (syncCellPositionsFromGPU_entry s1 _ Hmap) as (s2 & tr & Hsync & _ & Hentry).
  { change (cellCount s1) with (cellCount s). lia. }
  exists s2, tr. split; [exact Hsync |].
  rewrite !index_of_lookup, Hentry by lia.
  change (cellCount s1) with (cellCount s).
  destruct (decide (Z.of_nat (Z.to_nat index) < cellCount s)) as [_ | ?]; [reflexivity | lia].
Qed.

(** X29. [dragSelectedCell] uploads to all three cell buffers: whichever of
    them is the read buffer, with a live count that is not negative the
    read-back that follows returns, and the dragged record is what the
    mirror holds after it. *)
Theorem dragSelectedCell_survives_readback
    (s : CellManager) (p : vec3.t float) (c : ComputeCell) (gpuData : list ComputeCell) :
  isValid (selectedCell s) = true ->
  0 <= cellIndex (selectedCell s) ->
  cpuCells s !! Z.to_nat (cellIndex (selectedCell s)) = Some c ->
  0 <= bufferRotation s < 3 ->
  mem_cells (device s) !! Z.to_nat (bufferRotation s) = Some gpuData ->
  0 <= cellCount s <= Z.of_nat (length gpuData) ->
  returns (dragSelectedCell p) s (fun _ s1 _ =>
    exists s2 tr,
      syncCellPositionsFromGPU s1 = Ok (s2, tr)
      /\ thrown tr = None
      /\ index_of (cellIndex (selectedCell s)) (cpuCells s2) = Some (dragged p c)).
Proof.
  intros Hvalid Hlo Hc Hrot Hbuf Hfit.
  pose proof (lookup_lt_Some _ _ _ Hc) as Hlen.
  eapply returns_conseq; [apply (dragSelectedCell_returns s p c Hvalid Hlo Hc) |].
  intros [] s1 tr1 ->. cbn beta.
  set (n := Z.to_nat (cellIndex (selectedCell s))) in *.
  set (s1 := set_device _ _).
  assert (Hmap : cell_store (getCellReadBuffer s1) (device s1)
                 = Some (<[n := dragged p c]> gpuData)).
  { unfold getCellReadBuffer, s1.
    cbn [bufferRotation set_device set_selectedCell set_cpuCells device cell_store
         mem_cells set_mem_cells].
    change (alter (<[n := dragged p c]>) 2%nat _)
      with (alter3 (<[n := dragged p c]>) (mem_cells (device s))).
    rewrite alter3_lookup, Hbuf.
    destruct (decide (Z.to_nat (bufferRotation s) < 3)%nat); [reflexivity | lia]. }
  destruct (syncCellPositionsFromGPU_entry s1 _ Hmap) as (s2 & tr & Hsync & Hreturned & Hentry).
  { rewrite length_insert. exact Hfit. }
  exists s2, tr. split; [exact Hsync |]. split; [exact Hreturned |].
  rewrite index_of_lookup by lia. fold n. rewrite Hentry.
  change (cellCount s1) with (cellCount s).
  destruct (decide (Z.of_nat n < cellCount s)) as [Hlive | Hrest].
  - apply list_lookup_insert_eq. lia.
  - unfold s1. cbn [cpuCells set_device set_selectedCell set_cpuCells].
    apply list_lookup_insert_eq. exact Hlen.
Qed.

End WriteThenReadBack.

(** ** The further properties at concrete states *)

Lemma addCellsToGPUBuffer_uploads_batch_witness :
  exists s',
    @addCellsToGPUBuffer small_config [cell_at 1 2 3 1] fresh_manager =
      Ok (tt, s', [Stdout (MsgAddingCells 1 0);
                   GLBufferSubData cellAdditionBuffer 0 1;
                   GLBufferSubData gpuCellCountBuffer 1 1;
                   GLCopyBufferSubData gpuCellCountBuffer stagingCellCountBuffer])
    /\ mem_additions (device s') !! 0%nat = Some (cell_at 1 2 3 1)
    /\ mem_additions (device s') !! 1%nat = Some ComputeCell_zero
    /\ gpuPendingCellCount s' = 1
    /\ cellCount s' = 0.
Proof.
  destruct (@addCellsToGPUBuffer_uploads_batch small_config fresh_manager [cell_at 1 2 3 1])
    as (s' & Hrun & Hnew & Hold & _ & Hpending & _ & _ & _ & Hcount & _).
  - by_evaluation.
  - by_evaluation.
  - by_evaluation.
  - exists s'. split; [exact Hrun |].
    split; [exact (Hnew 0%nat _ eq_refl) |].
    split; [rewrite (Hold 1%nat) by (right; cbn; lia); reflexivity |].
    split; [exact Hpending | exact Hcount].
Defined.

Lemma addCellsToGPUBuffer_rejects_batch_witness :
  @addCellsToGPUBuffer small_config (replicate 5 ComputeCell_zero) fresh_manager =
    Ok (tt, fresh_manager, [Stdout (MsgAddingCells 5 0); Stdout MsgMaxCellsWarning]).
Proof.
  apply (@addCellsToGPUBuffer_rejects_batch small_config fresh_manager
           (replicate 5 ComputeCell_zero)).
  by_evaluation.
Defined.

Lemma addStagedCellsToGPUBuffer_drops_rejected_batch_witness :
  exists s' tr,
    @addStagedCellsToGPUBuffer small_config
      (set_cellStagingBuffer [cell_at 1 2 3 1] (set_cellCount 4 fresh_manager))
      = Ok (tt, s', tr)
    /\ cellStagingBuffer s' = []
    /\ cpuPendingCellCount s' = 0
    /\ device s' = fresh_device.
Proof.
  destruct (@addStagedCellsToGPUBuffer_drops_rejected_batch small_config
              (set_cellStagingBuffer [cell_at 1 2 3 1] (set_cellCount 4 fresh_manager)))
    as (s' & tr & Hrun & Hstaging & Hcount & _ & _ & Hdevice & _).
  - discriminate.
  - by_evaluation.
  - exists s', tr. split; [exact Hrun |]. split; [exact Hstaging |].
    split; [exact Hcount | exact Hdevice].
Defined.

Lemma addCellToStagingBuffer_accepts_any_burst_witness :
  exists s',
    for_each (replicate 6 (cell_at 0 0 0 5)) (@addCellToStagingBuffer small_config)
      fresh_manager = Ok (tt, s', [])
    /\ length (cellStagingBuffer s') = 6%nat
    /\ cpuPendingCellCount s' = 6
    /\ cellCount s' = 0.
Proof.
  destruct (@addCellToStagingBuffer_accepts_any_burst small_config
              (replicate 6 (cell_at 0 0 0 5)) fresh_manager)
    as (s' & Hrun & Hstaging & _ & Hpending & Hcount & _).
  - by_evaluation.
  - exists s'. split; [exact Hrun |].
    split; [rewrite Hstaging; reflexivity |].
    split; [exact Hpending | exact Hcount].
Defined.

Lemma updateCellData_ignores_invalid_index_witness :
  updateCellData 2 (cell_at 9 9 9 1) dragging_manager = Ok (tt, dragging_manager, []).
Proof.
  apply (updateCellData_ignores_invalid_index dragging_manager 2 (cell_at 9 9 9 1)).
  right. by_evaluation.
Defined.

Lemma updateCellData_getCellData_roundtrip_witness :
  returns (updateCellData 0 (cell_at 9 9 9 1) ;; getCellData 0) dragging_manager
    (fun c _ _ => c = cell_at 9 9 9 1).
Proof.
  apply (updateCellData_getCellData_roundtrip dragging_manager 0 (cell_at 9 9 9 1)).
  - split; by_evaluation.
  - cbn. lia.
Defined.

Lemma dragSelectedCell_without_selection_witness :
  dragSelectedCell (vec3.mk (F32.of_Z 7) (F32.of_Z 8) (F32.of_Z 9)) fresh_manager
  = Ok (tt, fresh_manager, []).
Proof.
  apply (dragSelectedCell_without_selection fresh_manager). reflexivity.
Defined.

Lemma dragSelectedCell_last_position_wins_witness :
  exists s2 tr12 tr2,
    (dragSelectedCell (vec3.mk (F32.of_Z 7) (F32.of_Z 8) (F32.of_Z 9)) ;;
     dragSelectedCell (vec3.mk (F32.of_Z 1) (F32.of_Z 0) (F32.of_Z 2))) dragging_manager
      = Ok (tt, s2, tr12)
    /\ dragSelectedCell (vec3.mk (F32.of_Z 1) (F32.of_Z 0) (F32.of_Z 2)) dragging_manager
       = Ok (tt, s2, tr2).
Proof.
  apply (dragSelectedCell_last_position_wins dragging_manager _ _ moving_cell).
  - reflexivity.
  - by_evaluation.
  - reflexivity.
Defined.

Lemma endDrag_stops_cell_witness :
  exists c' s' tr,
    endDrag dragging_manager = Ok (tt, s', tr)
    /\ isDraggingCell s' = false
    /\ cpuCells s' = <[1%nat := c']> (cpuCells dragging_manager)
    /\ positionAndMass c' = positionAndMass moving_cell
    /\ vec4.x (velocity c') = F32.zero
    /\ vec4.y (velocity c') = F32.zero
    /\ vec4.z (velocity c') = F32.zero.
Proof.
  destruct (endDrag_stops_cell dragging_manager moving_cell)
    as (c' & s' & tr & Hrun & Hflag & _ & _ & Hcpu & _ & Hpos & Hx & Hy & Hz & _).
  - reflexivity.
  - reflexivity.
  - by_evaluation.
  - reflexivity.
  - exists c', s', tr. split; [exact Hrun |]. split; [exact Hflag |].
    split; [exact Hcpu |]. split; [exact Hpos |]. split; [exact Hx |].
    split; [exact Hy | exact Hz].
Defined.

Lemma numGroups_for_covers_witness :
  100 <= 64 * numGroups_for 100 < 100 + 64.
Proof.
  apply (numGroups_for_covers 100). lia.
Defined.

Lemma resetSimulation_clears_everything_witness :
  exists s' tr,
    resetSimulation dragging_manager = Ok (tt, s', tr)
    /\ cpuCells s' = []
    /\ cellCount s' = 0
    /\ isValid (selectedCell s') = false
    /\ mem_counter (device s') = (0, 0)
    /\ (forall i b j c, mem_cells (device s') !! i = Some b -> b !! j = Some c ->
          c = ComputeCell_zero).
Proof.
  destruct (@resetSimulation_clears_everything small_config dragging_manager)
    as (s' & tr & Hrun & _ & Hcpu & _ & Hcount & _ & _ & _ & Hsel & _ & Hctr & _ & Hzero & _).
  - exact dragging_manager_allocated.
  - exists s', tr. split; [exact Hrun |]. split; [exact Hcpu |]. split; [exact Hcount |].
    split; [exact Hsel |]. split; [exact Hctr | exact Hzero].
Defined.

Lemma updateCells_flushes_staging_witness :
  cellStagingBuffer staged_manager = [cell_at 1 2 3 1]
  /\ cpuPendingCellCount staged_manager = 1
  /\ returns (@updateCells small_config idle_shaders (F32.of_Z 1)) staged_manager
       (fun _ s' _ => cellStagingBuffer s' = [] /\ cpuPendingCellCount s' = 0).
Proof.
  split; [reflexivity |]. split; [reflexivity |].
  apply (@updateCells_flushes_staging small_config idle_shaders staged_manager).
  reflexivity.
Defined.

Lemma raySphereIntersection_distance_is_usable_witness :
  F32.ltb (F32.of_ratio 1 1000) (F32.of_Z 4) = true
  /\ F32.of_Z 4 <> S754_nan
  /\ F32.of_Z 4 <> S754_zero false.
Proof.
  apply (raySphereIntersection_distance_is_usable sample_origin sample_direction
           (vec3.mk (F32.of_Z 0) (F32.of_Z 0) (F32.of_Z 0)) (F32.of_Z 1)).
  vm_compute. reflexivity.
Defined.

Lemma syncCellPositionsFromGPU_copies_live_cells_witness :
  exists s' tr,
    syncCellPositionsFromGPU
      (set_cpuCells [ComputeCell_zero; ComputeCell_zero; cell_at 9 9 9 1] dragging_manager)
      = Ok (s', tr)
    /\ thrown tr = None
    /\ index_of 0 (cpuCells s') = Some (cell_at 0 0 0 1)
    /\ index_of 1 (cpuCells s') = Some moving_cell
    /\ index_of 2 (cpuCells s') = Some (cell_at 9 9 9 1)
    /\ Z.of_nat (length (cpuCells s')) = 3.
Proof.
  destruct (syncCellPositionsFromGPU_copies_live_cells
              (set_cpuCells [ComputeCell_zero; ComputeCell_zero; cell_at 9 9 9 1]
                 dragging_manager)
              [cell_at 0 0 0 1; moving_cell; ComputeCell_zero; ComputeCell_zero])
    as (s' & tr & Hrun & Hreturned & _ & Hlive & Hrest & Hlen).
  - reflexivity.
  - split; by_evaluation.
  - exists s', tr. split; [exact Hrun |]. split; [exact Hreturned |].
    split; [rewrite (Hlive 0) by (cbn; lia); reflexivity |].
    split; [rewrite (Hlive 1) by (cbn; lia); reflexivity |].
    split; [rewrite (Hrest 2) by (cbn; lia); reflexivity |].
    rewrite Hlen. reflexivity.
Defined.

Lemma syncCellPositionsFromGPU_idempotent_witness :
  exists s' tr,
    syncCellPositionsFromGPU (set_cpuCells [] dragging_manager) = Ok (s', tr)
    /\ thrown tr = None
    /\ syncCellPositionsFromGPU s' = Ok (s', tr).
Proof.
  apply (syncCellPositionsFromGPU_idempotent (set_cpuCells [] dragging_manager)
           [cell_at 0 0 0 1; moving_cell; ComputeCell_zero; ComputeCell_zero]).
  - reflexivity.
  - split; by_evaluation.
Defined.

Lemma syncCellPositionsFromGPU_reads_past_mapping_witness :
  syncCellPositionsFromGPU (set_cellCount 5 dragging_manager) = Undefined.
Proof.
  apply (syncCellPositionsFromGPU_reads_past_mapping (set_cellCount 5 dragging_manager)
           [cell_at 0 0 0 1; moving_cell; ComputeCell_zero; ComputeCell_zero]).
  - reflexivity.
  - by_evaluation.
Defined.

Lemma selectCellAtPosition_selects_a_hit_witness :
  exists idx tr,
    selectCellAtPosition unit_radius picking_manager sample_origin sample_direction
      = Ok (idx, tr)
    /\ (idx = -1
        \/ 0 <= idx < 2
           /\ exists t,
                hit unit_radius (cpuCells picking_manager) sample_origin sample_direction
                  (Z.to_nat idx) = Some t
                /\ F32.ltb (F32.of_Z 0) t = true
                /\ F32.ltb t FLT_MAX = true).
Proof.
  apply (selectCellAtPosition_selects_a_hit unit_radius sample_origin sample_direction
           picking_manager).
  by_evaluation.
Defined.

Lemma selectCellAtPosition_selects_nearest_witness :
  F32.ltb (F32.of_Z 7) (F32.of_Z 4) = false
  /\ (Z.of_nat 0 < 1 -> F32.ltb (F32.of_Z 4) (F32.of_Z 7) = true).
Proof.
  apply (selectCellAtPosition_selects_nearest unit_radius sample_origin sample_direction
           picking_manager 1
           (log_of (selectCellAtPosition unit_radius picking_manager sample_origin
                      sample_direction))
           (F32.of_Z 4)).
  - vm_compute. reflexivity.
  - lia.
  - vm_compute. reflexivity.
  - by_evaluation.
  - vm_compute. reflexivity.
Defined.

Lemma selectCellAtPosition_no_selection_witness :
  cellCount missed_manager = 2
  /\ exists tr,
       selectCellAtPosition unit_radius missed_manager sample_origin sample_direction
       = Ok (-1, tr).
Proof.
  split; [reflexivity |].
  apply (proj2 (selectCellAtPosition_no_selection unit_radius sample_origin sample_direction
                  missed_manager ltac:(by_evaluation))).
  intros j t Hlive Hhit. exfalso.
  destruct j as [| [| j]]; [| | cbn in Hlive; lia]; vm_compute in Hhit; discriminate.
Defined.

Lemma selectCellAtPosition_reads_past_mirror_witness :
  selectCellAtPosition unit_radius (set_cellCount 1 fresh_manager)
    sample_origin sample_direction = Undefined.
Proof.
  apply (selectCellAtPosition_reads_past_mirror unit_radius sample_origin sample_direction
           (set_cellCount 1 fresh_manager)).
  by_evaluation.
Defined.

Lemma selectCellAtPosition_after_sync_witness :
  exists s' tr idx tr',
    syncCellPositionsFromGPU (set_cpuCells [] dragging_manager) = Ok (s', tr)
    /\ thrown tr = None
    /\ selectCellAtPosition unit_radius s' sample_origin sample_direction = Ok (idx, tr')
    /\ (idx = -1
        \/ 0 <= idx < 2
           /\ exists c t,
                index_of idx [cell_at 0 0 0 1; moving_cell; ComputeCell_zero; ComputeCell_zero]
                = Some c
                /\ raySphereIntersection sample_origin sample_direction
                     (vec3_of (positionAndMass c)) (unit_radius c) = Some t).
Proof.
  apply (selectCellAtPosition_after_sync unit_radius sample_origin sample_direction
           (set_cpuCells [] dragging_manager)
           [cell_at 0 0 0 1; moving_cell; ComputeCell_zero; ComputeCell_zero]).
  - reflexivity.
  - split; by_evaluation.
Defined.

Lemma updateCellData_survives_readback_witness :
  returns (updateCellData 0 (cell_at 9 9 9 1)) dragging_manager (fun _ s1 _ =>
    exists s2 tr,
      syncCellPositionsFromGPU s1 = Ok (s2, tr)
      /\ index_of 0 (cpuCells s2) = Some (cell_at 9 9 9 1)).
Proof.
  apply (updateCellData_survives_readback dragging_manager 0 (cell_at 9 9 9 1)
           [cell_at 0 0 0 1; moving_cell; ComputeCell_zero; ComputeCell_zero]).
  - split; by_evaluation.
  - cbn. lia.
  - left. reflexivity.
  - reflexivity.
  - by_evaluation.
Defined.

Lemma updateCellData_lost_on_third_buffer_witness :
  returns (updateCellData 0 (cell_at 9 9 9 1)) (set_bufferRotation 2 dragging_manager)
    (fun _ s1 _ =>
       index_of 0 (cpuCells s1) = Some (cell_at 9 9 9 1)
       /\ exists s2 tr,
            syncCellPositionsFromGPU s1 = Ok (s2, tr)
            /\ index_of 0 (cpuCells s2) = Some (cell_at 0 0 0 1)).
Proof.
  apply (updateCellData_lost_on_third_buffer (set_bufferRotation 2 dragging_manager) 0
           (cell_at 9 9 9 1)
           [cell_at 0 0 0 1; moving_cell; ComputeCell_zero; ComputeCell_zero]).
  - split; by_evaluation.
  - cbn. lia.
  - reflexivity.
  - reflexivity.
  - by_evaluation.
Defined.

Lemma dragSelectedCell_survives_readback_witness :
  returns (dragSelectedCell (vec3.mk (F32.of_Z 7) (F32.of_Z 8) (F32.of_Z 9)))
    (set_bufferRotation 2 dragging_manager)
    (fun _ s1 _ =>
       exists s2 tr,
         syncCellPositionsFromGPU s1 = Ok (s2, tr)
         /\ thrown tr = None
         /\ index_of 1 (cpuCells s2)
            = Some (dragged (vec3.mk (F32.of_Z 7) (F32.of_Z 8) (F32.of_Z 9)) moving_cell)).
Proof.
  apply (dragSelectedCell_survives_readback (set_bufferRotation 2 dragging_manager)
           (vec3.mk (F32.of_Z 7) (F32.of_Z 8) (F32.of_Z 9)) moving_cell
           [cell_at 0 0 0 1; moving_cell; ComputeCell_zero; ComputeCell_zero]).
  - reflexivity.
  - by_evaluation.
  - reflexivity.
  - split; by_evaluation.
  - reflexivity.
  - split; by_evaluation.
Defined.
